(** * flashback_bot: the quote store, the pending-URL cache and the command
    handlers, embedded from [src/database.py] and [src/bot.py].

    The SQLite tables are lists of rows in rowid order, the bot's
    [context.user_data] dictionary is a finite map with string keys, and the
    clock and the random draws of [ORDER BY RANDOM()] are explicit inputs of
    the operations that consult them. *)

From Stdlib Require Import ZArith List String Ascii Lia Bool DecimalString.
From stdpp Require Import base list strings gmap sorting.

Open Scope Z_scope.

(** ** Text helpers *)

Module Text.

(** Line feed and the double quote, which the handlers put in replies. *)
Definition nl : string := String (ascii_of_nat 10) "".
Definition dq : string := String (ascii_of_nat 34) "".

(** Python's [str(n)] and f-string rendering of an integer. *)
Definition of_Z (n : Z) : string := NilZero.string_of_int (Z.to_int n).

(** A [str] is held as its UTF-8 encoding: a character is a byte that is
    not a continuation byte ([10xxxxxx]), with the continuation bytes that
    follow it. *)
Definition continuation (c : ascii) : bool :=
  let n := N_of_ascii c in ((128 <=? n) && (n <? 192))%N.

(** The number of characters of a text. *)
Fixpoint chars (s : string) : nat :=
  match s with
  | "" => O
  | String c s' => if continuation c then chars s' else S (chars s')
  end.

(** Python's [len(s)], as an integer. *)
Definition len (s : string) : Z := Z.of_nat (chars s).

(** The first [n] characters of a text. *)
Fixpoint take_chars (n : nat) (s : string) : string :=
  match s with
  | "" => ""
  | String c s' =>
      if continuation c then String c (take_chars n s')
      else match n with
           | O => ""
           | S n' => String c (take_chars n' s')
           end
  end.

(** Python's slice [s[:n]]; a negative [n] counts from the end. *)
Definition prefix (n : Z) (s : string) : string :=
  if n <? 0 then take_chars (chars s - Z.to_nat (- n)) s
  else take_chars (Z.to_nat n) s.

(** [sep.join(parts)] *)
Definition join (sep : string) (parts : list string) : string :=
  String.concat sep parts.

(** Zero-padded decimal of width [w], for [0 <= n < 10^w]. *)
Fixpoint pad (w : nat) (n : Z) : string :=
  match w with
  | O => ""
  | S w' => pad w' (n / 10) +:+ of_Z (n mod 10)
  end.

(** [s.split(",")]: never returns the empty list. *)
Fixpoint split_go (sep : ascii) (cur : string) (s : string) : list string :=
  match s with
  | "" => [String.rev cur]
  | String c s' =>
      if Ascii.eqb c sep then String.rev cur :: split_go sep "" s'
      else split_go sep (String c cur) s'
  end.

Definition split (sep : ascii) (s : string) : list string :=
  split_go sep "" s.

(** The code points of a text; [None] for bytes that are not UTF-8. *)
Fixpoint code_points_go (need : nat) (acc : N) (s : string)
    : option (list N) :=
  match s with
  | "" => match need with O => Some [] | S _ => None end
  | String c s' =>
      let b := N_of_ascii c in
      match need with
      | O =>
          if (b <? 128)%N then (λ l, b :: l) <$> code_points_go 0 0 s'
          else if (b <? 192)%N then None
          else if (b <? 224)%N then code_points_go 1 (b - 192) s'
          else if (b <? 240)%N then code_points_go 2 (b - 224) s'
          else if (b <? 248)%N then code_points_go 3 (b - 240) s'
          else None
      | S k =>
          if continuation c then
            let acc := (acc * 64 + (b - 128))%N in
            match k with
            | O => (λ l, acc :: l) <$> code_points_go 0 0 s'
            | S _ => code_points_go k acc s'
            end
          else None
      end
  end.

Definition code_points (s : string) : option (list N) :=
  code_points_go 0 0 s.

(** White space outside ASCII, and the zeros of the decimal digits outside
    ASCII: every one is followed by the digits one to nine of its script
    (the character database of Unicode 14, which Python 3.11 carries). *)
Definition unicode_space (cp : N) : bool :=
  (existsb (N.eqb cp) [0x85; 0xA0; 0x1680; 0x2028; 0x2029; 0x202F; 0x205F;
                       0x3000] || (0x2000 <=? cp) && (cp <=? 0x200A))%N.

Definition decimal_zeros : list N :=
  [0x660; 0x6F0; 0x7C0; 0x966; 0x9E6; 0xA66; 0xAE6; 0xB66; 0xBE6; 0xC66;
   0xCE6; 0xD66; 0xDE6; 0xE50; 0xED0; 0xF20; 0x1040; 0x1090; 0x17E0;
   0x1810; 0x1946; 0x19D0; 0x1A80; 0x1A90; 0x1B50; 0x1BB0; 0x1C40; 0x1C50;
   0xA620; 0xA8D0; 0xA900; 0xA9D0; 0xA9F0; 0xAA50; 0xABF0; 0xFF10; 0x104A0;
   0x10D30; 0x11066; 0x110F0; 0x11136; 0x111D0; 0x112F0; 0x11450; 0x114D0;
   0x11650; 0x116C0; 0x11730; 0x118E0; 0x11950; 0x11C50; 0x11D50; 0x11DA0;
   0x16A60; 0x16AC0; 0x16B50; 0x1D7CE; 0x1D7D8; 0x1D7E2; 0x1D7EC; 0x1D7F6;
   0x1E140; 0x1E2F0; 0x1E950; 0x1FBF0]%N.

Definition unicode_decimal (cp : N) : option N :=
  (λ zero, cp - zero)%N <$>
  List.find (λ zero, (zero <=? cp) && (cp <=? zero + 9))%N decimal_zeros.

(** The characters of a text, each as its bytes. *)
Fixpoint characters (s : string) : list string :=
  match s with
  | "" => []
  | String c s' =>
      match characters s' with
      | String d t :: rest =>
          if continuation d then String c (String d t) :: rest
          else String c "" :: String d t :: rest
      | rest => String c "" :: rest
      end
  end.

(** White space, as [str.isspace()] and [str.strip()] see it. *)
Definition is_space (char : string) : bool :=
  match code_points char with
  | Some [cp] =>
      ((9 <=? cp) && (cp <=? 13) || (28 <=? cp) && (cp <=? 32))%N ||
      unicode_space cp
  | _ => false
  end.

Fixpoint lstrip (chars : list string) : list string :=
  match chars with
  | c :: chars' => if is_space c then lstrip chars' else chars
  | [] => []
  end.

(** [s.strip()] *)
Definition strip (s : string) : string :=
  String.concat "" (reverse (lstrip (reverse (lstrip (characters s))))).

(** Truthiness of an optional string: [None] and [""] are falsy. *)
Definition truthy (o : option string) : bool :=
  match o with
  | Some (String _ _) => true
  | _ => false
  end.

End Text.

(** ** Time

    An instant is a number of microseconds since the Unix epoch (UTC).
    SQLite's [CURRENT_TIMESTAMP] and [datetime('now', ...)] have a resolution
    of one second and are in UTC; Python's [datetime.now()] is the naive local
    time, with microseconds. *)

Module Time.

Record clock := Clock {
  utc_us : Z;        (* microseconds since the epoch, UTC *)
  tz_offset : Z      (* offset of the local zone from UTC, in seconds *)
}.

Definition second : Z := 1000000.
Definition minute : Z := 60 * second.

(** [CURRENT_TIMESTAMP], as seconds since the epoch. *)
Definition current_timestamp (clk : clock) : Z := utc_us clk / second.

(** [datetime('now', '-<d> days')], as seconds since the epoch. *)
Definition days_ago (clk : clock) (d : Z) : Z :=
  current_timestamp clk - d * 86400.

(** [datetime.now()]: local wall-clock time, in microseconds. *)
Definition datetime_now (clk : clock) : Z :=
  utc_us clk + tz_offset clk * second.

(** [timedelta(minutes=m)] and [timedelta(days=d)], in microseconds. *)
Definition timedelta_minutes (m : Z) : Z := m * minute.
Definition timedelta_days (d : Z) : Z := d * 86400 * second.

(** Year, month and day of a day number counted from 1970-01-01
    (proleptic Gregorian calendar). *)
Definition civil_from_days (z : Z) : Z * Z * Z :=
  let z := z + 719468 in
  let era := z / 146097 in
  let doe := z - era * 146097 in
  let yoe := (doe - doe / 1460 + doe / 36524 - doe / 146096) / 365 in
  let y := yoe + era * 400 in
  let doy := doe - (365 * yoe + yoe / 4 - yoe / 100) in
  let mp := (5 * doy + 2) / 153 in
  let d := doy - (153 * mp + 2) / 5 + 1 in
  let m := if mp <? 10 then mp + 3 else mp - 9 in
  (if m <=? 2 then y + 1 else y, m, d).

Definition date_text (days : Z) : string :=
  let '(y, m, d) := civil_from_days days in
  Text.pad 4 y +:+ "-" +:+ Text.pad 2 m +:+ "-" +:+ Text.pad 2 d.

Definition time_text (secs : Z) : string :=
  Text.pad 2 (secs / 3600) +:+ ":" +:+ Text.pad 2 (secs / 60 mod 60)
    +:+ ":" +:+ Text.pad 2 (secs mod 60).

(** The text SQLite stores for a [CURRENT_TIMESTAMP] default:
    [YYYY-MM-DD HH:MM:SS]. *)
Definition sqlite_text (t : Z) : string :=
  date_text (t / 86400) +:+ " " +:+ time_text (t mod 86400).

(** [datetime.isoformat()]: [YYYY-MM-DDTHH:MM:SS], followed by [.ffffff]
    when the microsecond field is not zero. *)
Definition isoformat (us : Z) : string :=
  let t := us / second in
  let f := us mod second in
  date_text (t / 86400) +:+ "T" +:+ time_text (t mod 86400)
    +:+ (if f =? 0 then "" else "." +:+ Text.pad 6 f).

End Time.

(** ** SQL helpers *)

Module Sql.

(** Comparison of two TEXT values under the BINARY collation: byte-wise,
    as [memcmp]. [text_ge a b] is SQL's [a >= b]. *)
Definition text_ge (a b : string) : bool := String.leb b a.

Definition lower (c : ascii) : ascii :=
  let n := N_of_ascii c in
  if ((65 <=? n) && (n <=? 90))%N then ascii_of_N (n + 32) else c.

Fixpoint skip_continuation (s : string) : string :=
  match s with
  | String c s' => if Text.continuation c then skip_continuation s' else s
  | "" => ""
  end.

(** What is left of a text after its first character, whose first byte is
    [d]: a byte from [0xC0] on takes the continuation bytes after it
    along. *)
Definition after_char (d : ascii) (s' : string) : string :=
  if (192 <=? N_of_ascii d)%N then skip_continuation s' else s'.

(** [s LIKE p]: [%] matches any run of characters, [_] any one character
    (of one or more bytes), and letters of the ASCII range match without
    regard to case. *)
Fixpoint like (p s : string) {struct p} : bool :=
  match p with
  | "" => match s with "" => true | _ => false end
  | String c p' =>
      if Ascii.eqb c "%" then
        (fix any (s : string) : bool :=
           like p' s ||
           match s with "" => false | String _ s' => any s' end) s
      else
        match s with
        | "" => false
        | String d s' =>
            if Ascii.eqb c "_"
            then negb (Text.continuation d) && like p' (after_char d s')
            else Ascii.eqb (lower c) (lower d) && like p' s'
        end
  end.

(** [col LIKE ?] on a nullable column: NULL is never selected. *)
Definition like_opt (p : string) (o : option string) : bool :=
  match o with
  | Some s => like p s
  | None => false
  end.

(** The integers a statement takes as parameters: [sqlite3] binds a Python
    [int] as a signed 64-bit value. *)
Definition int64 (n : Z) : Prop := - 2 ^ 63 ≤ n < 2 ^ 63.

#[global] Instance int64_dec (n : Z) : Decision (int64 n).
Proof. unfold int64. apply _. Defined.


(** [LIMIT n]: a negative [n] puts no upper bound on the number of rows. *)
Definition limit {A} (n : Z) (l : list A) : list A :=
  if n <? 0 then l else take (Z.to_nat n) l.

Section OrderBy.
Context {A : Type} (leb : A → A → bool).

Fixpoint insert_by (x : A) (l : list A) : list A :=
  match l with
  | [] => [x]
  | y :: l' => if leb x y then x :: l else y :: insert_by x l'
  end.

(** Stable sort: rows that compare equal keep their scan order. *)
Definition order_by (l : list A) : list A := foldr insert_by [] l.
End OrderBy.

(** Lexicographic order on the three sort keys of the weighted query. *)
Definition key3_leb (a b : Z * Z * Z) : bool :=
  let '(a1, a2, a3) := a in
  let '(b1, b2, b3) := b in
  (a1 <? b1) || ((a1 =? b1) && ((a2 <? b2) || ((a2 =? b2) && (a3 <=? b3)))).

End Sql.

(** ** The tables *)

Record user := User {
  u_id : Z;
  chat_id : Z;
  username : option string;
  first_name : option string;
  digest_enabled : Z;
  daily_quote_enabled : Z;
  u_created_at : Z
}.

(** A row of [quotes]; timestamps are seconds since the epoch (UTC), the
    instants whose [Time.sqlite_text] the table holds. *)
Record quote := Quote {
  q_id : Z;
  q_user_id : Z;
  q_text : string;
  q_url : option string;
  source_title : option string;
  source_author : option string;
  source_domain : option string;
  q_tags : option string;
  is_favorite : Z;
  times_shown : Z;
  last_shown : option Z;
  created_at : Z
}.

Global Instance quote_eq_dec : EqDecision quote.
Proof. solve_decision. Defined.

(** The database: both tables in rowid order, and the [sqlite_sequence]
    entry that AUTOINCREMENT keeps for [quotes]. *)
Record db := Db {
  users : list user;
  quotes : list quote;
  quotes_seq : Z
}.

Definition empty_db : db := Db [] [] 0.

(** ** [src/database.py] *)

Module Database.
Import Time.

(** Rows of [quotes] that [WHERE user_id = ?] selects. *)
Definition owned (user_id : Z) (s : db) : list quote :=
  filter (λ q, q_user_id q = user_id) (quotes s).

(** *** User functions *)

Definition next_user_id (us : list user) : Z :=
  foldr Z.max 0 (u_id <$> us) + 1.

(** Register a new user or update an existing one; [true] for a new user. *)
Definition register_user (clk : clock) (cid : Z)
    (uname fname : option string) (s : db) : bool * db :=
  match filter (λ u, chat_id u = cid) (users s) with
  | _ :: _ =>
      (false,
       Db ((λ u, if decide (chat_id u = cid)
                 then User (u_id u) (chat_id u) uname fname
                        (digest_enabled u) (daily_quote_enabled u)
                        (u_created_at u)
                 else u) <$> users s)
          (quotes s) (quotes_seq s))
  | [] =>
      (true,
       Db (users s ++ [User (next_user_id (users s)) cid uname fname 1 1
                         (current_timestamp clk)])
          (quotes s) (quotes_seq s))
  end.

Definition get_all_users (s : db) : list user := users s.

Definition get_users_for_digest (s : db) : list user :=
  filter (λ u, digest_enabled u = 1) (users s).

Definition get_users_for_daily_quote (s : db) : list user :=
  filter (λ u, daily_quote_enabled u = 1) (users s).

(** *** Quote functions *)

(** The rowid AUTOINCREMENT picks: one more than the largest rowid the
    table has ever held. *)
Definition next_quote_id (s : db) : Z :=
  foldr Z.max (quotes_seq s) (q_id <$> quotes s) + 1.

Definition save_quote (clk : clock) (user_id : Z) (text : string)
    (url title author domain : option string)
    (tags : option (list string)) (s : db) : Z * db :=
  let tags_str :=
    match tags with
    | Some (t :: ts) => Some (Text.join "," (t :: ts))
    | _ => None
    end in
  let lastrowid := next_quote_id s in
  (lastrowid,
   Db (users s)
      (quotes s ++ [Quote lastrowid user_id text url title author domain
                      tags_str 0 0 None (current_timestamp clk)])
      lastrowid).

(** [delete_quote], [get_quote_by_id] and [toggle_favorite] take an id that
    the user typed. They are given here as what their statements compute
    once the parameters are bound; the binding itself is [Sql.execute],
    which raises OverflowError for an id outside [Sql.int64]. *)
Definition delete_quote (user_id quote_id : Z) (s : db) : bool * db :=
  let rowcount :=
    length (filter (λ q, q_id q = quote_id ∧ q_user_id q = user_id)
              (quotes s)) in
  (bool_decide (0 < rowcount)%nat,
   Db (users s)
      (filter (λ q, ¬ (q_id q = quote_id ∧ q_user_id q = user_id))
         (quotes s))
      (quotes_seq s)).

Definition get_quote_by_id (user_id quote_id : Z) (s : db) : option quote :=
  head (filter (λ q, q_id q = quote_id ∧ q_user_id q = user_id) (quotes s)).

(** The CASE expression of the weighted query. *)
Definition bucket (clk : clock) (q : quote) : Z :=
  match last_shown q with
  | None => 0
  | Some t =>
      if t <? days_ago clk 30 then 1
      else if t <? days_ago clk 7 then 2
      else 3
  end.

Definition srs_key (clk : clock) (rnd : Z → Z) (q : quote) : Z * Z * Z :=
  (bucket clk q, times_shown q, rnd (q_id q)).

(** [UPDATE quotes SET last_shown = CURRENT_TIMESTAMP,
    times_shown = times_shown + 1 WHERE id IN (...)] *)
Definition shown (clk : clock) (q : quote) : quote :=
  Quote (q_id q) (q_user_id q) (q_text q) (q_url q) (source_title q)
    (source_author q) (source_domain q) (q_tags q) (is_favorite q)
    (times_shown q + 1) (Some (current_timestamp clk)) (created_at q).

Definition mark_shown (clk : clock) (quote_ids : list Z) (q : quote) : quote :=
  if decide (q_id q ∈ quote_ids) then shown clk q else q.

(** Random quotes for a user, optionally weighted by spaced repetition.
    [rnd] gives the value [RANDOM()] draws for the row of each id. *)
Definition get_random_quotes (clk : clock) (rnd : Z → Z) (user_id : Z)
    (n : Z) (use_spaced_repetition : bool) (s : db) : list quote * db :=
  let rows :=
    if use_spaced_repetition
    then Sql.limit n
           (Sql.order_by
              (λ a b, Sql.key3_leb (srs_key clk rnd a) (srs_key clk rnd b))
              (owned user_id s))
    else Sql.limit n
           (Sql.order_by (λ a b, rnd (q_id a) <=? rnd (q_id b))
              (owned user_id s)) in
  match rows with
  | [] => ([], s)
  | _ :: _ =>
      let quote_ids := q_id <$> rows in
      (rows,
       Db (users s) (mark_shown clk quote_ids <$> quotes s) (quotes_seq s))
  end.

(** [ORDER BY created_at DESC] *)
Definition newest_first (l : list quote) : list quote :=
  Sql.order_by (λ a b, created_at b <=? created_at a) l.

Definition get_last_quotes (user_id : Z) (n : Z) (s : db) : list quote :=
  Sql.limit n (newest_first (owned user_id s)).

Definition get_quote_count (user_id : Z) (s : db) : Z :=
  Z.of_nat (length (owned user_id s)).

Definition get_quotes_this_week (clk : clock) (user_id : Z) (s : db) : Z :=
  let week_ago := datetime_now clk - timedelta_days 7 in
  Z.of_nat (length (filter
    (λ q, q_user_id q = user_id ∧
          Sql.text_ge (sqlite_text (created_at q)) (isoformat week_ago))
    (quotes s))).

Definition search_quotes (user_id : Z) (keyword : string) (s : db)
    : list quote :=
  Sql.limit 10 (newest_first (filter
    (λ q, q_user_id q = user_id ∧
          Sql.like ("%" +:+ keyword +:+ "%") (q_text q))
    (quotes s))).

Definition get_quotes_by_tag (user_id : Z) (tag : string) (s : db)
    : list quote :=
  Sql.limit 10 (newest_first (filter
    (λ q, q_user_id q = user_id ∧
          Sql.like_opt ("%" +:+ tag +:+ "%") (q_tags q))
    (quotes s))).

Definition get_quotes_by_source (user_id : Z) (domain : string) (s : db)
    : list quote :=
  Sql.limit 10 (newest_first (filter
    (λ q, q_user_id q = user_id ∧
          Sql.like_opt ("%" +:+ domain +:+ "%") (source_domain q))
    (quotes s))).

(** Toggle favorite status: the new status, or [None] if the quote is not
    found. *)
Definition toggle_favorite (user_id quote_id : Z) (s : db)
    : option bool * db :=
  match head (filter (λ q, q_id q = quote_id ∧ q_user_id q = user_id)
                (quotes s)) with
  | None => (None, s)
  | Some row =>
      let new_status := if decide (is_favorite row = 0) then 1 else 0 in
      (Some (bool_decide (new_status ≠ 0)),
       Db (users s)
          ((λ q, if decide (q_id q = quote_id ∧ q_user_id q = user_id)
                 then Quote (q_id q) (q_user_id q) (q_text q) (q_url q)
                        (source_title q) (source_author q) (source_domain q)
                        (q_tags q) new_status (times_shown q) (last_shown q)
                        (created_at q)
                 else q) <$> quotes s)
          (quotes_seq s))
  end.

Definition get_favorite_quotes (user_id : Z) (s : db) : list quote :=
  newest_first (filter (λ q, q_user_id q = user_id ∧ is_favorite q = 1)
                  (quotes s)).

(** [tag_counts[tag] = tag_counts.get(tag, 0) + 1] on a dictionary that
    keeps its keys in insertion order. *)
Fixpoint bump (tag : string) (tag_counts : list (string * Z))
    : list (string * Z) :=
  match tag_counts with
  | [] => [(tag, 1)]
  | (k, v) :: rest =>
      if String.eqb k tag then (k, v + 1) :: rest
      else (k, v) :: bump tag rest
  end.

(** Python's slice [l[:n]]; a negative [n] counts from the end. *)
Definition slice_to {A} (n : Z) (l : list A) : list A :=
  if n <? 0 then take (length l - Z.to_nat (- n)) l
  else take (Z.to_nat n) l.

Definition get_top_tags (user_id : Z) (limit : Z) (s : db)
    : list (string * Z) :=
  let rows :=
    filter (λ q, q_user_id q = user_id ∧ q_tags q ≠ None) (quotes s) in
  let tag_counts :=
    foldl (λ counts row,
             match q_tags row with
             | Some (String c r) =>
                 foldl (λ counts tag, bump (Text.strip tag) counts) counts
                   (Text.split "," (String c r))
             | _ => counts
             end) [] rows in
  let sorted_tags :=
    Sql.order_by (λ a b : string * Z, a.2 >=? b.2) tag_counts in
  slice_to limit sorted_tags.

Definition is_duplicate (clk : clock) (user_id : Z) (text : string)
    (minutes : Z) (s : db) : bool :=
  let cutoff := datetime_now clk - timedelta_minutes minutes in
  bool_decide
    (0 < length (filter
           (λ q, q_user_id q = user_id ∧ q_text q = text ∧
                 Sql.text_ge (sqlite_text (created_at q)) (isoformat cutoff))
           (quotes s)))%nat.

Section Serialize.
(** [json.dumps(quotes, indent=2, default=str)] of the standard library. *)
Variable json_dumps : list quote → string.

(** Export all quotes for a user as a JSON string. *)
Definition export_all_quotes (user_id : Z) (s : db) : string :=
  json_dumps (newest_first (owned user_id s)).
End Serialize.

End Database.

(** ** [src/bot.py] *)

Module Bot.
Import Time Database.

(** How long to remember a pending URL (in minutes). *)
Definition PENDING_URL_TIMEOUT : Z := 5.

(** The metadata dictionary kept with a pending URL, and the object that
    [fetch_metadata] returns. *)
Record metadata := Metadata {
  title : option string;
  author : option string;
  domain : option string
}.

(** The value stored under ["pending_url"]. *)
Record pending := Pending {
  p_url : string;
  p_metadata : metadata;
  p_timestamp : Z          (* [datetime.now()] at capture, microseconds *)
}.

(** What the handlers read of an [Update]. *)
Record update := Update {
  effective_chat_id : Z;
  effective_user : option (option string * option string);
  message_text : option string
}.

(** What the handlers read and write of the callback context; [user_data]
    is the dictionary of the user who sent the update. *)
Record context := Context {
  args : list string;
  user_data : gmap string pending
}.

Inductive outgoing :=
| reply_text (text : string)
| reply_document (document caption : string).

(** Outcome of a handler: what it sent, and the dictionary and the
    database it leaves behind. *)
Record outcome := Outcome {
  sent : list outgoing;
  user_data' : gmap string pending;
  store : db
}.

(** [int(s)], base 10. Before parsing, a character outside ASCII is
    replaced: white space by a blank, a decimal digit of any script by its
    ASCII digit; any other one makes the text invalid. The literal is then
    white space, one optional sign, digits with single underscores between
    them, and white space. [None] stands for [ValueError], which is also
    raised for more than 4300 digits. *)
Definition to_ascii (cp : N) : option N :=
  if (cp <? 127)%N then Some cp
  else if Text.unicode_space cp then Some 32%N
  else (λ d, 48 + d)%N <$> Text.unicode_decimal cp.

Definition int_space (b : N) : bool :=
  ((9 <=? b) && (b <=? 13) || (b =? 32))%N.

Fixpoint skip_space (l : list N) : list N :=
  match l with
  | b :: l' => if int_space b then skip_space l' else l
  | [] => []
  end.

(** The value and the number of the digits. *)
Fixpoint digits (acc : Z) (count : nat) (after_digit : bool) (l : list N)
    : option (Z * nat) :=
  match l with
  | [] => if after_digit then Some (acc, count) else None
  | b :: l' =>
      if ((48 <=? b) && (b <=? 57))%N
      then digits (10 * acc + (Z.of_N b - 48)) (S count) true l'
      else if (b =? 95)%N && after_digit then digits acc count false l'
      else None
  end.

(** [sys.get_int_max_str_digits()], as the interpreter starts. *)
Definition int_max_str_digits : nat := 4300.

Definition py_int (s : string) : option Z :=
  cps ← Text.code_points s;
  text ← mapM to_ascii cps;
  let literal := reverse (skip_space (reverse (skip_space text))) in
  let '(negative, body) :=
    match literal with
    | b :: rest =>
        if (b =? 45)%N then (true, rest)
        else if (b =? 43)%N then (false, rest)
        else (false, literal)
    | [] => (false, [])
    end in
  '(n, count) ← digits 0 0 false body;
  if (int_max_str_digits <? count)%nat then None
  else Some (if negative then - n else n).

(** Ensure the user is registered and return their user id. *)
Definition ensure_registered (clk : clock) (upd : update) (s : db)
    : Z * db :=
  let user_id := effective_chat_id upd in
  let '(uname, fname) :=
    match effective_user upd with
    | Some (u, f) => (u, f)
    | None => (None, None)
    end in
  (user_id, (register_user clk user_id uname fname s).2).

(** Truncate text to length with ellipsis. *)
Definition truncate (text : string) (length : Z) : string :=
  if Text.len text <=? length then text
  else Text.prefix (length - 3) text +:+ "...".

(** Format a quote for display. *)
Definition format_quote (q : quote) (show_id : bool) : string :=
  let prefix := if show_id then "[#" +:+ Text.of_Z (q_id q) +:+ "] " else "" in
  let fav := if decide (is_favorite q = 0) then "" else " *" in
  let text := prefix +:+ Text.dq +:+ q_text q +:+ Text.dq +:+ fav in
  let source_parts :=
    (if Text.truthy (source_title q)
     then [default "" (source_title q)] else []) ++
    (if Text.truthy (source_author q)
     then ["by " +:+ default "" (source_author q)]
     else if Text.truthy (source_domain q)
     then ["(" +:+ default "" (source_domain q) +:+ ")"]
     else []) in
  let text :=
    match source_parts with
    | [] => text
    | _ => text +:+ Text.nl +:+ "  -- " +:+ Text.join " " source_parts
    end in
  let text :=
    if Text.truthy (q_url q)
    then text +:+ Text.nl +:+ "  " +:+ default "" (q_url q) else text in
  if Text.truthy (q_tags q)
  then text +:+ Text.nl +:+ "  " +:+
       Text.join " " ((λ t, "#" +:+ t) <$>
                        Text.split "," (default "" (q_tags q)))
  else text.

(** The body of the replies that list quotes. *)
Definition listing (header : string) (qs : list quote) : string :=
  foldl (λ response q,
           response +:+ format_quote q true +:+ Text.nl +:+ Text.nl)
    header qs.

(** The limit [/last] passes to the store. *)
Definition last_limit (args : list string) : Z :=
  match args with
  | [] => 5
  | a :: _ =>
      match py_int a with
      | Some k => Z.min k 10
      | None => 5
      end
  end.

Definition last_command (clk : clock) (upd : update) (ctx : context)
    (s : db) : outcome :=
  let '(user_id, s) := ensure_registered clk upd s in
  let n := last_limit (args ctx) in
  let quotes := get_last_quotes user_id n s in
  match quotes with
  | [] => Outcome [reply_text "No quotes saved yet."] (user_data ctx) s
  | _ =>
      let response :=
        listing ("Last " +:+ Text.of_Z (Z.of_nat (length quotes)) +:+
                 " quote(s):" +:+ Text.nl +:+ Text.nl) quotes in
      Outcome [reply_text (Text.prefix 4000 response)] (user_data ctx) s
  end.

Definition fav_command (clk : clock) (upd : update) (ctx : context)
    (s : db) : outcome :=
  let '(user_id, s) := ensure_registered clk upd s in
  match args ctx with
  | [] => Outcome [reply_text "Usage: /fav <quote_id>"] (user_data ctx) s
  | a :: _ =>
      match py_int a with
      | None =>
          Outcome [reply_text "Invalid quote ID. Use a number."]
            (user_data ctx) s
      | Some quote_id =>
          match toggle_favorite user_id quote_id s with
          | (None, s) =>
              Outcome [reply_text ("Quote #" +:+ Text.of_Z quote_id +:+
                                   " not found.")] (user_data ctx) s
          | (Some result, s) =>
              let status :=
                if result then "added to" else "removed from" in
              Outcome [reply_text ("Quote #" +:+ Text.of_Z quote_id +:+ " "
                                   +:+ status +:+ " favorites.")]
                (user_data ctx) s
          end
      end
  end.

Definition delete_command (clk : clock) (upd : update) (ctx : context)
    (s : db) : outcome :=
  let '(user_id, s) := ensure_registered clk upd s in
  match args ctx with
  | [] => Outcome [reply_text "Usage: /delete <quote_id>"] (user_data ctx) s
  | a :: _ =>
      match py_int a with
      | None =>
          Outcome [reply_text "Invalid quote ID. Use a number."]
            (user_data ctx) s
      | Some quote_id =>
          match get_quote_by_id user_id quote_id s with
          | None =>
              Outcome [reply_text ("Quote #" +:+ Text.of_Z quote_id +:+
                                   " not found.")] (user_data ctx) s
          | Some quote =>
              match delete_quote user_id quote_id s with
              | (true, s) =>
                  Outcome [reply_text
                             ("Deleted quote #" +:+ Text.of_Z quote_id +:+
                              ":" +:+ Text.nl +:+ Text.dq +:+
                              truncate (q_text quote) 50 +:+ Text.dq)]
                    (user_data ctx) s
              | (false, s) =>
                  Outcome [reply_text "Failed to delete quote."]
                    (user_data ctx) s
              end
          end
      end
  end.

(** Get the pending URL if it exists and has not expired; an expired entry
    is popped from the dictionary. *)
Definition get_pending_url (clk : clock) (ud : gmap string pending)
    : option (string * metadata) * gmap string pending :=
  match ud !! "pending_url" with
  | None => (None, ud)
  | Some pending =>
      if timedelta_minutes PENDING_URL_TIMEOUT
           <? datetime_now clk - p_timestamp pending
      then (None, delete "pending_url" ud)
      else (Some (p_url pending, p_metadata pending), ud)
  end.

(** Store a pending URL. *)
Definition set_pending_url (clk : clock) (url : string) (md : metadata)
    (ud : gmap string pending) : gmap string pending :=
  <["pending_url" := Pending url md (datetime_now clk)]> ud.

(** Clear any pending URL. *)
Definition clear_pending_url (ud : gmap string pending)
    : gmap string pending :=
  delete "pending_url" ud.

(** Cancel the pending URL. *)
Definition cancel_command (clk : clock) (upd : update) (ctx : context)
    (s : db) : outcome :=
  let '(_, s) := ensure_registered clk upd s in
  match get_pending_url clk (user_data ctx) with
  | (Some _, ud) =>
      Outcome [reply_text "Pending URL cleared."] (clear_pending_url ud) s
  | (None, ud) => Outcome [reply_text "Nothing to cancel."] ud s
  end.

(** The result of [parse_message]: [ParsedMessage(url, quote, tags)]. *)
Record parsed_message := ParsedMessage {
  url : option string;
  quote_text : option string;
  tags : list string
}.

Section HandleMessage.
(** [src/parser.py] and [src/metadata.py] are not part of the sources
    at hand; the handler is modelled over any parser and any metadata
    fetcher. *)
Variable parse_message : string → parsed_message.
Variable fetch_metadata : string → metadata.

(** The confirmation a saved quote is answered with. *)
Definition saved_reply (quote_id : Z) (quote : string)
    (title author domain : option string) (tags : list string) : string :=
  let response :=
    "Saved (#" +:+ Text.of_Z quote_id +:+ "): " +:+ Text.dq +:+
    truncate quote 100 +:+ Text.dq in
  let response :=
    if Text.truthy title || Text.truthy domain then
      let source :=
        if Text.truthy title then default "" title
        else default "" domain in
      let source :=
        if Text.truthy author then source +:+ " by " +:+ default "" author
        else if Text.truthy domain && Text.truthy title
        then source +:+ " (" +:+ default "" domain +:+ ")"
        else source in
      response +:+ Text.nl +:+ "From: " +:+ source
    else response in
  match tags with
  | [] => response
  | _ => response +:+ Text.nl +:+ "Tags: " +:+
         Text.join " " ((λ t, "#" +:+ t) <$> tags)
  end.

(** The answer to a message that is only a URL. *)
Definition got_link_reply (md : metadata) : string :=
  let source_info :=
    if Text.truthy (title md) then
      Text.nl +:+ Text.dq +:+ default "" (title md) +:+ Text.dq +:+
      (if Text.truthy (domain md)
       then " (" +:+ default "" (domain md) +:+ ")" else "")
    else if Text.truthy (domain md)
    then Text.nl +:+ "(" +:+ default "" (domain md) +:+ ")"
    else "" in
  "Got the link!" +:+ source_info +:+ Text.nl +:+ Text.nl +:+
  "Now send me the quote from this article." +:+ Text.nl +:+
  "(Link expires in " +:+ Text.of_Z PENDING_URL_TIMEOUT +:+
  " min, /cancel to clear)".

Definition handle_message (clk : clock) (upd : update) (ctx : context)
    (s : db) : outcome :=
  let '(user_id, s) := ensure_registered clk upd s in
  match message_text upd with
  | None | Some "" => Outcome [] (user_data ctx) s
  | Some text =>
      let parsed := parse_message text in
      let is_url_only :=
        Text.truthy (url parsed) && negb (Text.truthy (quote_text parsed)) in
      if is_url_only then
        (* Store the URL and ask for the quote. *)
        let u := default "" (url parsed) in
        let md := fetch_metadata u in
        Outcome [reply_text (got_link_reply md)]
          (set_pending_url clk u md (user_data ctx)) s
      else if negb (Text.truthy (quote_text parsed)) then
        Outcome [reply_text ("I couldn't find a quote in your message. "
                             +:+ "Send me some text to save!")]
          (user_data ctx) s
      else
        let quote := default "" (quote_text parsed) in
        (* Check for duplicates. *)
        if is_duplicate clk user_id quote 1 s then
          Outcome [reply_text "This quote was already saved recently."]
            (user_data ctx) s
        else
          let '(u, md, ud) :=
            if Text.truthy (url parsed) then
              (* URL provided in this message: fetch fresh metadata. *)
              (url parsed, fetch_metadata (default "" (url parsed)),
               clear_pending_url (user_data ctx))
            else
              (* Check for a pending URL. *)
              match get_pending_url clk (user_data ctx) with
              | (Some (u, md), ud) => (Some u, md, clear_pending_url ud)
              | (None, ud) => (url parsed, Metadata None None None, ud)
              end in
          (* Save to the database. *)
          let '(quote_id, s) :=
            save_quote clk user_id quote u (title md) (author md)
              (domain md) (Some (tags parsed)) s in
          Outcome [reply_text (saved_reply quote_id quote (title md)
                                 (author md) (domain md) (tags parsed))]
            ud s
  end.
End HandleMessage.

End Bot.

(** ** The store operations as one interface

    Every function of [src/database.py] that takes a requesting user, as a
    request that can be run against a database. *)

Module Ops.
Import Time Database.

Inductive op :=
| SaveQuote (text : string) (url title author domain : option string)
    (tags : option (list string))
| DeleteQuote (quote_id : Z)
| GetQuoteById (quote_id : Z)
| GetRandomQuotes (rnd : Z → Z) (n : Z) (use_spaced_repetition : bool)
| GetLastQuotes (n : Z)
| GetQuoteCount
| GetQuotesThisWeek
| SearchQuotes (keyword : string)
| GetQuotesByTag (tag : string)
| GetQuotesBySource (domain : string)
| ToggleFavorite (quote_id : Z)
| GetFavoriteQuotes
| GetTopTags (limit : Z)
| IsDuplicate (text : string) (minutes : Z)
| ExportAllQuotes.

Inductive result :=
| RId (id : Z)
| RBool (b : bool)
| RFlag (b : option bool)
| RQuote (q : option quote)
| RQuotes (qs : list quote)
| RCount (n : Z)
| RTags (ts : list (string * Z))
| RText (t : string).

Definition is_save (o : op) : bool :=
  match o with SaveQuote _ _ _ _ _ _ => true | _ => false end.

Section Exec.
Variable json_dumps : list quote → string.

Definition exec (clk : clock) (user_id : Z) (o : op) (s : db)
    : result * db :=
  match o with
  | SaveQuote text url title author domain tags =>
      prod_map RId id
        (save_quote clk user_id text url title author domain tags s)
  | DeleteQuote quote_id => prod_map RBool id (delete_quote user_id quote_id s)
  | GetQuoteById quote_id => (RQuote (get_quote_by_id user_id quote_id s), s)
  | GetRandomQuotes rnd n srs =>
      prod_map RQuotes id (get_random_quotes clk rnd user_id n srs s)
  | GetLastQuotes n => (RQuotes (get_last_quotes user_id n s), s)
  | GetQuoteCount => (RCount (get_quote_count user_id s), s)
  | GetQuotesThisWeek => (RCount (get_quotes_this_week clk user_id s), s)
  | SearchQuotes keyword => (RQuotes (search_quotes user_id keyword s), s)
  | GetQuotesByTag tag => (RQuotes (get_quotes_by_tag user_id tag s), s)
  | GetQuotesBySource domain =>
      (RQuotes (get_quotes_by_source user_id domain s), s)
  | ToggleFavorite quote_id =>
      prod_map RFlag id (toggle_favorite user_id quote_id s)
  | GetFavoriteQuotes => (RQuotes (get_favorite_quotes user_id s), s)
  | GetTopTags limit => (RTags (get_top_tags user_id limit s), s)
  | IsDuplicate text minutes =>
      (RBool (is_duplicate clk user_id text minutes s), s)
  | ExportAllQuotes => (RText (export_all_quotes json_dumps user_id s), s)
  end.

(** A history of requests, each with the clock it ran at and the user
    it ran for; the results come out in the order of the requests. *)
Fixpoint run (calls : list (clock * Z * op)) (s : db)
    : list result * db :=
  match calls with
  | [] => ([], s)
  | (clk, user_id, o) :: calls' =>
      let '(r, s1) := exec clk user_id o s in
      let '(rs, s2) := run calls' s1 in
      (r :: rs, s2)
  end.
End Exec.

(** The identifiers that the saves of a history returned. *)
Definition assigned (rs : list result) : list Z :=
  omap (λ r, match r with RId i => Some i | _ => None end) rs.

End Ops.

(** The primary key of [quotes]: no two rows share an id. *)
Definition unique_ids (s : db) : Prop := NoDup (q_id <$> quotes s).

(** The replies by which a handler turns down an argument. *)
Definition validation_message (o : Bot.outgoing) : bool :=
  match o with
  | Bot.reply_text t =>
      String.prefix "Usage: " t || String.eqb t "Invalid quote ID. Use a number."
  | _ => false
  end.

Import Time Database Bot Ops.

(** ** [src/bot.py]: the remaining command handlers *)

Module Handlers.

(** The text [/start] and [/help] answer with. *)
Definition welcome_text : string :=
  "Welcome to ReadWiser!" +:+ Text.nl +:+ Text.nl +:+
  "How to save a quote:" +:+ Text.nl +:+
  "1. Share a URL to me first" +:+ Text.nl +:+
  "2. Then send the quote text" +:+ Text.nl +:+
  "(Or send both together)" +:+ Text.nl +:+ Text.nl +:+
  "Add #tags to categorize." +:+ Text.nl +:+ Text.nl +:+
  "Commands:" +:+ Text.nl +:+
  "/random - Get a random quote" +:+ Text.nl +:+
  "/last - Show recently saved quotes" +:+ Text.nl +:+
  "/digest - Get your digest now" +:+ Text.nl +:+
  "/stats - View your statistics" +:+ Text.nl +:+
  "/cancel - Clear pending URL" +:+ Text.nl +:+ Text.nl +:+
  "Search:" +:+ Text.nl +:+
  "/search <word> - Search in quotes" +:+ Text.nl +:+
  "/tag <name> - Find by tag" +:+ Text.nl +:+
  "/source <domain> - Find by source" +:+ Text.nl +:+ Text.nl +:+
  "Manage:" +:+ Text.nl +:+
  "/fav <id> - Toggle favorite" +:+ Text.nl +:+
  "/favorites - Show all favorites" +:+ Text.nl +:+
  "/delete <id> - Delete a quote" +:+ Text.nl +:+
  "/export - Export all quotes as JSON".

Definition start_command (clk : clock) (upd : update) (ctx : context)
    (s : db) : outcome :=
  let '(_, s) := ensure_registered clk upd s in
  Outcome [reply_text welcome_text] (user_data ctx) s.

Definition help_command (clk : clock) (upd : update) (ctx : context)
    (s : db) : outcome :=
  start_command clk upd ctx s.

Definition stats_command (clk : clock) (upd : update) (ctx : context)
    (s : db) : outcome :=
  let '(user_id, s) := ensure_registered clk upd s in
  let total := get_quote_count user_id s in
  let this_week := get_quotes_this_week clk user_id s in
  let favorites := Z.of_nat (length (get_favorite_quotes user_id s)) in
  let top_tags := get_top_tags user_id 5 s in
  let tags_text :=
    match top_tags with
    | [] => ""
    | _ =>
        Text.nl +:+ Text.nl +:+ "Top tags:" +:+ Text.nl +:+
        Text.join Text.nl
          ((λ tc : string * Z, "  #" +:+ tc.1 +:+ ": " +:+ Text.of_Z tc.2)
             <$> top_tags)
    end in
  Outcome
    [reply_text
       ("Your ReadWiser Stats" +:+ Text.nl +:+ Text.nl +:+
        "Total quotes: " +:+ Text.of_Z total +:+ Text.nl +:+
        "Added this week: " +:+ Text.of_Z this_week +:+ Text.nl +:+
        "Favorites: " +:+ Text.of_Z favorites +:+ tags_text)]
    (user_data ctx) s.

Definition random_command (clk : clock) (rnd : Z → Z) (upd : update)
    (ctx : context) (s : db) : outcome :=
  let '(user_id, s) := ensure_registered clk upd s in
  match get_random_quotes clk rnd user_id 1 true s with
  | ([], s) =>
      Outcome [reply_text "No quotes saved yet. Send me some!"]
        (user_data ctx) s
  | (quote :: _, s) =>
      Outcome [reply_text (format_quote quote true)] (user_data ctx) s
  end.

(** The answer of [/search], [/tag] and [/source] to a non-empty result:
    the header counts all quotes found, the body shows the first five. *)
Definition found_reply (header : string) (quotes : list quote) : string :=
  Text.prefix 4000 (listing header (take 5 quotes)).

Definition search_command (clk : clock) (upd : update) (ctx : context)
    (s : db) : outcome :=
  let '(user_id, s) := ensure_registered clk upd s in
  match args ctx with
  | [] => Outcome [reply_text "Usage: /search <keyword>"] (user_data ctx) s
  | _ =>
      let keyword := Text.join " " (args ctx) in
      match search_quotes user_id keyword s with
      | [] =>
          Outcome [reply_text ("No quotes found containing " +:+ Text.dq +:+
                               keyword +:+ Text.dq)] (user_data ctx) s
      | quotes =>
          Outcome
            [reply_text
               (found_reply
                  ("Found " +:+ Text.of_Z (Z.of_nat (length quotes)) +:+
                   " quote(s) for " +:+ Text.dq +:+ keyword +:+ Text.dq +:+
                   ":" +:+ Text.nl +:+ Text.nl) quotes)]
            (user_data ctx) s
      end
  end.

(** [s.lstrip("#")] *)
Fixpoint lstrip_hash (s : string) : string :=
  match s with
  | String c s' => if Ascii.eqb c "#" then lstrip_hash s' else s
  | "" => ""
  end.

Definition tag_command (clk : clock) (upd : update) (ctx : context)
    (s : db) : outcome :=
  let '(user_id, s) := ensure_registered clk upd s in
  match args ctx with
  | [] => Outcome [reply_text "Usage: /tag <tagname>"] (user_data ctx) s
  | a :: _ =>
      let tag := lstrip_hash a in
      match get_quotes_by_tag user_id tag s with
      | [] =>
          Outcome [reply_text ("No quotes found with tag #" +:+ tag)]
            (user_data ctx) s
      | quotes =>
          Outcome
            [reply_text
               (found_reply
                  ("Found " +:+ Text.of_Z (Z.of_nat (length quotes)) +:+
                   " quote(s) with #" +:+ tag +:+ ":" +:+ Text.nl +:+ Text.nl)
                  quotes)]
            (user_data ctx) s
      end
  end.

Definition source_command (clk : clock) (upd : update) (ctx : context)
    (s : db) : outcome :=
  let '(user_id, s) := ensure_registered clk upd s in
  match args ctx with
  | [] => Outcome [reply_text "Usage: /source <domain>"] (user_data ctx) s
  | dom :: _ =>
      match get_quotes_by_source user_id dom s with
      | [] =>
          Outcome [reply_text ("No quotes found from " +:+ dom)]
            (user_data ctx) s
      | quotes =>
          Outcome
            [reply_text
               (found_reply
                  ("Found " +:+ Text.of_Z (Z.of_nat (length quotes)) +:+
                   " quote(s) from " +:+ dom +:+ ":" +:+ Text.nl +:+ Text.nl)
                  quotes)]
            (user_data ctx) s
      end
  end.


Section ExportCommand.
Variable json_dumps : list quote → string.

Definition export_command (clk : clock) (upd : update) (ctx : context)
    (s : db) : outcome :=
  let '(user_id, s) := ensure_registered clk upd s in
  let json_data := export_all_quotes json_dumps user_id s in
  let count := get_quote_count user_id s in
  if count =? 0
  then Outcome [reply_text "No quotes to export."] (user_data ctx) s
  else Outcome [reply_document json_data
                  ("Exported " +:+ Text.of_Z count +:+ " quotes")]
         (user_data ctx) s.
End ExportCommand.

End Handlers.

(** ** [src/scheduler.py] *)

Module Scheduler.

(** The outcome of a job: the messages that reached their chat, the chats
    for which sending raised, and the database. *)
Record job := Job {
  delivered : list (Z * string);
  failures : list Z;
  after : db
}.

Section Sending.
(** [DIGEST_COUNT] of the configuration. *)
Variable DIGEST_COUNT : Z.
(** Whether [bot.send_message(chat_id, text)] goes through; when it does
    not, it raises. *)
Variable delivers : Z → string → bool.

Definition send_message (chat_id : Z) (text : string) (s : db) : job :=
  if delivers chat_id text then Job [(chat_id, text)] [] s
  else Job [] [chat_id] s.

(** The numbered body of the digest: [enumerate(quotes, 1)]. *)
Fixpoint digest_body (i : Z) (quotes : list quote) (message : string)
    : string :=
  match quotes with
  | [] => message
  | quote :: rest =>
      digest_body (i + 1) rest
        (message +:+ Text.of_Z i +:+ ". " +:+ format_quote quote false +:+
         Text.nl +:+ Text.nl)
  end.

Definition digest_text (quotes : list quote) (total : Z) : string :=
  let message :=
    digest_body 1 quotes ("Your Weekly Quote Digest" +:+ Text.nl +:+ Text.nl)
  in
  let message := message +:+ "Total saved: " +:+ Text.of_Z total +:+ " quotes" in
  (* Telegram has a 4096 character limit. *)
  if 4000 <? Text.len message then Text.prefix 3997 message +:+ "..."
  else message.

(** Send the weekly digest to a specific user. *)
Definition send_digest_to_user (clk : clock) (rnd : Z → Z) (user_id : Z)
    (s : db) : job :=
  let '(quotes, s) := get_random_quotes clk rnd user_id DIGEST_COUNT true s in
  let total := get_quote_count user_id s in
  match quotes with
  | [] =>
      send_message user_id
        ("Your Weekly Quote Digest" +:+ Text.nl +:+ Text.nl +:+
         "No quotes saved yet. Start sending me quotes to build your " +:+
         "collection!") s
  | _ => send_message user_id (digest_text quotes total) s
  end.

(** Send a single quote of the day to a specific user. *)
Definition send_daily_quote_to_user (clk : clock) (rnd : Z → Z) (user_id : Z)
    (s : db) : job :=
  match get_random_quotes clk rnd user_id 1 true s with
  | ([], s) => Job [] [] s
  | (quote :: _, s) =>
      send_message user_id
        ("Quote of the Day" +:+ Text.nl +:+ Text.nl +:+ format_quote quote false)
        s
  end.

(** The loop of both batch jobs: one attempt per user, a failure is logged
    and the loop goes on. [at_time] gives the clock at each user's turn. *)
Fixpoint for_each_user (send : clock → Z → db → job) (at_time : Z → clock)
    (us : list user) (s : db) : job :=
  match us with
  | [] => Job [] [] s
  | u :: rest =>
      let j := send (at_time (chat_id u)) (chat_id u) s in
      let j' := for_each_user send at_time rest (after j) in
      Job (delivered j ++ delivered j') (failures j ++ failures j') (after j')
  end.

(** Send the weekly digest to all users who have it enabled. *)
Definition send_digest_to_all (at_time : Z → clock) (rnd : Z → Z) (s : db)
    : job :=
  for_each_user (λ clk, send_digest_to_user clk rnd) at_time
    (get_users_for_digest s) s.

(** Send the daily quote to all users who have it enabled. *)
Definition send_daily_quote_to_all (at_time : Z → clock) (rnd : Z → Z)
    (s : db) : job :=
  for_each_user (λ clk, send_daily_quote_to_user clk rnd) at_time
    (get_users_for_daily_quote s) s.

(** [/digest]: the digest, now, for the sender. When sending raises, so
    does the handler. *)
Definition digest_command (clk : clock) (rnd : Z → Z) (upd : update)
    (s : db) : job :=
  let '(user_id, s) := ensure_registered clk upd s in
  send_digest_to_user clk rnd user_id s.
End Sending.

End Scheduler.

Import Handlers Scheduler.

(** ** Orders, views and sample stores used in the statements *)

(** The order the weighted query sorts by, without the random tie-break:
    bucket first, then [times_shown]. *)
Definition srs_le (clk : clock) (a b : quote) : Prop :=
  bucket clk a < bucket clk b ∨
  (bucket clk a = bucket clk b ∧ times_shown a ≤ times_shown b).

(** A store with one never-shown quote and one quote shown a moment ago. *)
Definition two_quote_db : db :=
  Db [] [Quote 1 1 "seen" None None None None None 0 4 (Some 1704110000)
           1704000000;
         Quote 2 1 "fresh" None None None None None 0 0 None 1704000001] 2.

(** Rows of users other than [user_id]. *)
Definition others (user_id : Z) (s : db) : list quote :=
  filter (λ q, q_user_id q ≠ user_id) (quotes s).

(** Two users with one quote each; both quotes were shown once before. *)
Definition shared_db : db :=
  Db [] [Quote 1 1 "mine" None None None None None 0 1 (Some 1704000000)
           1703000000;
         Quote 2 2 "theirs" None None None None None 0 1 (Some 1704000000)
           1703000001] 2.

(** A store in which user 1 saved [n] quotes, one a second. *)
Fixpoint saved (n : nat) : db :=
  match n with
  | O => empty_db
  | S k =>
      (save_quote (Clock ((1704110400 + Z.of_nat k) * 1000000) 0) 1 "q"
         None None None None None (saved k)).2
  end.

(** A parser that takes the whole message as the quote, and a fetcher that
    finds nothing. *)
Definition quote_only_parser (s : string) : parsed_message :=
  ParsedMessage None (Some s) [].

Definition no_metadata (_ : string) : metadata := Metadata None None None.

(** User 1 saved "dup" ten seconds after midnight (UTC) of 2024-01-02. *)
Definition midnight_db : db :=
  Db [] [Quote 1 1 "dup" None None None None None 0 0 None 1704153610] 1.

Definition example_pending : pending :=
  Pending "https://example.com"
    (Metadata (Some "Example") None (Some "example.com"))
    (1704153600 * 1000000).

(** What every row of a store that grew from the empty one satisfies: the
    favourite flag is 0 or 1, and a row has [last_shown] exactly when its
    [times_shown] is positive. *)
Definition row_sound (q : quote) : Prop :=
  (is_favorite q = 0 ∨ is_favorite q = 1) ∧
  0 ≤ times_shown q ∧
  (last_shown q = None ↔ times_shown q = 0).

(** A store whose rows are in strictly ascending order of id, with ids
    between 1 and the recorded sequence value, and sound rows. *)
Definition sound (s : db) : Prop :=
  StronglySorted Z.lt (q_id <$> quotes s) ∧
  0 ≤ quotes_seq s ∧
  ∀ q, q ∈ quotes s → 0 < q_id q ≤ quotes_seq s ∧ row_sound q.

(** The row [toggle_favorite] writes in place of a matching row. *)
Definition with_favorite (flag : Z) (q : quote) : quote :=
  Quote (q_id q) (q_user_id q) (q_text q) (q_url q) (source_title q)
    (source_author q) (source_domain q) (q_tags q) flag (times_shown q)
    (last_shown q) (created_at q).

(** A parser that takes a message starting with [http] as a URL and any
    other message as a quote; one that finds the same URL in every message
    next to the quote; and a fetcher with a fixed answer. *)
Definition url_or_quote_parser (s : string) : parsed_message :=
  if String.prefix "http" s then ParsedMessage (Some s) None []
  else ParsedMessage None (Some s) [].

Definition url_and_quote_parser (s : string) : parsed_message :=
  ParsedMessage (Some "https://example.com") (Some s) ["wisdom"].

Definition example_metadata (_ : string) : metadata :=
  Metadata (Some "Example") None (Some "example.com").

(** A row without its display bookkeeping. *)
Definition unshown (q : quote) : quote :=
  Quote (q_id q) (q_user_id q) (q_text q) (q_url q) (source_title q)
    (source_author q) (source_domain q) (q_tags q) (is_favorite q) 0 None
    (created_at q).

(** Two stores with the same users, the same sequence value and, up to the
    display bookkeeping, the same quotes in the same order. *)
Definition same_content (s s' : db) : Prop :=
  users s' = users s ∧ quotes_seq s' = quotes_seq s ∧
  unshown <$> quotes s' = unshown <$> quotes s.

(** Chats 1 and 2 take the weekly digest, chat 3 does not; chats 1 and 3
    take the daily quote. Chat 1 has two quotes, chat 3 has one. *)
Definition three_chats : db :=
  Db [User 1 1 None None 1 1 1704000000; User 2 2 None None 1 0 1704000000;
      User 3 3 None None 0 1 1704000000]
     [Quote 1 1 "first" None None None None None 0 0 None 1704000001;
      Quote 2 3 "theirs" None None None None None 0 0 None 1704000002;
      Quote 3 1 "second" None None None None None 0 0 None 1704000003] 3.

(** A bot that chat 1 has blocked: sending to it raises. *)
Definition blocked_by_1 (chat : Z) (_ : string) : bool := negb (chat =? 1).

(** A bot whose messages all go through. *)
Definition all_delivered (_ : Z) (_ : string) : bool := true.

(** A call on the database module: a registration, or a request on the
    quotes for a user. *)
Inductive call :=
| Register (clk : clock) (cid : Z) (uname fname : option string)
| Request (clk : clock) (user_id : Z) (o : op).

(** The store after a history of calls. *)
Definition replay (json_dumps : list quote → string) (calls : list call)
    (s : db) : db :=
  foldl (λ s c,
           match c with
           | Register clk cid uname fname =>
               (register_user clk cid uname fname s).2
           | Request clk user_id o => (exec json_dumps clk user_id o s).2
           end) s calls.

(** Six quotes of user 1 at noon (UTC) of 2024-01-01: two never shown,
    two last shown 40 days before, one 10 days before and one the day
    before. *)
Definition six_quote_db : db :=
  Db [] [Quote 1 1 "a" None None None None None 0 0 None 1700000001;
         Quote 2 1 "b" None None None None None 0 0 None 1700000002;
         Quote 3 1 "c" None None None None None 0 5
           (Some (1704110400 - 40 * 86400)) 1700000003;
         Quote 4 1 "d" None None None None None 0 2
           (Some (1704110400 - 40 * 86400)) 1700000004;
         Quote 5 1 "e" None None None None None 0 1
           (Some (1704110400 - 10 * 86400)) 1700000005;
         Quote 6 1 "f" None None None None None 0 3
           (Some (1704110400 - 86400)) 1700000006] 6.

(** A store whose one quote, of user 1, has a text of 5000 characters. *)
Definition long_quote_db : db :=
  Db [] [Quote 1 1 (Text.join "" (replicate 500 "0123456789")) None None
           None None None 0 0 None 1704000001] 1.

(** A text of sixty Cyrillic letters: 120 bytes. *)
Definition sixty_letters : string :=
  "абвгдежзийклмнопрстуфхцчшщъыьэ" +:+
  "абвгдежзийклмнопрстуфхцчшщъыьэ".

(** A store with one quote of user 1 whose text is not ASCII. *)
Definition cafe_db : db :=
  Db [] [Quote 1 1 "café au lait" None None None None None 0 0 None
           1704110400] 1.

(** [head] is [text] cut after its first [n] characters, or all of [text]
    when it has no more: [head] holds that many characters and what follows
    it in [text] starts a character. *)
Definition first_chars (n : Z) (text head : string) : Prop :=
  ∃ rest, text = head +:+ rest ∧
          Text.len head = Z.min n (Text.len text) ∧
          match rest with
          | String c _ => Text.continuation c = false
          | "" => True
          end.

(** * Properties *)

(** ** Sorting and limits *)

Section OrderByFacts.
Context {A : Type} (leb : A → A → bool).

Lemma insert_by_Permutation x l : Sql.insert_by leb x l ≡ₚ x :: l.
Proof.
  induction l as [|y l IH]; simpl; [done|].
  destruct (leb x y); [done|].
  rewrite IH. apply Permutation_swap.
Qed.

Lemma order_by_Permutation l : Sql.order_by leb l ≡ₚ l.
Proof.
  induction l as [|x l IH]; simpl; [done|].
  unfold Sql.order_by in IH. by rewrite insert_by_Permutation, IH.
Qed.

Hypothesis leb_total : ∀ x y, leb x y = true ∨ leb y x = true.
Hypothesis leb_trans : ∀ x y z, leb x y = true → leb y z = true → leb x z = true.

Lemma insert_by_sorted x l :
  StronglySorted (λ a b, leb a b = true) l →
  StronglySorted (λ a b, leb a b = true) (Sql.insert_by leb x l).
Proof.
  induction 1 as [|y l Hl IH Hy]; simpl.
  - repeat constructor.
  - destruct (leb x y) eqn:Hxy.
    + constructor; [by constructor|].
      constructor; [done|].
      eapply Forall_impl; [exact Hy|]. intros z Hz. by eapply leb_trans.
    + constructor; [done|].
      rewrite insert_by_Permutation. constructor; [|done].
      destruct (leb_total x y) as [H|H]; [congruence|done].
Qed.

Lemma order_by_sorted l :
  StronglySorted (λ a b, leb a b = true) (Sql.order_by leb l).
Proof.
  induction l as [|x l IH]; simpl; [constructor|].
  by apply insert_by_sorted.
Qed.
End OrderByFacts.

Lemma limit_prefix {A} (n : Z) (l : list A) :
  ∃ k, Sql.limit n l = take k l.
Proof.
  unfold Sql.limit. destruct (n <? 0).
  - exists (length l). by rewrite firstn_all.
  - by eexists.
Qed.

Lemma limit_length {A} (n : Z) (l : list A) :
  0 ≤ n → Z.of_nat (length (Sql.limit n l)) = Z.min n (Z.of_nat (length l)).
Proof.
  intros Hn. unfold Sql.limit.
  destruct (n <? 0) eqn:E; [lia|].
  rewrite length_take. lia.
Qed.

Lemma limit_subseteq {A} (n : Z) (l : list A) x :
  x ∈ Sql.limit n l → x ∈ l.
Proof.
  destruct (limit_prefix n l) as [k ->]. apply subseteq_take.
Qed.

Lemma StronglySorted_lookup {A} (R : relation A) (l : list A) i j a b :
  StronglySorted R l → (i < j)%nat →
  l !! i = Some a → l !! j = Some b → R a b.
Proof.
  intros Hl. revert i j. induction Hl as [|x l Hl IH Hx]; intros i j Hij Hi Hj.
  - done.
  - destruct j as [|j]; [lia|]. destruct i as [|i]; simpl in *.
    + simplify_eq. eapply Forall_forall in Hx; [exact Hx|].
      by eapply list_elem_of_lookup_2.
    + eapply (IH i j); [lia|done..].
  Qed.

(** ** The weighted query *)

Lemma key3_leb_total a b : Sql.key3_leb a b = true ∨ Sql.key3_leb b a = true.
Proof.
  destruct a as [[a1 a2] a3], b as [[b1 b2] b3]. unfold Sql.key3_leb.
  destruct (Z.ltb_spec a1 b1), (Z.ltb_spec b1 a1), (Z.eqb_spec a1 b1),
    (Z.eqb_spec b1 a1), (Z.ltb_spec a2 b2), (Z.ltb_spec b2 a2),
    (Z.eqb_spec a2 b2), (Z.eqb_spec b2 a2), (Z.leb_spec a3 b3),
    (Z.leb_spec b3 a3); simpl; auto; lia.
Qed.

Lemma key3_leb_spec a b :
  Sql.key3_leb a b = true ↔
  a.1.1 < b.1.1 ∨
  (a.1.1 = b.1.1 ∧ (a.1.2 < b.1.2 ∨ (a.1.2 = b.1.2 ∧ a.2 ≤ b.2))).
Proof.
  destruct a as [[a1 a2] a3], b as [[b1 b2] b3]. unfold Sql.key3_leb. simpl.
  rewrite !orb_true_iff, !andb_true_iff, !orb_true_iff, !andb_true_iff.
  rewrite !Z.ltb_lt, !Z.eqb_eq, Z.leb_le. tauto.
Qed.

Lemma key3_leb_trans a b c :
  Sql.key3_leb a b = true → Sql.key3_leb b c = true → Sql.key3_leb a c = true.
Proof. rewrite !key3_leb_spec. lia. Qed.

Lemma srs_key_le clk rnd a b :
  Sql.key3_leb (srs_key clk rnd a) (srs_key clk rnd b) = true → srs_le clk a b.
Proof. rewrite key3_leb_spec. unfold srs_key, srs_le. simpl. lia. Qed.

(** What the four buckets hold. *)
Lemma bucket_spec clk q :
  (bucket clk q = 0 ↔ last_shown q = None) ∧
  (bucket clk q = 1 ↔ ∃ t, last_shown q = Some t ∧ t < days_ago clk 30) ∧
  (bucket clk q = 2 ↔
     ∃ t, last_shown q = Some t ∧ days_ago clk 30 ≤ t < days_ago clk 7) ∧
  (bucket clk q = 3 ↔ ∃ t, last_shown q = Some t ∧ days_ago clk 7 ≤ t).
Proof.
  unfold bucket, days_ago. destruct (last_shown q) as [t|].
  - destruct (Z.ltb_spec t (current_timestamp clk - 30 * 86400)),
      (Z.ltb_spec t (current_timestamp clk - 7 * 86400));
      repeat split; try (intros; simplify_eq; fail); try lia;
      try (intros _; eexists; split; [done|lia]);
      try (intros (? & ? & ?); simplify_eq; lia).
  - repeat split; try done; intros (? & ? & ?); done.
Qed.

Lemma StronglySorted_mono {A} (R R' : relation A) l :
  (∀ a b, R a b → R' a b) → StronglySorted R l → StronglySorted R' l.
Proof.
  intros HR. induction 1 as [|x l Hl IH Hx]; constructor; [done|].
  eapply Forall_impl; [exact Hx|]. auto.
Qed.

Lemma get_random_quotes_rows clk rnd user_id n srs s :
  (get_random_quotes clk rnd user_id n srs s).1 =
  Sql.limit n
    (Sql.order_by
       (if srs
        then λ a b, Sql.key3_leb (srs_key clk rnd a) (srs_key clk rnd b)
        else λ a b, rnd (q_id a) <=? rnd (q_id b))
       (owned user_id s)).
Proof.
  unfold get_random_quotes. destruct srs; by destruct (Sql.limit _ _).
Qed.

Lemma bucket_cases clk q :
  let now := current_timestamp clk in
  (bucket clk q = 0 ∧ last_shown q = None) ∨
  (bucket clk q = 1 ∧ ∃ t, last_shown q = Some t ∧ t < now - 30 * 86400) ∨
  (bucket clk q = 2 ∧
   ∃ t, last_shown q = Some t ∧ now - 30 * 86400 ≤ t < now - 7 * 86400) ∨
  (bucket clk q = 3 ∧ ∃ t, last_shown q = Some t ∧ now - 7 * 86400 ≤ t).
Proof.
  unfold bucket, days_ago. destruct (last_shown q) as [t|]; [|by left].
  right.
  destruct (Z.ltb_spec t (current_timestamp clk - 30 * 86400));
    [left; split; [done|]; exists t; split; [done|lia]|].
  right.
  destruct (Z.ltb_spec t (current_timestamp clk - 7 * 86400));
    [left|right]; (split; [done|]); exists t; (split; [done|lia]).
Qed.

Lemma bucket_before clk q d t :
  last_shown q = Some t → t < current_timestamp clk - d * 86400 →
  (d = 30 → bucket clk q = 1) ∧ (d = 7 → 1 ≤ bucket clk q ≤ 2).
Proof.
  intros Hq Ht.
  destruct (bucket_cases clk q) as [[Hb H]|[[Hb H]|[[Hb H]|[Hb H]]]];
    cbv zeta in H; rewrite Hb.
  - rewrite Hq in H. discriminate.
  - split; intros; lia.
  - destruct H as (t' & Ht' & Hlt'). rewrite Hq in Ht'. injection Ht' as <-.
    split; intros; lia.
  - destruct H as (t' & Ht' & Hlt'). rewrite Hq in Ht'. injection Ht' as <-.
    split; intros; lia.
Qed.

(** What the order of the query says about two rows, in terms of when
    they were last shown. *)
Lemma srs_le_classes clk a b :
  srs_le clk a b →
  let now := current_timestamp clk in
  let never q := last_shown q = None in
  let before d q := ∃ t, last_shown q = Some t ∧ t < now - d * 86400 in
  let between q :=
    ∃ t, last_shown q = Some t ∧ now - 30 * 86400 ≤ t < now - 7 * 86400 in
  let recent q := ∃ t, last_shown q = Some t ∧ now - 7 * 86400 ≤ t in
  (never b → never a) ∧
  (before 30 b → never a ∨ before 30 a) ∧
  (before 7 b → never a ∨ before 7 a) ∧
  (never a ∧ never b ∨ before 30 a ∧ before 30 b ∨
   between a ∧ between b ∨ recent a ∧ recent b →
   times_shown a ≤ times_shown b) ∧
  (never b → times_shown a ≤ times_shown b).
Proof.
  intros Hab now never before between recent.
  subst never before between recent. cbv beta.
  pose proof (bucket_spec clk a) as (A0 & A1 & A2 & A3).
  pose proof (bucket_spec clk b) as (B0 & B1 & B2 & B3).
  unfold days_ago in A1, A2, A3, B1, B2, B3. fold now in A1, A2, A3, B1, B2, B3.
  assert (Ra : 0 ≤ bucket clk a ≤ 3).
  { destruct (bucket_cases clk a) as [[H _]|[[H _]|[[H _]|[H _]]]]; lia. }
  unfold srs_le in Hab.
  split; [|split; [|split; [|split]]].
  - intros Hb%B0. apply A0. lia.
  - intros Hb%B1.
    assert (bucket clk a = 0 ∨ bucket clk a = 1) as [H|H] by lia.
    + left. by apply A0.
    + right. by apply A1.
  - intros (t & Ht & Hlt).
    destruct (bucket_before clk b 7 t Ht Hlt) as [_ Hb].
    specialize (Hb eq_refl).
    assert (bucket clk a = 0 ∨ bucket clk a = 1 ∨ bucket clk a = 2)
      as [H|[H|H]] by lia.
    + left. by apply A0.
    + right. apply A1 in H as (ta & Hta & Hlta). exists ta.
      split; [done|lia].
    + right. apply A2 in H as (ta & Hta & Hlta). exists ta.
      split; [done|lia].
  - intros [[Ha Hb]|[[Ha Hb]|[[Ha Hb]|[Ha Hb]]]].
    + apply A0 in Ha. apply B0 in Hb. lia.
    + apply A1 in Ha. apply B1 in Hb. lia.
    + apply A2 in Ha. apply B2 in Hb. lia.
    + apply A3 in Ha. apply B3 in Hb. lia.
  - intros Hb%B0. lia.
Qed.

(** C1: with [use_spaced_repetition] set, [get_random_quotes] returns the
    first rows of the user's quotes in the priority order of four classes:
    never shown ([last_shown] null), last shown more than 30 days ago, last
    shown more than 7 but at most 30 days ago, and shown within the last 7
    days; inside a class the rows come by ascending [times_shown]. Stated
    on the rows themselves: for any two positions [i < j] of the result, if
    the later row was never shown so was the earlier one; if the later row
    was shown more than 30 (more than 7) days ago, the earlier one was never
    shown or shown more than 30 (more than 7) days ago; two rows of one
    class have ascending [times_shown]; and no row has a [times_shown]
    greater than that of a never-shown row after it. The sort key [bucket]
    of the query numbers exactly these classes 0 to 3. A never-shown row in
    the result is in particular a never-shown quote of the user, so the
    premise of the claim needs no separate statement. *)
Theorem weighted_selection_respects_buckets clk rnd user_id n s :
  let rows := (get_random_quotes clk rnd user_id n true s).1 in
  let now := current_timestamp clk in
  let never q := last_shown q = None in
  let before d q := ∃ t, last_shown q = Some t ∧ t < now - d * 86400 in
  let between q :=
    ∃ t, last_shown q = Some t ∧ now - 30 * 86400 ≤ t < now - 7 * 86400 in
  let recent q := ∃ t, last_shown q = Some t ∧ now - 7 * 86400 ≤ t in
  (∀ q, (bucket clk q = 0 ↔ never q) ∧ (bucket clk q = 1 ↔ before 30 q) ∧
        (bucket clk q = 2 ↔ between q) ∧ (bucket clk q = 3 ↔ recent q)) ∧
  (∃ rest, rows ++ rest ≡ₚ owned user_id s ∧
           StronglySorted (srs_le clk) (rows ++ rest)) ∧
  (0 ≤ n →
   Z.of_nat (length rows) = Z.min n (Z.of_nat (length (owned user_id s)))) ∧
  (∀ i j a b, (i < j)%nat → rows !! i = Some a → rows !! j = Some b →
     (never b → never a) ∧
     (before 30 b → never a ∨ before 30 a) ∧
     (before 7 b → never a ∨ before 7 a) ∧
     (never a ∧ never b ∨ before 30 a ∧ before 30 b ∨
      between a ∧ between b ∨ recent a ∧ recent b →
      times_shown a ≤ times_shown b) ∧
     (never b → times_shown a ≤ times_shown b)).
Proof.
  intros rows now never before between recent.
  subst rows never before between recent. cbv beta.
  rewrite get_random_quotes_rows.
  set (leb := λ a b, Sql.key3_leb (srs_key clk rnd a) (srs_key clk rnd b)).
  assert (Hsorted : StronglySorted (srs_le clk)
                      (Sql.order_by leb (owned user_id s))).
  { eapply StronglySorted_mono; [apply srs_key_le|].
    apply (order_by_sorted leb); unfold leb.
    - intros x y. apply key3_leb_total.
    - intros x y z. apply key3_leb_trans. }
  destruct (limit_prefix n (Sql.order_by leb (owned user_id s))) as [k Hk].
  split; [|split; [|split]].
  - intros q. exact (bucket_spec clk q).
  - exists (drop k (Sql.order_by leb (owned user_id s))).
    rewrite Hk, take_drop. split; [apply order_by_Permutation|done].
  - intros Hn. rewrite limit_length by done.
    by rewrite (Permutation_length (order_by_Permutation leb _)).
  - intros i j a b Hij Ha Hb. rewrite Hk in Ha, Hb.
    assert (Hab : srs_le clk a b).
    { eapply (StronglySorted_lookup _ _ i j); [exact Hsorted|done|..].
      - apply lookup_take_Some in Ha. tauto.
      - apply lookup_take_Some in Hb. tauto. }
    exact (srs_le_classes clk a b Hab).
Qed.

Lemma weighted_selection_respects_buckets_witness :
  let clk := Clock (1704110400 * 1000000) 0 in
  let rows := (get_random_quotes clk (λ i, i) 1 6 true six_quote_db).1 in
  q_id <$> rows = [1; 2; 4; 3; 5; 6] ∧
  (∀ a b, rows !! 0%nat = Some a → rows !! 1%nat = Some b →
          last_shown a = None ∧ times_shown a ≤ times_shown b) ∧
  (∀ a b, rows !! 2%nat = Some a → rows !! 3%nat = Some b →
          times_shown a ≤ times_shown b) ∧
  (∀ a b, rows !! 3%nat = Some a → rows !! 4%nat = Some b →
          last_shown a = None ∨
          ∃ t, last_shown a = Some t ∧
               t < current_timestamp clk - 7 * 86400).
Proof.
  intros clk rows.
  pose proof (proj2 (proj2 (proj2 (weighted_selection_respects_buckets
                                     clk (λ i, i) 1 6 six_quote_db)))) as H.
  cbv zeta in H. fold rows in H.
  split; [reflexivity|]. split; [|split].
  - intros a b Ha Hb.
    destruct (H 0%nat 1%nat a b ltac:(lia) Ha Hb) as (H1 & _ & _ & _ & H5).
    assert (Hnever : last_shown b = None)
      by (vm_compute in Hb; by injection Hb as <-).
    split; [apply H1, Hnever|apply H5, Hnever].
  - intros a b Ha Hb.
    destruct (H 2%nat 3%nat a b ltac:(lia) Ha Hb) as (_ & _ & _ & H4 & _).
    apply H4. right. left.
    vm_compute in Ha, Hb. injection Ha as <-. injection Hb as <-.
    split; eexists; (split; [reflexivity|vm_compute; reflexivity]).
  - intros a b Ha Hb.
    destruct (H 3%nat 4%nat a b ltac:(lia) Ha Hb) as (_ & _ & H3 & _).
    apply H3. vm_compute in Hb. injection Hb as <-.
    eexists. split; [reflexivity|vm_compute; reflexivity].
Defined.

(** ** The display bookkeeping *)

Lemma unique_ids_inj s a b :
  unique_ids s → a ∈ quotes s → b ∈ quotes s → q_id a = q_id b → a = b.
Proof.
  unfold unique_ids. induction (quotes s) as [|x l IH]; [by intros _ ?%elem_of_nil|].
  rewrite fmap_cons, NoDup_cons. intros [Hx Hl] Ha Hb Hid.
  apply elem_of_cons in Ha, Hb. destruct Ha as [->|Ha], Hb as [->|Hb].
  - done.
  - destruct Hx. rewrite Hid. by apply list_elem_of_fmap_2.
  - destruct Hx. rewrite <- Hid. by apply list_elem_of_fmap_2.
  - by apply IH.
Qed.

Lemma get_random_quotes_owned clk rnd user_id n srs s q :
  q ∈ (get_random_quotes clk rnd user_id n srs s).1 → q ∈ owned user_id s.
Proof.
  rewrite get_random_quotes_rows. intros Hq%limit_subseteq.
  by rewrite order_by_Permutation in Hq.
Qed.

Lemma owned_elem_of user_id s q :
  q ∈ owned user_id s ↔ q_user_id q = user_id ∧ q ∈ quotes s.
Proof. unfold owned. by rewrite list_elem_of_filter. Qed.

Lemma get_random_quotes_store clk rnd user_id n srs s :
  let rows := (get_random_quotes clk rnd user_id n srs s).1 in
  (get_random_quotes clk rnd user_id n srs s).2 =
  Db (users s) (mark_shown clk (q_id <$> rows) <$> quotes s) (quotes_seq s).
Proof.
  unfold get_random_quotes.
  destruct (if srs then _ else _) as [|r rows]; simpl; [|done].
  destruct s as [us qs sq]; simpl. f_equal.
  induction qs as [|q qs IH]; [done|].
  rewrite fmap_cons. f_equal. exact IH.
Qed.

(** C2: for every call of [get_random_quotes] on a store whose ids are
    unique, every returned record is a pre-state quote of the user; the
    post-state holds, position by position, the pre-state rows, where a row
    that is in the result has [times_shown] one higher and [last_shown] set
    to the time of the call ([shown]) and every other row is unchanged; and
    for a user without quotes the result is empty and the store is
    unchanged. *)
Theorem selection_marks_exactly_the_result clk rnd user_id n srs s :
  unique_ids s →
  let rows := (get_random_quotes clk rnd user_id n srs s).1 in
  let s' := (get_random_quotes clk rnd user_id n srs s).2 in
  (∀ q, q ∈ rows → q ∈ owned user_id s) ∧
  users s' = users s ∧ quotes_seq s' = quotes_seq s ∧
  quotes s' = (λ q, if decide (q ∈ rows) then shown clk q else q) <$> quotes s ∧
  (∀ q, times_shown (shown clk q) = times_shown q + 1 ∧
        last_shown (shown clk q) = Some (current_timestamp clk)) ∧
  (owned user_id s = [] → rows = [] ∧ s' = s).
Proof.
  intros Hids rows s'.
  assert (Hrows : ∀ q, q ∈ rows → q ∈ owned user_id s)
    by apply get_random_quotes_owned.
  subst s'. rewrite get_random_quotes_store. fold rows. simpl.
  split; [done|]. split; [done|]. split; [done|]. split; [|split; [done|]].
  - apply list_fmap_ext. intros i q Hq%list_elem_of_lookup_2.
    unfold mark_shown.
    destruct (decide (q_id q ∈ q_id <$> rows)) as [Hin|Hout],
      (decide (q ∈ rows)) as [Hq'|Hq']; try done.
    + apply list_elem_of_fmap in Hin as (r & Hid & Hr).
      destruct Hq'. pose proof (Hrows r Hr) as Hr'%owned_elem_of.
      by rewrite (unique_ids_inj s q r Hids Hq (proj2 Hr') Hid).
    + destruct Hout. by apply list_elem_of_fmap_2.
  - intros Hempty.
    assert (rows = []) as ->.
    { destruct rows as [|r rows']; [done|].
      specialize (Hrows r). rewrite Hempty in Hrows.
      exfalso. eapply elem_of_nil, Hrows. by left. }
    split; [done|].
    destruct s as [us qs sq]; simpl. f_equal.
    clear. induction qs as [|q qs IH]; [done|].
    rewrite fmap_cons. by f_equal.
Qed.

Lemma selection_marks_exactly_the_result_witness :
  let clk := Clock (1704110400 * 1000000) 0 in
  quotes (get_random_quotes clk (λ _, 0) 1 1 true two_quote_db).2 =
  [Quote 1 1 "seen" None None None None None 0 4 (Some 1704110000) 1704000000;
   Quote 2 1 "fresh" None None None None None 0 1 (Some 1704110400) 1704000001].
Proof.
  intros clk.
  assert (Hids : unique_ids two_quote_db)
    by (unfold unique_ids; apply (bool_decide_unpack _); reflexivity).
  rewrite (proj1 (proj2 (proj2 (proj2
    (selection_marks_exactly_the_result clk (λ _, 0) 1 1 true two_quote_db
       Hids))))).
  reflexivity.
Defined.

(** ** Identifiers *)

Lemma foldr_max_ge (z : Z) (l : list Z) : z ≤ foldr Z.max z l.
Proof. induction l; simpl; lia. Qed.

Lemma foldr_max_elem (z : Z) (l : list Z) x : x ∈ l → x ≤ foldr Z.max z l.
Proof.
  induction l as [|y l IH]; [by intros ?%elem_of_nil|].
  intros [->|Hx]%elem_of_cons; simpl; [lia|]. specialize (IH Hx). lia.
Qed.

Lemma next_quote_id_seq s : quotes_seq s < next_quote_id s.
Proof. unfold next_quote_id. pose proof (foldr_max_ge (quotes_seq s) (q_id <$> quotes s)). lia. Qed.

Lemma next_quote_id_fresh s q : q ∈ quotes s → q_id q < next_quote_id s.
Proof.
  intros Hq. unfold next_quote_id.
  pose proof (foldr_max_elem (quotes_seq s) (q_id <$> quotes s) (q_id q)
                (list_elem_of_fmap_2 _ _ _ Hq)). lia.
Qed.

Lemma save_quote_unique_ids clk user_id text url title author domain tags s :
  unique_ids s →
  unique_ids (save_quote clk user_id text url title author domain tags s).2.
Proof.
  unfold unique_ids. simpl. intros Hs.
  rewrite fmap_app. apply NoDup_app. split; [done|]. split.
  - intros i (q & -> & Hq)%list_elem_of_fmap [Hi|[]%elem_of_nil]%elem_of_cons.
    simpl in Hi. pose proof (next_quote_id_fresh s q Hq). lia.
  - simpl. apply NoDup_singleton.
Qed.

Lemma fmap_same_ids (f : quote → quote) (l : list quote) :
  (∀ q, q_id (f q) = q_id q) → q_id <$> (f <$> l) = q_id <$> l.
Proof.
  intros Hf. rewrite <- list_fmap_compose. apply list_fmap_ext.
  intros i q _. apply Hf.
Qed.

Lemma assigned_cons r rs : assigned (r :: rs) = assigned [r] ++ assigned rs.
Proof. unfold assigned. simpl. by destruct r. Qed.

Section ExecFacts.
Variable json_dumps : list quote → string.

Lemma exec_unique_ids clk user_id o s :
  unique_ids s → unique_ids (exec json_dumps clk user_id o s).2.
Proof.
  intros Hs. destruct o; simpl; try done.
  - by apply save_quote_unique_ids.
  - unfold unique_ids. simpl.
    eapply sublist_NoDup; [exact Hs|].
    apply fmap_sublist, sublist_filter.
  - rewrite get_random_quotes_store. unfold unique_ids. simpl.
    rewrite fmap_same_ids; [done|].
    intros q. unfold mark_shown. by destruct (decide _).
  - unfold toggle_favorite. destruct (head _); simpl; [|done].
    unfold unique_ids. simpl. rewrite fmap_same_ids; [done|].
    intros x. by destruct (decide _).
Qed.

Lemma exec_seq clk user_id o s :
  quotes_seq s ≤ quotes_seq (exec json_dumps clk user_id o s).2 ∧
  ∀ i, i ∈ assigned [(exec json_dumps clk user_id o s).1] →
       quotes_seq s < i ≤ quotes_seq (exec json_dumps clk user_id o s).2.
Proof.
  destruct o; simpl;
    try (split; [reflexivity|by intros ? ?%elem_of_nil]).
  - pose proof (next_quote_id_seq s). split; [lia|].
    intros i [->|[]%elem_of_nil]%elem_of_cons. lia.
  - rewrite get_random_quotes_store. simpl.
    split; [reflexivity|by intros ? ?%elem_of_nil].
  - unfold toggle_favorite. destruct (head _); simpl;
      (split; [reflexivity|by intros ? ?%elem_of_nil]).
Qed.

Lemma run_cons c calls s :
  run json_dumps (c :: calls) s =
  ((exec json_dumps c.1.1 c.1.2 c.2 s).1 ::
     (run json_dumps calls (exec json_dumps c.1.1 c.1.2 c.2 s).2).1,
   (run json_dumps calls (exec json_dumps c.1.1 c.1.2 c.2 s).2).2).
Proof.
  destruct c as [[clk user_id] o]. simpl.
  destruct (exec _ _ _ _ _) as [r s1]. simpl.
  by destruct (run _ _ _) as [rs s2].
Qed.

Lemma run_unique_ids calls s :
  unique_ids s → unique_ids (run json_dumps calls s).2.
Proof.
  revert s. induction calls as [|c calls IH]; intros s Hs; [done|].
  rewrite run_cons. simpl. by apply IH, exec_unique_ids.
Qed.

Lemma run_seq calls s :
  quotes_seq s ≤ quotes_seq (run json_dumps calls s).2 ∧
  ∀ i, i ∈ assigned (run json_dumps calls s).1 →
       quotes_seq s < i ≤ quotes_seq (run json_dumps calls s).2.
Proof.
  revert s. induction calls as [|c calls IH]; intros s.
  - simpl. split; [reflexivity|by intros ? ?%elem_of_nil].
  - rewrite run_cons. cbn [fst snd].
    set (e := exec json_dumps c.1.1 c.1.2 c.2 s).
    destruct (exec_seq c.1.1 c.1.2 c.2 s) as [H1 H2]. fold e in H1, H2.
    destruct (IH e.2) as [H3 H4]. split; [lia|].
    intros i Hi. rewrite assigned_cons in Hi.
    apply elem_of_app in Hi as [Hi|Hi].
    + specialize (H2 i Hi). lia.
    + specialize (H4 i Hi). lia.
Qed.
End ExecFacts.

(** C3 as stated fails: [save_quote] with the empty text inserts a row
    and returns its id. *)
Lemma save_quote_accepts_empty_text :
  save_quote (Clock (1704110400 * 1000000) 0) 1 "" None None None None None
    empty_db =
  (1, Db [] [Quote 1 1 "" None None None None None 0 0 None 1704110400] 1).
Proof. reflexivity. Qed.

(** C3, as amended: [save_quote] has no check on the text and succeeds for
    every text, the empty one included (an empty quote is turned down
    earlier, by [handle_message]). After any history of requests on a
    database that started empty, the identifier it returns is the id of the
    row it appends, is carried by no row of the store, was returned by no
    earlier save, and leaves the ids of the store unique. *)
Theorem save_quote_assigns_fresh_id json_dumps calls clk user_id text
    url title author domain tags :
  let rs := (run json_dumps calls empty_db).1 in
  let s := (run json_dumps calls empty_db).2 in
  let new_id :=
    (save_quote clk user_id text url title author domain tags s).1 in
  let s' := (save_quote clk user_id text url title author domain tags s).2 in
  (new_id ∉ q_id <$> quotes s) ∧
  (new_id ∉ assigned rs) ∧
  unique_ids s' ∧
  ∃ q, quotes s' = quotes s ++ [q] ∧
       q_id q = new_id ∧ q_user_id q = user_id ∧ q_text q = text.
Proof.
  intros rs s new_id s'. subst new_id s'. simpl.
  split; [|split; [|split]].
  - intros (q & Hid & Hq)%list_elem_of_fmap.
    pose proof (next_quote_id_fresh s q Hq). lia.
  - intros Hi. apply (run_seq json_dumps calls empty_db) in Hi.
    fold s in Hi. pose proof (next_quote_id_seq s). lia.
  - apply (save_quote_unique_ids clk user_id text url title author domain tags).
    apply run_unique_ids. unfold unique_ids. simpl. constructor.
  - by eexists.
Qed.

(** ** The pending-URL cache *)

Lemma get_pending_url_absent clk (ud : gmap string pending) :
  ud !! "pending_url" = None → get_pending_url clk ud = (None, ud).
Proof. intros H. unfold get_pending_url. by rewrite H. Qed.

Lemma get_pending_url_expired clk (ud : gmap string pending) p :
  ud !! "pending_url" = Some p →
  timedelta_minutes PENDING_URL_TIMEOUT < datetime_now clk - p_timestamp p →
  get_pending_url clk ud = (None, delete "pending_url" ud).
Proof.
  intros Hp Hlate. unfold get_pending_url. rewrite Hp.
  by destruct (Z.ltb_spec (timedelta_minutes PENDING_URL_TIMEOUT)
                 (datetime_now clk - p_timestamp p)); [|lia].
Qed.

Lemma get_pending_url_live clk (ud : gmap string pending) p :
  ud !! "pending_url" = Some p →
  datetime_now clk - p_timestamp p ≤ timedelta_minutes PENDING_URL_TIMEOUT →
  get_pending_url clk ud = (Some (p_url p, p_metadata p), ud).
Proof.
  intros Hp Hlive. unfold get_pending_url. rewrite Hp.
  by destruct (Z.ltb_spec (timedelta_minutes PENDING_URL_TIMEOUT)
                 (datetime_now clk - p_timestamp p)); [lia|].
Qed.

(** C4: while the dictionary holds a pending URL captured at
    [p_timestamp p], a get later than five minutes after the capture returns
    nothing and deletes the entry, after which every get returns nothing
    and changes nothing; a get at or before five minutes after the capture
    returns the stored URL with its metadata and leaves the entry. *)
Theorem pending_url_expires_once (ud : gmap string pending) p clk :
  ud !! "pending_url" = Some p →
  (p_timestamp p + timedelta_minutes 5 < datetime_now clk →
     (get_pending_url clk ud).1 = None ∧
     (get_pending_url clk ud).2 = delete "pending_url" ud ∧
     ∀ clk', get_pending_url clk' (get_pending_url clk ud).2 =
             (None, (get_pending_url clk ud).2)) ∧
  (datetime_now clk ≤ p_timestamp p + timedelta_minutes 5 →
     get_pending_url clk ud = (Some (p_url p, p_metadata p), ud)).
Proof.
  intros Hp. split.
  - intros Hlate.
    rewrite (get_pending_url_expired clk ud p Hp)
      by (unfold PENDING_URL_TIMEOUT; lia).
    simpl. repeat split. intros clk'.
    apply get_pending_url_absent, lookup_delete_eq.
  - intros Hlive. apply get_pending_url_live; [done|].
    unfold PENDING_URL_TIMEOUT. lia.
Qed.

Lemma pending_url_expires_once_witness :
  let ud := set_pending_url (Clock 0 0) "https://example.com"
              (Metadata (Some "Example") None (Some "example.com")) ∅ in
  get_pending_url (Clock (300 * 1000000) 0) ud =
    (Some ("https://example.com",
           Metadata (Some "Example") None (Some "example.com")), ud) ∧
  get_pending_url (Clock (300 * 1000000 + 1) 0) ud = (None, ∅) ∧
  get_pending_url (Clock (300 * 1000000 + 2) 0)
    (get_pending_url (Clock (300 * 1000000 + 1) 0) ud).2 = (None, ∅).
Proof.
  intros ud.
  pose proof (pending_url_expires_once ud
                (Pending "https://example.com"
                   (Metadata (Some "Example") None (Some "example.com")) 0)
                (Clock (300 * 1000000) 0) eq_refl) as [_ H1].
  pose proof (pending_url_expires_once ud
                (Pending "https://example.com"
                   (Metadata (Some "Example") None (Some "example.com")) 0)
                (Clock (300 * 1000000 + 1) 0) eq_refl) as [H2 _].
  split; [apply H1; vm_compute; discriminate|].
  destruct H2 as (_ & _ & H2); [reflexivity|].
  split; [reflexivity|]. rewrite H2. reflexivity.
Defined.

(** ** Partition by owner *)

Lemma filter_owned (P Q : quote → Prop)
    {HP : ∀ q, Decision (P q)} {HQ : ∀ q, Decision (Q q)} user_id s :
  (∀ q, Q q ↔ q_user_id q = user_id ∧ P q) →
  filter Q (quotes s) = filter P (owned user_id s).
Proof.
  intros HPQ. unfold owned. rewrite list_filter_filter.
  apply list_filter_iff. intros q. rewrite HPQ. tauto.
Qed.

Lemma others_fmap (f : quote → quote) user_id (l : list quote) :
  (∀ q, q ∈ l → q_user_id (f q) = q_user_id q ∧
                (q_user_id q ≠ user_id → f q = q)) →
  filter (λ q, q_user_id q ≠ user_id) (f <$> l) =
  filter (λ q, q_user_id q ≠ user_id) l.
Proof.
  induction l as [|x l IH]; intros Hf; [done|].
  rewrite fmap_cons, !filter_cons.
  destruct (Hf x) as [Hu Hx]; [by left|].
  rewrite IH by (intros q Hq; apply Hf; by right).
  rewrite Hu. destruct (decide (q_user_id x ≠ user_id)); [|done].
  by rewrite Hx.
Qed.

Section Partition.
Variable json_dumps : list quote → string.

Lemma exec_frame clk user_id o s :
  unique_ids s →
  others user_id (exec json_dumps clk user_id o s).2 = others user_id s.
Proof.
  intros Hids. unfold others. destruct o; simpl; try done.
  - rewrite filter_app, filter_cons, filter_nil. simpl.
    destruct (decide (user_id ≠ user_id)); [done|]. by rewrite app_nil_r.
  - rewrite list_filter_filter. apply list_filter_iff. intros q. tauto.
  - rewrite get_random_quotes_store. simpl.
    apply others_fmap. intros q Hq. unfold mark_shown.
    destruct (decide _) as [Hin|]; [|done]. split; [done|]. intros Hne.
    apply list_elem_of_fmap in Hin as (r & Hid & Hr).
    apply get_random_quotes_owned, owned_elem_of in Hr as [Hu Hr].
    rewrite (unique_ids_inj s q r Hids Hq Hr Hid) in Hne. done.
  - unfold toggle_favorite. destruct (head _); simpl; [|done].
    apply others_fmap. intros x _.
    destruct (decide _) as [[_ Hu]|]; [|done]. split; [done|]. done.
Qed.

Lemma exec_result_owned clk user_id o s1 s2 :
  is_save o = false →
  owned user_id s1 = owned user_id s2 →
  (exec json_dumps clk user_id o s1).1 = (exec json_dumps clk user_id o s2).1.
Proof.
  intros Hsave Heq.
  destruct o as [text u t a d tags|quote_id|quote_id|rnd n srs|n| |
                 |keyword|tag|dom|quote_id| |limit|text minutes| ];
    simpl in *; try done.
  - do 2 f_equal.
    rewrite !(filter_owned (λ q, q_id q = quote_id) _ user_id)
      by (intros; tauto).
    by rewrite Heq.
  - unfold get_quote_by_id.
    rewrite !(filter_owned (λ q, q_id q = quote_id) _ user_id)
      by (intros; tauto).
    by rewrite Heq.
  - by rewrite !get_random_quotes_rows, Heq.
  - unfold get_last_quotes. by rewrite Heq.
  - unfold get_quote_count. by rewrite Heq.
  - unfold get_quotes_this_week.
    rewrite !(filter_owned
                (λ q, Sql.text_ge (sqlite_text (created_at q))
                        (isoformat (datetime_now clk - timedelta_days 7)))
                _ user_id) by (intros; tauto).
    by rewrite Heq.
  - unfold search_quotes.
    rewrite !(filter_owned
                (λ q, Sql.like ("%" +:+ keyword +:+ "%") (q_text q))
                _ user_id) by (intros; tauto).
    by rewrite Heq.
  - unfold get_quotes_by_tag.
    rewrite !(filter_owned
                (λ q, Sql.like_opt ("%" +:+ tag +:+ "%") (q_tags q))
                _ user_id) by (intros; tauto).
    by rewrite Heq.
  - unfold get_quotes_by_source.
    rewrite !(filter_owned
                (λ q, Sql.like_opt ("%" +:+ dom +:+ "%") (source_domain q))
                _ user_id) by (intros; tauto).
    by rewrite Heq.
  - unfold toggle_favorite.
    rewrite !(filter_owned (λ q, q_id q = quote_id) _ user_id)
      by (intros; tauto).
    rewrite Heq. by destruct (head _).
  - unfold get_favorite_quotes.
    rewrite !(filter_owned (λ q, is_favorite q = 1) _ user_id)
      by (intros; tauto).
    by rewrite Heq.
  - unfold get_top_tags.
    rewrite !(filter_owned (λ q, q_tags q ≠ None) _ user_id)
      by (intros; tauto).
    by rewrite Heq.
  - unfold is_duplicate.
    rewrite !(filter_owned
                (λ q, q_text q = text ∧
                      Sql.text_ge (sqlite_text (created_at q))
                        (isoformat (datetime_now clk - timedelta_minutes minutes)))
                _ user_id) by (intros; tauto).
    by rewrite Heq.
  - unfold export_all_quotes. by rewrite Heq.
Qed.
End Partition.

(** C5 as stated fails for [save_quote]: two stores in which user 1 owns
    the same rows (none) give user 1 different identifiers, because another
    user saved a quote in one of them. *)
Lemma save_quote_id_depends_on_other_users :
  let clk := Clock (1704110400 * 1000000) 0 in
  let s1 := empty_db in
  let s2 := (save_quote clk 2 "theirs" None None None None None empty_db).2 in
  unique_ids s1 ∧ unique_ids s2 ∧
  owned 1 s1 = owned 1 s2 ∧
  (save_quote clk 1 "mine" None None None None None s1).1 = 1 ∧
  (save_quote clk 1 "mine" None None None None None s2).1 = 2.
Proof.
  intros clk s1 s2.
  split; [apply (bool_decide_unpack _); reflexivity|].
  split; [apply (bool_decide_unpack _); reflexivity|].
  repeat split.
Qed.

(** C5, as amended: on a store whose ids are unique, every store operation
    run for a user leaves the rows of all other users as they were (the
    counter update of [get_random_quotes] included, although its UPDATE
    selects by id alone), and what every operation other than [save_quote]
    returns is determined by the requester's rows. The identifier that
    [save_quote] returns comes from a sequence that all users share. *)
Theorem store_operations_respect_ownership json_dumps clk user_id o s :
  unique_ids s →
  others user_id (exec json_dumps clk user_id o s).2 = others user_id s ∧
  (is_save o = false →
   ∀ s2, owned user_id s2 = owned user_id s →
         (exec json_dumps clk user_id o s2).1 =
         (exec json_dumps clk user_id o s).1).
Proof.
  intros Hids. split; [by apply exec_frame|].
  intros Hsave s2 Heq. by apply exec_result_owned.
Qed.

Lemma store_operations_respect_ownership_witness :
  let clk := Clock (1704110400 * 1000000) 0 in
  others 1 (get_random_quotes clk (λ _, 0) 1 10 true shared_db).2 =
  [Quote 2 2 "theirs" None None None None None 0 1 (Some 1704000000)
     1703000001].
Proof.
  intros clk.
  assert (Hids : unique_ids shared_db)
    by (apply (bool_decide_unpack _); reflexivity).
  pose proof (proj1 (store_operations_respect_ownership (λ _, "") clk 1
                       (GetRandomQuotes (λ _, 0) 10 true) shared_db Hids))
    as H.
  transitivity (others 1 shared_db); [exact H|reflexivity].
Defined.

(** ** Arguments that are not numbers *)

Lemma ensure_registered_quotes clk upd s :
  (ensure_registered clk upd s).1 = effective_chat_id upd ∧
  quotes (ensure_registered clk upd s).2 = quotes s ∧
  quotes_seq (ensure_registered clk upd s).2 = quotes_seq s.
Proof.
  unfold ensure_registered. destruct (effective_user upd) as [[u f]|];
    unfold register_user; by destruct (filter _ _).
Qed.

(** C6 as stated fails for [/last]: with an argument that is not a number
    the reply is the listing of the last quotes, not a usage message. *)
Lemma last_command_ignores_malformed_argument :
  let clk := Clock (1704110400 * 1000000) 0 in
  let upd := Update 1 None None in
  let s := (save_quote clk 1 "q" None None None None None empty_db).2 in
  py_int "abc" = None ∧
  sent (last_command clk upd (Context ["abc"] ∅) s) =
    [reply_text ("Last 1 quote(s):" +:+ Text.nl +:+ Text.nl +:+ "[#1] " +:+
                 Text.dq +:+ "q" +:+ Text.dq +:+ Text.nl +:+ Text.nl)] ∧
  forallb validation_message
    (sent (last_command clk upd (Context ["abc"] ∅) s)) = false.
Proof. repeat split. Qed.

(** C6, as amended: when the argument of [/fav] or [/delete] is not a
    number ([int()] raises ValueError for it: [py_int] is [None]; digits
    of any script make a number), the handler answers "Invalid quote ID.
    Use a number." and no
    quote is created, deleted or modified, no counter is updated and the
    pending URL is left alone. [/last] ignores an argument that is not a
    number: it answers as it does without an argument, with the last five
    quotes, and changes no quote either. *)
Theorem malformed_numeric_argument clk upd ud s a rest :
  py_int a = None →
  let ctx := Context (a :: rest) ud in
  (sent (fav_command clk upd ctx s) =
     [reply_text "Invalid quote ID. Use a number."] ∧
   quotes (store (fav_command clk upd ctx s)) = quotes s ∧
   quotes_seq (store (fav_command clk upd ctx s)) = quotes_seq s ∧
   user_data' (fav_command clk upd ctx s) = ud) ∧
  (sent (delete_command clk upd ctx s) =
     [reply_text "Invalid quote ID. Use a number."] ∧
   quotes (store (delete_command clk upd ctx s)) = quotes s ∧
   quotes_seq (store (delete_command clk upd ctx s)) = quotes_seq s ∧
   user_data' (delete_command clk upd ctx s) = ud) ∧
  (last_command clk upd ctx s = last_command clk upd (Context [] ud) s ∧
   quotes (store (last_command clk upd ctx s)) = quotes s ∧
   quotes_seq (store (last_command clk upd ctx s)) = quotes_seq s ∧
   user_data' (last_command clk upd ctx s) = ud).
Proof.
  intros Ha ctx.
  destruct (ensure_registered_quotes clk upd s) as (Hu & Hq & Hsq).
  unfold fav_command, delete_command, last_command.
  destruct (ensure_registered clk upd s) as [user_id s0]. simpl in *.
  rewrite Ha. simpl. repeat split; try done.
  - by destruct (get_last_quotes _ _ _).
  - by destruct (get_last_quotes _ _ _).
  - by destruct (get_last_quotes _ _ _).
Qed.

Lemma malformed_numeric_argument_witness :
  let clk := Clock (1704110400 * 1000000) 0 in
  let upd := Update 1 None None in
  py_int "١٢" = Some 12 ∧ py_int " -1_0 " = Some (-10) ∧
  sent (fav_command clk upd (Context ["abc"] ∅) two_quote_db) =
    [reply_text "Invalid quote ID. Use a number."] ∧
  sent (fav_command clk upd (Context ["1é"] ∅) two_quote_db) =
    [reply_text "Invalid quote ID. Use a number."] ∧
  quotes (store (delete_command clk upd (Context ["x1"] ∅) two_quote_db)) =
    quotes two_quote_db.
Proof.
  intros clk upd. split; [reflexivity|]. split; [reflexivity|].
  split; [|split].
  - apply (malformed_numeric_argument clk upd ∅ two_quote_db "abc" []).
    reflexivity.
  - apply (malformed_numeric_argument clk upd ∅ two_quote_db "1é" []).
    reflexivity.
  - apply (malformed_numeric_argument clk upd ∅ two_quote_db "x1" []).
    reflexivity.
Defined.

(** ** [/last] *)

Lemma last_limit_le args : last_limit args ≤ 10.
Proof.
  unfold last_limit. destruct args as [|a ?]; [lia|].
  destruct (py_int a); lia.
Qed.

Lemma newest_first_sorted l :
  StronglySorted (λ a b, created_at b ≤ created_at a) (newest_first l).
Proof.
  eapply StronglySorted_mono;
    [|apply (order_by_sorted (λ a b, created_at b <=? created_at a))].
  - intros a b. apply Z.leb_le.
  - intros x y. rewrite !Z.leb_le. lia.
  - intros x y z. rewrite !Z.leb_le. lia.
Qed.

Lemma StronglySorted_take {A} (R : relation A) k l :
  StronglySorted R l → StronglySorted R (take k l).
Proof.
  intros Hl. rewrite <- (take_drop k l) in Hl.
  by apply StronglySorted_app_1_l in Hl.
Qed.

(** What [/last] does get right: an argument that is a number and not
    negative shows at most 10 quotes, no argument (or one that is not a
    number) at most 5, always the user's own and newest first. *)
Lemma get_last_quotes_capped user_id args s :
  let quotes := get_last_quotes user_id (last_limit args) s in
  (0 ≤ last_limit args → (length quotes ≤ 10)%nat) ∧
  (args = [] → (length quotes ≤ 5)%nat) ∧
  (∀ q, q ∈ quotes → q ∈ owned user_id s) ∧
  StronglySorted (λ a b, created_at b ≤ created_at a) quotes.
Proof.
  intros qs. subst qs. unfold get_last_quotes.
  pose proof (last_limit_le args) as Hle.
  split; [|split; [|split]].
  - intros Hn.
    pose proof (limit_length (last_limit args)
                  (newest_first (owned user_id s)) Hn). lia.
  - intros ->.
    change (last_limit []) with 5.
    pose proof (limit_length 5 (newest_first (owned user_id s))) as H. lia.
  - intros q Hq%limit_subseteq. unfold newest_first in Hq.
    by rewrite order_by_Permutation in Hq.
  - destruct (limit_prefix (last_limit args) (newest_first (owned user_id s)))
      as [k ->].
    apply StronglySorted_take, newest_first_sorted.
Qed.

(** C7, the failing input: [/last -1] for a user with 11 quotes. The cap
    [min(int(arg), 10)] lets the negative number through, a negative LIMIT
    does not bound the query, and the reply lists all 11 quotes. *)
Theorem last_command_negative_argument :
  let clk := Clock (1704200000 * 1000000) 0 in
  let upd := Update 1 None None in
  last_limit ["-1"] = -1 ∧
  length (get_last_quotes 1 (last_limit ["-1"]) (saved 11)) = 11%nat ∧
  ∃ text, sent (last_command clk upd (Context ["-1"] ∅) (saved 11)) =
            [reply_text text] ∧
          String.prefix "Last 11 quote(s):" text = true.
Proof.
  intros clk upd. split; [reflexivity|]. split; [reflexivity|].
  eexists. split; [vm_compute; reflexivity|reflexivity].
Qed.

(** ** Duplicates *)

(** C8, the failing input: [is_duplicate] asked in the same second in which
    [save_quote] stored the text, on a machine whose local zone is UTC.
    The row holds ["2024-01-01 12:00:00"], the cutoff is rendered as
    ["2024-01-01T11:59:00"], and as texts the first is the smaller one (a
    space sorts before [T]): the quote is not reported as a duplicate. The
    second case is the opposite failure: in a zone five hours behind UTC a
    quote saved two hours earlier is still reported. *)
Theorem is_duplicate_compares_mixed_formats :
  let clk := Clock (1704110400 * 1000000) 0 in
  let s := (save_quote clk 1 "same text" None None None None None empty_db).2 in
  let saved_at := Clock (1704157200 * 1000000) (-18000) in
  let asked_at := Clock (1704164400 * 1000000) (-18000) in
  let s' :=
    (save_quote saved_at 1 "same text" None None None None None empty_db).2 in
  (sqlite_text (current_timestamp clk) = "2024-01-01 12:00:00"%string ∧
   isoformat (datetime_now clk - timedelta_minutes 1) =
     "2024-01-01T11:59:00"%string ∧
   is_duplicate clk 1 "same text" 1 s = false) ∧
  (sqlite_text (current_timestamp saved_at) = "2024-01-02 01:00:00"%string ∧
   isoformat (datetime_now asked_at - timedelta_minutes 1) =
     "2024-01-01T21:59:00"%string ∧
   is_duplicate asked_at 1 "same text" 1 s' = true).
Proof. repeat split. Qed.

(** ** Deleting *)





(** [/delete <id>] for an id that SQLite can hold and that the requester
    does not own: the answer is "Quote #<id> not found." and no quote is
    touched. *)
Lemma delete_command_not_owned clk upd ud s a rest quote_id :
  py_int a = Some quote_id → Sql.int64 quote_id →
  (∀ q, q ∈ quotes s → q_id q = quote_id →
        q_user_id q ≠ effective_chat_id upd) →
  let out := delete_command clk upd (Context (a :: rest) ud) s in
  sent out = [reply_text ("Quote #" +:+ Text.of_Z quote_id +:+ " not found.")] ∧
  quotes (store out) = quotes s.
Proof.
  intros Ha _ Hother out. subst out.
  destruct (ensure_registered_quotes clk upd s) as (Hu & Hq & _).
  unfold delete_command.
  destruct (ensure_registered clk upd s) as [user_id s0]. simpl in *.
  rewrite Ha. unfold get_quote_by_id.
  destruct (filter _ (quotes s0)) as [|q l] eqn:E; simpl; [done|].
  assert (Hin : q ∈ filter (λ q, q_id q = quote_id ∧ q_user_id q = user_id)
                      (quotes s0)) by (rewrite E; by left).
  apply list_elem_of_filter in Hin as [[Hi Hw] Hin].
  rewrite Hq in Hin. destruct (Hother q Hin Hi). by rewrite Hw.
Qed.

(** ** Duplicates and the pending URL *)

Lemma is_duplicate_quotes clk user_id text minutes s1 s2 :
  quotes s1 = quotes s2 →
  is_duplicate clk user_id text minutes s1 =
  is_duplicate clk user_id text minutes s2.
Proof. intros H. unfold is_duplicate. by rewrite H. Qed.

Section HandleMessageFacts.
Variable parse_message : string → parsed_message.
Variable fetch_metadata : string → metadata.

(** A message that carries a quote: the handler of such a message, with
    the registration step and the classification settled. *)
Lemma handle_message_quote clk upd ctx s text quote :
  message_text upd = Some text → text ≠ "" →
  quote_text (parse_message text) = Some quote → quote ≠ "" →
  let s0 := (ensure_registered clk upd s).2 in
  let user_id := effective_chat_id upd in
  let parsed := parse_message text in
  handle_message parse_message fetch_metadata clk upd ctx s =
  if is_duplicate clk user_id quote 1 s then
    Outcome [reply_text "This quote was already saved recently."]
      (user_data ctx) s0
  else
    let '(u, md, ud) :=
      if Text.truthy (url parsed) then
        (url parsed, fetch_metadata (default "" (url parsed)),
         clear_pending_url (user_data ctx))
      else
        match get_pending_url clk (user_data ctx) with
        | (Some (u, md), ud) => (Some u, md, clear_pending_url ud)
        | (None, ud) => (url parsed, Metadata None None None, ud)
        end in
    let '(quote_id, s1) :=
      save_quote clk user_id quote u (title md) (author md) (domain md)
        (Some (tags parsed)) s0 in
    Outcome [reply_text (saved_reply quote_id quote (title md) (author md)
                           (domain md) (tags parsed))] ud s1.
Proof.
  intros Hmsg Htext Hquote Hne s0 user_id parsed. subst s0 user_id parsed.
  destruct (ensure_registered_quotes clk upd s) as (Hu & Hq & _).
  unfold handle_message.
  destruct (ensure_registered clk upd s) as [user_id s0]. simpl in *.
  subst user_id. rewrite Hmsg.
  destruct text as [|c text]; [done|].
  rewrite Hquote. destruct quote as [|d quote]; [done|]. simpl.
  rewrite andb_false_r.
  by rewrite (is_duplicate_quotes clk _ _ 1 s0 s Hq).
Qed.

(** C10: when [handle_message] turns a quote down as a duplicate, it
    answers "This quote was already saved recently.", saves nothing and
    leaves the dictionary, a pending URL included, as it was. A later
    message that is a quote only and not a duplicate, handled while the
    pending URL is at most five minutes old, is saved with the pending
    URL and its title, author and domain, and consumes the entry. *)
Theorem duplicate_leaves_pending_url clk upd args ud s text quote :
  message_text upd = Some text → text ≠ "" →
  quote_text (parse_message text) = Some quote → quote ≠ "" →
  is_duplicate clk (effective_chat_id upd) quote 1 s = true →
  let out :=
    handle_message parse_message fetch_metadata clk upd (Context args ud) s in
  sent out = [reply_text "This quote was already saved recently."] ∧
  user_data' out = ud ∧
  quotes (store out) = quotes s ∧
  quotes_seq (store out) = quotes_seq s ∧
  ∀ p clk2 upd2 args2 text2 quote2,
    ud !! "pending_url" = Some p →
    datetime_now clk2 ≤ p_timestamp p + timedelta_minutes 5 →
    message_text upd2 = Some text2 → text2 ≠ "" →
    Text.truthy (url (parse_message text2)) = false →
    quote_text (parse_message text2) = Some quote2 → quote2 ≠ "" →
    is_duplicate clk2 (effective_chat_id upd2) quote2 1 (store out) = false →
    let out2 :=
      handle_message parse_message fetch_metadata clk2 upd2
        (Context args2 (user_data' out)) (store out) in
    user_data' out2 !! "pending_url" = None ∧
    ∃ q, quotes (store out2) = quotes s ++ [q] ∧
         q_user_id q = effective_chat_id upd2 ∧
         q_text q = quote2 ∧
         q_url q = Some (p_url p) ∧
         source_title q = title (p_metadata p) ∧
         source_author q = author (p_metadata p) ∧
         source_domain q = domain (p_metadata p).
Proof.
  intros Hmsg Htext Hquote Hne Hdup out. subst out.
  rewrite (handle_message_quote clk upd (Context args ud) s text quote)
    by done.
  rewrite Hdup. simpl.
  destruct (ensure_registered_quotes clk upd s) as (_ & Hq & Hsq).
  split; [done|]. split; [done|]. split; [done|]. split; [done|].
  intros p clk2 upd2 args2 text2 quote2 Hp Hlive Hmsg2 Htext2 Hurl2 Hquote2
    Hne2 Hfresh.
  rewrite (handle_message_quote clk2 upd2 _ _ text2 quote2) by done.
  rewrite Hfresh, Hurl2. simpl.
  rewrite (get_pending_url_live clk2 ud p Hp)
    by (unfold PENDING_URL_TIMEOUT; lia).
  simpl. split; [apply lookup_delete_eq|].
  destruct (ensure_registered_quotes clk2 upd2 (ensure_registered clk upd s).2)
    as (_ & Hq2 & _).
  eexists. rewrite Hq2, Hq. by repeat split.
Qed.
End HandleMessageFacts.

Lemma duplicate_leaves_pending_url_witness :
  let ud : gmap string pending := {["pending_url" := example_pending]} in
  let out :=
    handle_message quote_only_parser no_metadata
      (Clock (1704153620 * 1000000) 0) (Update 1 None (Some "dup"))
      (Context [] ud) midnight_db in
  let out2 :=
    handle_message quote_only_parser no_metadata
      (Clock (1704153700 * 1000000) 0) (Update 1 None (Some "fresh"))
      (Context [] (user_data' out)) (store out) in
  user_data' out = ud ∧
  quotes (store out) = quotes midnight_db ∧
  ∃ q, quotes (store out2) = quotes midnight_db ++ [q] ∧
       q_text q = "fresh" ∧
       q_url q = Some "https://example.com" ∧
       source_title q = Some "Example" ∧
       source_domain q = Some "example.com".
Proof.
  intros ud out out2.
  assert (Hdup : is_duplicate (Clock (1704153620 * 1000000) 0) 1 "dup" 1
                   midnight_db = true) by reflexivity.
  pose proof (duplicate_leaves_pending_url quote_only_parser no_metadata
                (Clock (1704153620 * 1000000) 0) (Update 1 None (Some "dup"))
                [] ud midnight_db "dup" "dup" eq_refl
                ltac:(discriminate) eq_refl ltac:(discriminate) Hdup)
    as (_ & H2 & H3 & _ & H5).
  split; [exact H2|]. split; [exact H3|].
  destruct (H5 example_pending (Clock (1704153700 * 1000000) 0)
              (Update 1 None (Some "fresh")) [] "fresh" "fresh")
    as (_ & q & Hq & _ & Ht & Hu & Hti & _ & Hd);
    [reflexivity|vm_compute; discriminate|reflexivity|discriminate
    |reflexivity|reflexivity|discriminate|reflexivity|].
  exists q. repeat split; assumption.
Defined.

Section EmptyQuotes.
Variable parse_message : string → parsed_message.
Variable fetch_metadata : string → metadata.

(** The check that [save_quote] does not make is made by its caller: a row
    that [handle_message] adds to the store never has an empty text. *)
Lemma handle_message_saves_no_empty_text clk upd ctx s q :
  q ∈ quotes (store (handle_message parse_message fetch_metadata clk upd ctx s)) →
  q ∈ quotes s ∨ q_text q ≠ "".
Proof.
  destruct (ensure_registered_quotes clk upd s) as (_ & Hq & _).
  destruct (message_text upd) as [text|] eqn:Hmsg.
  2: { unfold handle_message.
       destruct (ensure_registered clk upd s) as [user_id s0].
       rewrite Hmsg. simpl in *. rewrite Hq. by left. }
  destruct text as [|c text].
  { unfold handle_message.
    destruct (ensure_registered clk upd s) as [user_id s0].
    rewrite Hmsg. simpl in *. rewrite Hq. by left. }
  destruct (quote_text (parse_message (String c text))) as [[|d quote]|] eqn:Hquote.
  - unfold handle_message.
    destruct (ensure_registered clk upd s) as [user_id s0].
    rewrite Hmsg, Hquote. simpl in *.
    rewrite andb_true_r. destruct (Text.truthy _); simpl; rewrite Hq; by left.
  - rewrite (handle_message_quote parse_message fetch_metadata clk upd ctx s
               (String c text) (String d quote)) by done.
    destruct (is_duplicate _ _ _ _ _); simpl; [rewrite Hq; by left|].
    destruct (if Text.truthy _ then _ else _) as [[u md] ud]. simpl.
    rewrite Hq. intros [Hin|Hin]%elem_of_app; [by left|].
    apply list_elem_of_singleton in Hin as ->. by right.
  - unfold handle_message.
    destruct (ensure_registered clk upd s) as [user_id s0].
    rewrite Hmsg, Hquote. simpl in *.
    rewrite andb_true_r. destruct (Text.truthy _); simpl; rewrite Hq; by left.
Qed.
End EmptyQuotes.

(** ** The calendar *)

Example sqlite_text_noon :
  sqlite_text 1704110400 = "2024-01-01 12:00:00"%string.
Proof. reflexivity. Qed.

Example isoformat_microseconds :
  isoformat (1704110340 * 1000000 + 250) = "2024-01-01T11:59:00.000250"%string.
Proof. reflexivity. Qed.

Example isoformat_leap_day :
  isoformat (1709251199 * 1000000) = "2024-02-29T23:59:59"%string.
Proof. reflexivity. Qed.

Example sqlite_text_epoch : sqlite_text 0 = "1970-01-01 00:00:00"%string.
Proof. reflexivity. Qed.

(** * Further properties of the store *)

Lemma registered_filter cid (us : list user) :
  filter (λ u, chat_id u = cid) us = [] ↔ cid ∉ chat_id <$> us.
Proof.
  induction us as [|u us IH].
  - split; [intros _ []%elem_of_nil|done].
  - rewrite filter_cons, fmap_cons, not_elem_of_cons.
    destruct (decide (chat_id u = cid)) as [->|Hne].
    + split; [done|]. by intros [? _].
    + rewrite IH. split; [by split|]. by intros [_ ?].
Qed.

(** X1: [register_user] is an upsert keyed by the chat id. It returns
    [true] exactly when the chat id was not registered; afterwards the chat
    id is registered, every row with that chat id carries the names just
    given, a second registration returns [false], the rows of other chats
    are as they were, chat ids that were unique stay unique, and the quotes
    are not touched. *)
Theorem register_user_upsert clk cid uname fname s :
  let r := register_user clk cid uname fname s in
  (r.1 = true ↔ cid ∉ chat_id <$> users s) ∧
  cid ∈ chat_id <$> users r.2 ∧
  (∀ u, u ∈ users r.2 → chat_id u = cid →
        username u = uname ∧ first_name u = fname) ∧
  (∀ clk' uname' fname', (register_user clk' cid uname' fname' r.2).1 = false) ∧
  filter (λ u, chat_id u ≠ cid) (users r.2) =
    filter (λ u, chat_id u ≠ cid) (users s) ∧
  (NoDup (chat_id <$> users s) → NoDup (chat_id <$> users r.2)) ∧
  quotes r.2 = quotes s ∧ quotes_seq r.2 = quotes_seq s.
Proof.
  intros r. subst r.
  assert (Hin : cid ∈ chat_id <$>
                  users (register_user clk cid uname fname s).2).
  { unfold register_user.
    destruct (filter _ (users s)) as [|u l] eqn:E; simpl.
    - rewrite fmap_app. apply elem_of_app. right. by left.
    - assert (Hu : u ∈ filter (λ u, chat_id u = cid) (users s))
        by (rewrite E; by left).
      apply list_elem_of_filter in Hu as [Hc Hu].
      apply list_elem_of_fmap. eexists. split; [|apply list_elem_of_fmap_2, Hu].
      by destruct (decide _). }
  split; [|split; [done|split; [|split; [|split; [|split]]]]].
  - rewrite <- registered_filter. unfold register_user.
    by destruct (filter _ (users s)).
  - unfold register_user.
    destruct (filter _ (users s)) as [|u0 l] eqn:E; simpl; intros u Hu Hc.
    + apply elem_of_app in Hu as [Hu|Hu].
      * apply registered_filter in E. destruct E. rewrite <- Hc.
        by apply list_elem_of_fmap_2.
      * by apply list_elem_of_singleton in Hu as ->.
    + apply list_elem_of_fmap in Hu as (v & -> & Hv).
      destruct (decide (chat_id v = cid)) as [|Hne]; [by split|].
      by destruct Hne.
  - intros clk' uname' fname'.
    unfold register_user at 1.
    destruct (filter _ (users _)) eqn:E; [|done].
    by apply registered_filter in E.
  - unfold register_user.
    destruct (filter _ (users s)) as [|u0 l]; simpl.
    + rewrite filter_app, filter_cons, filter_nil. simpl.
      destruct (decide (cid ≠ cid)); [done|]. by rewrite app_nil_r.
    + induction (users s) as [|v vs IH]; [done|].
      rewrite fmap_cons, !filter_cons, IH.
      destruct (decide (chat_id v = cid)) as [Hv|Hv]; simpl.
      * rewrite Hv. by destruct (decide (cid ≠ cid)).
      * by destruct (decide (chat_id v ≠ cid)).
  - intros Hnd. unfold register_user.
    destruct (filter _ (users s)) as [|u0 l] eqn:E; simpl.
    + rewrite fmap_app. apply NoDup_app. split; [done|]. split.
      * intros x Hx [->|[]%elem_of_nil]%elem_of_cons.
        by apply registered_filter in E.
      * apply NoDup_singleton.
    + rewrite <- list_fmap_compose.
      erewrite list_fmap_ext; [exact Hnd|].
      intros i v _. simpl. by destruct (decide _).
  - unfold register_user. by destruct (filter _ (users s)).
Qed.

Lemma register_user_upsert_witness :
  let clk := Clock (1704110400 * 1000000) 0 in
  let r := register_user clk 7 (Some "ann") None empty_db in
  r.1 = true ∧
  (register_user clk 7 (Some "anna") (Some "Ann") r.2).1 = false ∧
  NoDup (chat_id <$> users r.2).
Proof.
  intros clk r.
  pose proof (register_user_upsert clk 7 (Some "ann") None empty_db)
    as (H1 & _ & _ & H4 & _ & H6 & _).
  split; [apply H1; by intros ?%elem_of_nil|].
  split; [apply H4|]. apply H6. constructor.
Defined.

Lemma save_quote_row clk user_id text url title author domain tags s :
  let r := save_quote clk user_id text url title author domain tags s in
  ∃ q, quotes r.2 = quotes s ++ [q] ∧ q_id q = r.1 ∧ q_user_id q = user_id ∧
       q_text q = text ∧ q_url q = url ∧ source_title q = title ∧
       source_author q = author ∧ source_domain q = domain ∧
       q_tags q = match tags with
                  | Some (t :: ts) => Some (Text.join "," (t :: ts))
                  | _ => None
                  end ∧
       is_favorite q = 0 ∧ times_shown q = 0 ∧ last_shown q = None ∧
       created_at q = current_timestamp clk.
Proof. intros r. eexists. by repeat split. Qed.

Lemma filter_id_fresh (user_id : Z) s i :
  (∀ q, q ∈ quotes s → q_id q < i) →
  filter (λ q, q_id q = i ∧ q_user_id q = user_id) (quotes s) = [].
Proof.
  intros Hlt. induction (quotes s) as [|q l IH]; [done|].
  rewrite filter_cons. destruct (decide _) as [[Hi _]|_].
  - specialize (Hlt q (list_elem_of_here _ _)). lia.
  - apply IH. intros x Hx. apply Hlt. by right.
Qed.

(** X2: a quote that [save_quote] has stored is found again by
    [get_quote_by_id] under the returned id, for its owner only, with the
    fields as given (the tags joined by commas, and no tags for a missing
    or empty list), never shown and not a favourite. Lookups of other ids
    answer as before, and the owner's quote count goes up by one while the
    counts of the others stay. *)
Theorem save_then_get clk user_id text url title author domain tags s :
  let r := save_quote clk user_id text url title author domain tags s in
  (∃ q, get_quote_by_id user_id r.1 r.2 = Some q ∧
        q_id q = r.1 ∧ q_user_id q = user_id ∧ q_text q = text ∧
        q_url q = url ∧ source_title q = title ∧ source_author q = author ∧
        source_domain q = domain ∧
        q_tags q = match tags with
                   | Some (t :: ts) => Some (Text.join "," (t :: ts))
                   | _ => None
                   end ∧
        is_favorite q = 0 ∧ times_shown q = 0 ∧
        last_shown q = None ∧ created_at q = current_timestamp clk) ∧
  (∀ other, other ≠ user_id → get_quote_by_id other r.1 r.2 = None) ∧
  (∀ u i, i ≠ r.1 → get_quote_by_id u i r.2 = get_quote_by_id u i s) ∧
  get_quote_count user_id r.2 = get_quote_count user_id s + 1 ∧
  (∀ other, other ≠ user_id →
            get_quote_count other r.2 = get_quote_count other s).
Proof.
  intros r. subst r. simpl.
  assert (Hfresh : ∀ u, filter (λ q, q_id q = next_quote_id s ∧ q_user_id q = u)
                          (quotes s) = []).
  { intros u. apply filter_id_fresh. apply next_quote_id_fresh. }
  split; [|split; [|split; [|split]]].
  - eexists. unfold get_quote_by_id. simpl.
    rewrite filter_app, Hfresh, filter_cons, filter_nil. simpl.
    destruct (decide _) as [|Hn]; [by repeat split|]. by destruct Hn.
  - intros other Hne. unfold get_quote_by_id. simpl.
    rewrite filter_app, Hfresh, filter_cons, filter_nil. simpl.
    destruct (decide _) as [[_ ?]|]; [congruence|done].
  - intros u i Hi. unfold get_quote_by_id. simpl.
    rewrite filter_app, filter_cons, filter_nil. simpl.
    destruct (decide _) as [[? _]|]; [congruence|]. by rewrite app_nil_r.
  - unfold get_quote_count, owned. simpl.
    rewrite filter_app, filter_cons, filter_nil. simpl.
    destruct (decide _) as [|Hn]; [|by destruct Hn].
    rewrite length_app. simpl. lia.
  - intros other Hne. unfold get_quote_count, owned. simpl.
    rewrite filter_app, filter_cons, filter_nil. simpl.
    destruct (decide _) as [|]; [congruence|]. by rewrite app_nil_r.
Qed.

Lemma save_then_get_witness :
  let clk := Clock (1704110400 * 1000000) 0 in
  let r := save_quote clk 2 "new" (Some "https://example.com") None None None
             (Some ["wisdom"; "life"]) shared_db in
  (∃ q, get_quote_by_id 2 r.1 r.2 = Some q ∧ q_text q = "new" ∧
        q_url q = Some "https://example.com" ∧
        q_tags q = Some "wisdom,life") ∧
  get_quote_by_id 1 r.1 r.2 = None ∧
  get_quote_by_id 1 1 r.2 = get_quote_by_id 1 1 shared_db.
Proof.
  intros clk r.
  pose proof (save_then_get clk 2 "new" (Some "https://example.com") None
                None None (Some ["wisdom"; "life"]) shared_db)
    as (H1 & H2 & H3 & _).
  split; [|split; [by apply H2|by apply H3]].
  destruct H1 as (q & Hq & _ & _ & Htext & Hurl & _ & _ & _ & Htags & _).
  exists q. split; [exact Hq|]. split; [exact Htext|].
  split; [exact Hurl|exact Htags].
Defined.

Lemma filter_length_split {A} (U P : A → Prop)
    `{∀ x, Decision (U x)} `{∀ x, Decision (P x)} (l : list A) :
  length (filter U l) =
  (length (filter (λ x, U x ∧ ¬ P x) l) +
   length (filter (λ x, U x ∧ P x) l))%nat.
Proof.
  induction l as [|x l IH]; [done|].
  rewrite !filter_cons.
  destruct (decide (U x)), (decide (P x));
    destruct (decide (U x ∧ ¬ P x)), (decide (U x ∧ P x));
    simpl; try tauto; lia.
Qed.

Lemma filter_none {A} (P : A → Prop) `{∀ x, Decision (P x)} (l : list A) :
  (∀ x, x ∈ l → ¬ P x) → filter P l = [].
Proof.
  induction l as [|x l IH]; intros Hl; [done|].
  rewrite filter_cons_False by (apply Hl; by left).
  apply IH. intros y Hy. apply Hl. by right.
Qed.

Lemma unique_id_filter (Q : quote → Prop) `{∀ q, Decision (Q q)}
    (l : list quote) i :
  NoDup (q_id <$> l) →
  (length (filter (λ q, q_id q = i ∧ Q q) l) ≤ 1)%nat.
Proof.
  induction l as [|x l IH]; [simpl; lia|].
  rewrite fmap_cons, NoDup_cons. intros [Hx Hl].
  rewrite filter_cons. destruct (decide _) as [[Hi _]|_]; [|by apply IH].
  assert (filter (λ q, q_id q = i ∧ Q q) l = []) as ->; [|simpl; lia].
  apply filter_none. intros y Hy [Hyi _].
  apply Hx. rewrite Hi, <- Hyi. by apply list_elem_of_fmap_2.
Qed.

(** X3: for user ids and quote ids that SQLite can hold (signed 64-bit
    integers; binding any other raises OverflowError): after [delete_quote]
    the id is no longer found for that user, every other lookup answers as
    before, and on a store with unique ids a successful delete lowers the
    user's quote count by exactly one; a delete that returns [false] leaves
    the count. *)
Theorem delete_then_get user_id quote_id s :
  Sql.int64 user_id → Sql.int64 quote_id →
  let r := delete_quote user_id quote_id s in
  get_quote_by_id user_id quote_id r.2 = None ∧
  (∀ u i, Sql.int64 u → Sql.int64 i → ¬ (i = quote_id ∧ u = user_id) →
          get_quote_by_id u i r.2 = get_quote_by_id u i s) ∧
  (unique_ids s → r.1 = true →
   get_quote_count user_id r.2 = get_quote_count user_id s - 1) ∧
  (r.1 = false → get_quote_count user_id r.2 = get_quote_count user_id s).
Proof.
  intros _ _ r. subst r. simpl.
  set (P := λ q, q_id q = quote_id ∧ q_user_id q = user_id).
  assert (Hcount :
    get_quote_count user_id s =
    get_quote_count user_id
      (Db (users s) (filter (λ q, ¬ P q) (quotes s)) (quotes_seq s)) +
    Z.of_nat (length (filter P (quotes s)))).
  { unfold get_quote_count, owned. simpl.
    rewrite (filter_length_split (λ q, q_user_id q = user_id) P).
    rewrite list_filter_filter, Nat2Z.inj_add. f_equal.
    rewrite (list_filter_iff (λ x, q_user_id x = user_id ∧ P x) P);
      [reflexivity|].
    intros q. unfold P. tauto. }
  split; [|split; [|split]].
  - unfold get_quote_by_id. simpl. rewrite list_filter_filter.
    rewrite filter_none; [done|]. intros q _ [? ?]. tauto.
  - intros u i _ _ Hne. unfold get_quote_by_id. simpl. f_equal.
    rewrite list_filter_filter. apply list_filter_iff. intros q.
    split; [tauto|]. intros [Hi Hu]. split; [done|]. intros [? ?].
    apply Hne. split; congruence.
  - intros Hids Hok. apply bool_decide_eq_true in Hok.
    pose proof (unique_id_filter (λ q, q_user_id q = user_id) (quotes s)
                  quote_id Hids).
    fold P in Hcount. rewrite Hcount. unfold P in *. lia.
  - intros Hok. apply bool_decide_eq_false in Hok.
    rewrite Hcount. unfold P in *. lia.
Qed.

Lemma delete_then_get_witness :
  get_quote_count 1 (delete_quote 1 1 shared_db).2 = 0 ∧
  get_quote_count 1 (delete_quote 1 2 shared_db).2 = 1 ∧
  get_quote_by_id 2 2 (delete_quote 1 1 shared_db).2 =
    get_quote_by_id 2 2 shared_db.
Proof.
  assert (H64 : ∀ n, 0 ≤ n ≤ 2 → Sql.int64 n)
    by (intros n Hn; unfold Sql.int64; lia).
  pose proof (delete_then_get 1 1 shared_db (H64 1 ltac:(lia))
                (H64 1 ltac:(lia))) as (_ & H2 & H3 & _).
  pose proof (delete_then_get 1 2 shared_db (H64 1 ltac:(lia))
                (H64 2 ltac:(lia))) as (_ & _ & _ & H4).
  split; [|split].
  - rewrite H3; [reflexivity| |reflexivity].
    apply (bool_decide_unpack _). reflexivity.
  - rewrite H4; reflexivity.
  - apply H2; [apply H64; lia..|]. intros [? ?]. discriminate.
Defined.

(** ** Favourites *)

Lemma filter_fmap_stable {A} (P : A → Prop) `{∀ x, Decision (P x)}
    (f : A → A) (l : list A) :
  (∀ x, P (f x) ↔ P x) → filter P (f <$> l) = f <$> filter P l.
Proof.
  intros Hf. induction l as [|x l IH]; [done|].
  rewrite fmap_cons, !filter_cons, IH.
  destruct (decide (P (f x))) as [H1|H1], (decide (P x)) as [H2|H2];
    try done.
  - destruct H2. by apply Hf.
  - destruct H1. by apply Hf.
Qed.

Lemma toggle_favorite_none user_id quote_id s :
  filter (λ q, q_id q = quote_id ∧ q_user_id q = user_id) (quotes s) = [] →
  toggle_favorite user_id quote_id s = (None, s).
Proof. intros E. unfold toggle_favorite. by rewrite E. Qed.

Lemma toggle_favorite_some user_id quote_id s row l :
  filter (λ q, q_id q = quote_id ∧ q_user_id q = user_id) (quotes s) =
    row :: l →
  toggle_favorite user_id quote_id s =
  (Some (bool_decide (is_favorite row = 0)),
   Db (users s)
      ((λ q, if decide (q_id q = quote_id ∧ q_user_id q = user_id)
             then with_favorite (if decide (is_favorite row = 0) then 1 else 0) q
             else q) <$> quotes s)
      (quotes_seq s)).
Proof.
  intros E. unfold toggle_favorite. rewrite E. simpl.
  destruct (decide (is_favorite row = 0)) as [H|H].
  - by rewrite (bool_decide_eq_true_2 _ H).
  - by rewrite (bool_decide_eq_false_2 _ H).
Qed.

(** X4: for a user id and a quote id that SQLite can hold (signed 64-bit
    integers; binding any other raises OverflowError), [toggle_favorite]
    answers [None] exactly when the user owns no quote with that id, and
    then changes nothing. On a store with unique ids whose flag for that
    quote is 0 or 1 it is its own inverse: the second call returns the
    opposite status and restores the store. *)
Theorem toggle_favorite_twice user_id quote_id s :
  Sql.int64 user_id → Sql.int64 quote_id →
  let r1 := toggle_favorite user_id quote_id s in
  let r2 := toggle_favorite user_id quote_id r1.2 in
  (r1.1 = None ↔ get_quote_by_id user_id quote_id s = None) ∧
  (r1.1 = None → r1.2 = s) ∧
  (unique_ids s →
   (∀ q, q ∈ quotes s → q_id q = quote_id →
         is_favorite q = 0 ∨ is_favorite q = 1) →
   r2.2 = s ∧ ∀ b, r1.1 = Some b → r2.1 = Some (negb b)).
Proof.
  intros _ _ r1 r2. subst r1 r2. unfold get_quote_by_id.
  set (P := λ q, q_id q = quote_id ∧ q_user_id q = user_id).
  destruct (filter P (quotes s)) as [|row l] eqn:E.
  { rewrite (toggle_favorite_none user_id quote_id s E). simpl.
    rewrite (toggle_favorite_none user_id quote_id s E). done. }
  rewrite (toggle_favorite_some user_id quote_id s row l E). simpl.
  split; [done|]. split; [done|]. intros Hids Hflag.
  assert (Hrow : row ∈ quotes s ∧ P row).
  { assert (Hin : row ∈ filter P (quotes s)) by (rewrite E; by left).
    apply list_elem_of_filter in Hin. tauto. }
  destruct Hrow as [Hrow [Hri Hru]].
  set (new := if decide (is_favorite row = 0) then 1 else 0).
  set (f := λ q, if decide (q_id q = quote_id ∧ q_user_id q = user_id)
                 then with_favorite new q else q).
  assert (E' : filter P (f <$> quotes s) = f row :: (f <$> l)).
  { rewrite filter_fmap_stable, E; [done|].
    intros x. unfold f, P, with_favorite.
    destruct (decide (q_id x = quote_id ∧ q_user_id x = user_id)); simpl;
      tauto. }
  rewrite (toggle_favorite_some user_id quote_id
             (Db (users s) (f <$> quotes s) (quotes_seq s))
             (f row) (f <$> l) E').
  simpl.
  assert (Hfrow : is_favorite (f row) = new).
  { unfold f.
    destruct (decide (q_id row = quote_id ∧ q_user_id row = user_id))
      as [|Hn]; [reflexivity|]. by destruct Hn. }
  rewrite Hfrow. split.
  - destruct s as [us qs sq]. simpl in *. f_equal.
    rewrite <- list_fmap_compose. rewrite <- (list_fmap_id qs) at 2.
    apply list_fmap_ext. intros i q Hq%list_elem_of_lookup_2. simpl.
    unfold f. destruct (decide (q_id q = quote_id ∧ q_user_id q = user_id))
      as [[Hqi Hqu]|Hq']; simpl.
    + destruct (decide (q_id q = quote_id ∧ q_user_id q = user_id))
        as [_|Hn]; [|by destruct Hn].
      assert (q = row) as ->
        by (apply (unique_ids_inj (Db us qs sq)); [done..|congruence]).
      unfold with_favorite, new. simpl.
      destruct (Hflag row Hrow Hri) as [H0|H1]; rewrite ?H0, ?H1; simpl;
        destruct row; simpl in *; by subst.
    + destruct (decide (q_id q = quote_id ∧ q_user_id q = user_id))
        as [H|_]; [by destruct Hq'|done].
  - intros b [= <-]. f_equal. unfold new.
    destruct (Hflag row Hrow Hri) as [H0|H1]; rewrite ?H0, ?H1; reflexivity.
Qed.

Lemma toggle_favorite_twice_witness :
  (toggle_favorite 1 1 shared_db).1 = Some true ∧
  (toggle_favorite 1 1 (toggle_favorite 1 1 shared_db).2).1 = Some false ∧
  (toggle_favorite 1 1 (toggle_favorite 1 1 shared_db).2).2 = shared_db ∧
  (toggle_favorite 1 2 shared_db).2 = shared_db.
Proof.
  assert (H64 : ∀ n, 0 ≤ n ≤ 2 → Sql.int64 n)
    by (intros n Hn; unfold Sql.int64; lia).
  pose proof (toggle_favorite_twice 1 1 shared_db (H64 1 ltac:(lia))
                (H64 1 ltac:(lia))) as (_ & _ & H).
  pose proof (toggle_favorite_twice 1 2 shared_db (H64 1 ltac:(lia))
                (H64 2 ltac:(lia))) as (_ & H' & _).
  destruct H as [H1 H2].
  - apply (bool_decide_unpack _). reflexivity.
  - intros q Hq _. apply list_elem_of_In in Hq.
    destruct Hq as [<-|[<-|[]]]; by left.
  - split; [reflexivity|]. split; [exact (H2 true eq_refl)|].
    split; [exact H1|]. by apply H'.
Defined.

(** ** What every history keeps *)

Lemma StronglySorted_fmap_filter {A B} (R : relation B) (f : A → B)
    (P : A → Prop) `{∀ x, Decision (P x)} (l : list A) :
  StronglySorted R (f <$> l) → StronglySorted R (f <$> filter P l).
Proof.
  induction l as [|x l IH]; [done|].
  rewrite fmap_cons, StronglySorted_cons. intros [Hx Hl].
  rewrite filter_cons. destruct (decide (P x)); [|by apply IH].
  rewrite fmap_cons, StronglySorted_cons. split; [|by apply IH].
  apply Forall_forall. intros y (z & -> & Hz)%list_elem_of_fmap.
  apply list_elem_of_filter in Hz as [_ Hz].
  eapply Forall_forall in Hx; [exact Hx|]. by apply list_elem_of_fmap_2.
Qed.

Lemma sound_fmap (f : quote → quote) s :
  sound s →
  (∀ q, q ∈ quotes s → q_id (f q) = q_id q ∧ row_sound (f q)) →
  sound (Db (users s) (f <$> quotes s) (quotes_seq s)).
Proof.
  intros (Hsorted & Hseq & Hrows) Hf. split; [|split; [done|]]; simpl.
  - erewrite <- list_fmap_compose, list_fmap_ext; [exact Hsorted|].
    intros i q Hq%list_elem_of_lookup_2. simpl. by apply Hf.
  - intros q' (q & -> & Hq)%list_elem_of_fmap.
    destruct (Hf q Hq) as [-> ?]. split; [by apply Hrows|done].
Qed.

Lemma sound_unique_ids s : sound s → unique_ids s.
Proof.
  intros (Hsorted & _). unfold unique_ids.
  induction (q_id <$> quotes s) as [|x l IH]; [constructor|].
  apply StronglySorted_cons in Hsorted as [Hx Hl].
  constructor; [|by apply IH].
  intros Hin. rewrite Forall_forall in Hx.
  exact (Z.lt_irrefl _ (Hx _ Hin)).
Qed.

Lemma save_quote_sound clk user_id text url title author domain tags s :
  sound s →
  sound (save_quote clk user_id text url title author domain tags s).2.
Proof.
  intros (Hsorted & Hseq & Hrows).
  pose proof (next_quote_id_seq s) as Hnext.
  unfold save_quote. cbn [snd].
  set (new := Quote (next_quote_id s) _ _ _ _ _ _ _ _ _ _ _).
  split; [|split]; cbn [quotes quotes_seq].
  - rewrite fmap_app. apply StronglySorted_app_2; [|done|].
    + intros x1 x2 (q & -> & Hq)%list_elem_of_fmap
        [->|[]%elem_of_nil]%elem_of_cons.
      by apply next_quote_id_fresh.
    + repeat constructor.
  - lia.
  - intros q [Hq|Hq]%elem_of_app.
    + destruct (Hrows q Hq). split; [lia|done].
    + apply list_elem_of_singleton in Hq as ->. subst new. cbn [q_id].
      split; [lia|]. unfold row_sound. simpl. split; [by left|done].
Qed.

Section Histories.
Variable json_dumps : list quote → string.

Lemma exec_sound clk user_id o s :
  sound s → sound (exec json_dumps clk user_id o s).2.
Proof.
  intros Hs. pose proof Hs as (Hsorted & Hseq & Hrows).
  destruct o; simpl; try done.
  - by apply save_quote_sound.
  - split; [|split; [done|]]; simpl.
    + by apply StronglySorted_fmap_filter.
    + intros q [_ Hq]%list_elem_of_filter. by apply Hrows.
  - rewrite get_random_quotes_store. apply sound_fmap; [done|].
    intros q Hq. unfold mark_shown.
    destruct (decide _); [|split; [done|by apply Hrows]].
    split; [done|]. destruct (Hrows q Hq) as [_ (Hf & Ht & _)].
    unfold row_sound, shown. simpl.
    split; [done|]. split; [lia|]. split; [done|lia].
  - unfold toggle_favorite. destruct (head _) as [row|]; simpl; [|done].
    apply sound_fmap; [done|].
    intros q Hq. destruct (decide _); [|split; [done|by apply Hrows]].
    split; [done|]. destruct (Hrows q Hq) as [_ (_ & Ht & Hl)].
    unfold row_sound. simpl. split; [|done].
    destruct (decide (is_favorite row = 0)); [by right|by left].
Qed.

(** X5: whatever requests have run since the database was created, the
    rows of [quotes] are in strictly ascending order of id (so the ids are
    unique), every id is at least 1 and at most the recorded sequence
    value, every favourite flag is 0 or 1, no [times_shown] is negative,
    and a row has no [last_shown] exactly when its [times_shown] is 0. *)
Theorem history_keeps_store_sound calls :
  let s := (run json_dumps calls empty_db).2 in
  StronglySorted Z.lt (q_id <$> quotes s) ∧
  unique_ids s ∧
  ∀ q, q ∈ quotes s →
       1 ≤ q_id q ≤ quotes_seq s ∧
       (is_favorite q = 0 ∨ is_favorite q = 1) ∧
       0 ≤ times_shown q ∧
       (last_shown q = None ↔ times_shown q = 0).
Proof.
  intros s. subst s.
  assert (Hs : ∀ s0, sound s0 → sound (run json_dumps calls s0).2).
  { induction calls as [|c calls' IH]; intros s0 Hs0; [done|].
    rewrite run_cons. simpl. by apply IH, exec_sound. }
  specialize (Hs empty_db).
  destruct Hs as (Hsorted & Hseq & Hrows).
  { split; [constructor|]. split; [done|]. by intros q ?%elem_of_nil. }
  split; [done|]. split; [by apply sound_unique_ids|].
  intros q Hq. destruct (Hrows q Hq) as [? (? & ? & ?)].
  split; [lia|done].
Qed.
End Histories.

(** ** Searching *)

Lemma newest_limited (P : quote → Prop) `{∀ q, Decision (P q)}
    (n : Z) (l : list quote) :
  let found := Sql.limit n (newest_first (filter P l)) in
  (0 ≤ n → Z.of_nat (length found) ≤ n) ∧
  (∀ q, q ∈ found → q ∈ l ∧ P q) ∧
  StronglySorted (λ a b, created_at b ≤ created_at a) found ∧
  (∀ q, q ∈ l → P q → q ∈ found ∨ Z.of_nat (length found) = n).
Proof.
  intros found. subst found.
  split; [|split; [|split]].
  - intros Hn. rewrite limit_length by done. lia.
  - intros q Hq%limit_subseteq. unfold newest_first in Hq.
    rewrite order_by_Permutation in Hq.
    apply list_elem_of_filter in Hq. tauto.
  - destruct (limit_prefix n (newest_first (filter P l))) as [k ->].
    apply StronglySorted_take, newest_first_sorted.
  - intros q Hq HP.
    assert (Hin : q ∈ newest_first (filter P l)).
    { unfold newest_first. rewrite order_by_Permutation.
      apply list_elem_of_filter. by split. }
    unfold Sql.limit. destruct (n <? 0) eqn:E; [by left|].
    apply Z.ltb_ge in E.
    destruct (decide (length (newest_first (filter P l)) ≤ Z.to_nat n)%nat).
    + left. by rewrite take_ge.
    + right. rewrite length_take. lia.
Qed.

(** X6: [search_quotes], [get_quotes_by_tag] and [get_quotes_by_source]
    return at most 10 quotes, newest first; every one of them is a quote of
    the requesting user whose text (or tag string, or source domain)
    matches the LIKE pattern [%<argument>%], in which [_] stands for one
    character, of however many bytes. *)
Theorem lookups_are_bounded_and_owned user_id arg s :
  let by_text := search_quotes user_id arg s in
  let by_tag := get_quotes_by_tag user_id arg s in
  let by_source := get_quotes_by_source user_id arg s in
  ((length by_text ≤ 10)%nat ∧
   StronglySorted (λ a b, created_at b ≤ created_at a) by_text ∧
   ∀ q, q ∈ by_text →
        q ∈ owned user_id s ∧
        Sql.like ("%" +:+ arg +:+ "%") (q_text q) = true) ∧
  ((length by_tag ≤ 10)%nat ∧
   StronglySorted (λ a b, created_at b ≤ created_at a) by_tag ∧
   ∀ q, q ∈ by_tag →
        q ∈ owned user_id s ∧
        ∃ t, q_tags q = Some t ∧ Sql.like ("%" +:+ arg +:+ "%") t = true) ∧
  ((length by_source ≤ 10)%nat ∧
   StronglySorted (λ a b, created_at b ≤ created_at a) by_source ∧
   ∀ q, q ∈ by_source →
        q ∈ owned user_id s ∧
        ∃ d, source_domain q = Some d ∧
             Sql.like ("%" +:+ arg +:+ "%") d = true).
Proof.
  intros by_text by_tag by_source. subst by_text by_tag by_source.
  unfold search_quotes, get_quotes_by_tag, get_quotes_by_source.
  split; [|split].
  - destruct (newest_limited
                (λ q, q_user_id q = user_id ∧
                      Sql.like ("%" +:+ arg +:+ "%") (q_text q))
                10 (quotes s)) as (Hlen & Hin & Hsorted & _).
    split; [lia|]. split; [done|].
    intros q Hq. destruct (Hin q Hq) as [Hq' [Hu Hlike]].
    split; [by apply owned_elem_of|]. by apply Is_true_true.
  - destruct (newest_limited
                (λ q, q_user_id q = user_id ∧
                      Sql.like_opt ("%" +:+ arg +:+ "%") (q_tags q))
                10 (quotes s)) as (Hlen & Hin & Hsorted & _).
    split; [lia|]. split; [done|].
    intros q Hq. destruct (Hin q Hq) as [Hq' [Hu Hlike]].
    split; [by apply owned_elem_of|].
    destruct (q_tags q) as [t|]; [|done].
    exists t. split; [done|]. by apply Is_true_true.
  - destruct (newest_limited
                (λ q, q_user_id q = user_id ∧
                      Sql.like_opt ("%" +:+ arg +:+ "%") (source_domain q))
                10 (quotes s)) as (Hlen & Hin & Hsorted & _).
    split; [lia|]. split; [done|].
    intros q Hq. destruct (Hin q Hq) as [Hq' [Hu Hlike]].
    split; [by apply owned_elem_of|].
    destruct (source_domain q) as [d|]; [|done].
    exists d. split; [done|]. by apply Is_true_true.
Qed.

Lemma lookups_are_bounded_and_owned_witness :
  search_quotes 1 "e" shared_db =
    [Quote 1 1 "mine" None None None None None 0 1 (Some 1704000000)
       1703000000] ∧
  Sql.like "%e%" "mine" = true ∧
  q_text <$> search_quotes 1 "caf_ au" cafe_db = ["café au lait"] ∧
  Sql.like "%caf_ au%" "café au lait" = true ∧
  Sql.like "%__" "€" = false ∧ Sql.like "É" "é" = false.
Proof.
  split; [reflexivity|]. split; [|split; [reflexivity|split]].
  - apply (proj2 (proj2 (proj1
      (lookups_are_bounded_and_owned 1 "e" shared_db)))
      (Quote 1 1 "mine" None None None None None 0 1 (Some 1704000000)
         1703000000)).
    by left.
  - apply (proj2 (proj2 (proj1
      (lookups_are_bounded_and_owned 1 "caf_ au" cafe_db)))
      (Quote 1 1 "café au lait" None None None None None 0 0 None
         1704110400)).
    by left.
  - split; reflexivity.
Defined.

Lemma like_percent (p s : string) :
  Sql.like (String "%" p) s =
  Sql.like p s ||
  match s with
  | "" => false
  | String _ s' => Sql.like (String "%" p) s'
  end.
Proof. by destruct s. Qed.

Lemma like_percent_all (s : string) : Sql.like "%" s = true.
Proof.
  induction s as [|c s IH]; [done|].
  rewrite like_percent, IH. apply orb_true_r.
Qed.

Lemma like_skip (a p s : string) :
  Sql.like (String "%" p) s = true →
  Sql.like (String "%" p) (a +:+ s) = true.
Proof.
  intros H. induction a as [|c a IH]; [done|].
  change (String c a +:+ s) with (String c (a +:+ s)).
  rewrite like_percent, IH. apply orb_true_r.
Qed.

Lemma like_literal (k p s : string) :
  Sql.like p s = true → Sql.like (k +:+ p) (k +:+ s) = true.
Proof.
  intros H. induction k as [|c k IH]; [done|].
  change (String c k +:+ p) with (String c (k +:+ p)).
  change (String c k +:+ s) with (String c (k +:+ s)).
  destruct (Ascii.eqb c "%") eqn:E.
  - apply Ascii.eqb_eq in E as ->.
    rewrite like_percent. apply orb_true_iff. right.
    rewrite like_percent, IH. done.
  - cbn [Sql.like]. rewrite E.
    destruct (Ascii.eqb c "_") eqn:E'.
    + apply Ascii.eqb_eq in E' as ->. exact IH.
    + by rewrite IH, Ascii.eqb_refl.
Qed.

Lemma like_contains (a k b : string) :
  Sql.like ("%" +:+ k +:+ "%") (a +:+ k +:+ b) = true.
Proof.
  set (keyword_pattern := k +:+ "%").
  change ("%" +:+ keyword_pattern) with (String "%" keyword_pattern).
  apply like_skip.
  rewrite like_percent. apply orb_true_iff. left.
  apply like_literal, like_percent_all.
Qed.

(** X7: [search_quotes] misses no quote whose text contains the keyword as
    written: such a quote of the user is in the result unless the result
    already holds 10 quotes. *)
Theorem search_finds_containing user_id keyword s q a b :
  q ∈ quotes s → q_user_id q = user_id →
  q_text q = a +:+ keyword +:+ b →
  q ∈ search_quotes user_id keyword s ∨
  length (search_quotes user_id keyword s) = 10%nat.
Proof.
  intros Hq Hu Htext. unfold search_quotes.
  destruct (newest_limited
              (λ q, q_user_id q = user_id ∧
                    Sql.like ("%" +:+ keyword +:+ "%") (q_text q))
              10 (quotes s)) as (_ & _ & _ & Hall).
  destruct (Hall q Hq) as [H|H]; [|by left|right; lia].
  split; [done|]. rewrite Htext. apply Is_true_true, like_contains.
Qed.

Lemma search_finds_containing_witness :
  Quote 2 2 "theirs" None None None None None 0 1 (Some 1704000000)
    1703000001 ∈ search_quotes 2 "heir" shared_db.
Proof.
  destruct (search_finds_containing 2 "heir" shared_db
              (Quote 2 2 "theirs" None None None None None 0 1
                 (Some 1704000000) 1703000001) "t" "s") as [H|H];
    [by right; left|reflexivity|reflexivity|exact H|discriminate H].
Defined.

(** ** Tags *)

Lemma foldl_invariant {A B} (I : A → Prop) (f : A → B → A) (l : list B) a :
  I a → (∀ a b, b ∈ l → I a → I (f a b)) → I (foldl f a l).
Proof.
  revert a. induction l as [|b l IH]; intros a Ha Hf; [done|].
  simpl. apply IH.
  - apply Hf; [by left|done].
  - intros a' b' Hb'. apply Hf. by right.
Qed.

Lemma bump_keys tag (tag_counts : list (string * Z)) k :
  k ∈ (bump tag tag_counts).*1 ↔ k = tag ∨ k ∈ tag_counts.*1.
Proof.
  induction tag_counts as [|[k' v] rest IH]; simpl.
  - rewrite list_elem_of_singleton. split; [by left|]. intros [?|H]; [done|].
    by apply elem_of_nil in H.
  - destruct (String.eqb_spec k' tag) as [->|Hne]; simpl.
    + rewrite elem_of_cons. tauto.
    + rewrite !elem_of_cons, IH. tauto.
Qed.

Lemma bump_sound tag (tag_counts : list (string * Z)) :
  NoDup tag_counts.*1 → (∀ tc, tc ∈ tag_counts → 1 ≤ tc.2) →
  NoDup (bump tag tag_counts).*1 ∧ (∀ tc, tc ∈ bump tag tag_counts → 1 ≤ tc.2).
Proof.
  induction tag_counts as [|[k v] rest IH]; simpl.
  - intros _ _. split; [apply NoDup_singleton|].
    by intros tc ->%list_elem_of_singleton.
  - rewrite NoDup_cons. intros [Hk Hrest] Hpos.
    destruct (String.eqb_spec k tag) as [->|Hne]; simpl.
    + split; [by apply NoDup_cons|].
      intros tc [->|Htc]%elem_of_cons; simpl.
      * specialize (Hpos (tag, v) (list_elem_of_here _ _)). simpl in Hpos. lia.
      * apply Hpos. by right.
    + destruct IH as [IH1 IH2]; [done|intros; apply Hpos; by right|].
      split.
      * apply NoDup_cons. split; [|done].
        rewrite bump_keys. intros [->|?]; done.
      * intros tc [->|Htc]%elem_of_cons; [|by apply IH2].
        apply (Hpos (k, v)). by left.
Qed.

(** X8: [get_top_tags] lists each tag once, with a count of at least 1,
    in descending order of count; every listed tag is one of the
    comma-separated, stripped tags of a quote of the requesting user; and
    for a limit that is not negative the list has at most that many
    entries. *)
Theorem top_tags_sorted_distinct user_id limit s :
  let top := get_top_tags user_id limit s in
  StronglySorted (λ a b : string * Z, b.2 ≤ a.2) top ∧
  NoDup top.*1 ∧
  (∀ t c, (t, c) ∈ top →
          1 ≤ c ∧
          ∃ q ts, q ∈ owned user_id s ∧ q_tags q = Some ts ∧
                  t ∈ Text.strip <$> Text.split "," ts) ∧
  (0 ≤ limit → Z.of_nat (length top) ≤ limit).
Proof.
  intros top. subst top. unfold get_top_tags.
  set (rows := filter _ (quotes s)).
  set (tag_counts := foldl _ [] rows).
  set (origin := λ t : string,
         ∃ q ts, q ∈ owned user_id s ∧ q_tags q = Some ts ∧
                 t ∈ Text.strip <$> Text.split "," ts).
  assert (Hinv : NoDup tag_counts.*1 ∧
                 (∀ tc, tc ∈ tag_counts → 1 ≤ tc.2) ∧
                 (∀ t, t ∈ tag_counts.*1 → origin t)).
  { subst tag_counts.
    apply (foldl_invariant
             (λ c : list (string * Z),
                NoDup c.*1 ∧ (∀ tc, tc ∈ c → 1 ≤ tc.2) ∧
                (∀ t, t ∈ c.*1 → origin t))).
    - split; [constructor|]. split; [by intros ? ?%elem_of_nil|].
      by intros ? ?%elem_of_nil.
    - intros c q Hq Hc. subst rows.
      apply list_elem_of_filter in Hq as [[Hu _] Hq].
      destruct (q_tags q) as [[|ch r]|] eqn:Htags; try done.
      apply (foldl_invariant
               (λ c : list (string * Z),
                  NoDup c.*1 ∧ (∀ tc, tc ∈ c → 1 ≤ tc.2) ∧
                  (∀ t, t ∈ c.*1 → origin t))); [done|].
      intros c' tag Htag (Hnd & Hpos & Horig).
      destruct (bump_sound (Text.strip tag) c' Hnd Hpos) as [H1 H2].
      split; [done|]. split; [done|].
      intros t [->|Ht]%bump_keys; [|by apply Horig].
      exists q, (String ch r). split; [by apply owned_elem_of|].
      split; [done|]. by apply list_elem_of_fmap_2. }
  destruct Hinv as (Hnd & Hpos & Horig).
  set (leb := λ a b : string * Z, a.2 >=? b.2).
  assert (Hperm : Sql.order_by leb tag_counts ≡ₚ tag_counts)
    by apply order_by_Permutation.
  assert (Hsorted : StronglySorted (λ a b : string * Z, b.2 ≤ a.2)
                      (Sql.order_by leb tag_counts)).
  { eapply StronglySorted_mono; [|apply (order_by_sorted leb)].
    - intros a b. unfold leb. rewrite Z.geb_leb. apply Z.leb_le.
    - intros a b. unfold leb. rewrite !Z.geb_leb, !Z.leb_le. lia.
    - intros a b c. unfold leb. rewrite !Z.geb_leb, !Z.leb_le. lia. }
  assert (Hslice : ∃ k, slice_to limit (Sql.order_by leb tag_counts) =
                        take k (Sql.order_by leb tag_counts)).
  { unfold slice_to. destruct (limit <? 0); by eexists. }
  destruct Hslice as [k Hk].
  split; [|split; [|split]].
  - rewrite Hk. by apply StronglySorted_take.
  - rewrite Hk. eapply sublist_NoDup; [|apply fmap_sublist, sublist_take].
    by rewrite Hperm.
  - intros t c Htc. rewrite Hk in Htc.
    apply subseteq_take in Htc. rewrite Hperm in Htc. split.
    + apply (Hpos (t, c) Htc).
    + apply Horig. by apply (list_elem_of_fmap_2 fst) in Htc.
  - intros Hlim. unfold slice_to.
    destruct (limit <? 0) eqn:E; [apply Z.ltb_lt in E; lia|].
    rewrite length_take. lia.
Qed.

Lemma top_tags_sorted_distinct_witness :
  let clk := Clock (1704110400 * 1000000) 0 in
  let s1 := (save_quote clk 1 "a" None None None None (Some ["x"; "y"])
               empty_db).2 in
  let s2 := (save_quote clk 1 "b" None None None None (Some ["y"; "z"]) s1).2 in
  get_top_tags 1 2 s2 = [("y", 2); ("x", 1)] ∧
  Z.of_nat (length (get_top_tags 1 2 s2)) ≤ 2.
Proof.
  intros clk s1 s2. split; [reflexivity|].
  by apply (top_tags_sorted_distinct 1 2 s2).
Defined.

(** ** Selection without replacement *)

(** X9: [get_random_quotes], weighted or not, draws without replacement
    from the user's quotes: the result is the front of a rearrangement of
    the user's rows, it has [min n count] rows for [0 <= n] and all of them
    for a negative [n], and on a store with unique ids no quote comes
    twice. *)
Theorem selection_without_replacement clk rnd user_id n srs s :
  let rows := (get_random_quotes clk rnd user_id n srs s).1 in
  (∃ rest, rows ++ rest ≡ₚ owned user_id s) ∧
  (0 ≤ n →
   Z.of_nat (length rows) = Z.min n (Z.of_nat (length (owned user_id s)))) ∧
  (n < 0 → rows ≡ₚ owned user_id s) ∧
  (unique_ids s → NoDup (q_id <$> rows)).
Proof.
  intros rows. subst rows. rewrite get_random_quotes_rows.
  set (leb := if srs then _ else _).
  pose proof (order_by_Permutation leb (owned user_id s)) as Hperm.
  destruct (limit_prefix n (Sql.order_by leb (owned user_id s))) as [k Hk].
  split; [|split; [|split]].
  - exists (drop k (Sql.order_by leb (owned user_id s))).
    by rewrite Hk, take_drop.
  - intros Hn. rewrite limit_length by done.
    by rewrite (Permutation_length Hperm).
  - intros Hn. unfold Sql.limit.
    destruct (n <? 0) eqn:E; [done|]. apply Z.ltb_ge in E. lia.
  - intros Hids. rewrite Hk.
    eapply sublist_NoDup; [|apply fmap_sublist, sublist_take].
    rewrite Hperm. unfold owned.
    eapply sublist_NoDup; [exact Hids|].
    apply fmap_sublist, sublist_filter.
Qed.

Lemma selection_without_replacement_witness :
  let clk := Clock (1704110400 * 1000000) 0 in
  NoDup (q_id <$> (get_random_quotes clk (λ i, - i) 1 5 false two_quote_db).1) ∧
  Z.of_nat (length (get_random_quotes clk (λ i, - i) 1 5 false
                      two_quote_db).1) = 2.
Proof.
  intros clk.
  pose proof (selection_without_replacement clk (λ i, - i) 1 5 false
                two_quote_db) as (_ & H2 & _ & H4).
  split.
  - apply H4. apply (bool_decide_unpack _). reflexivity.
  - rewrite H2; [reflexivity|lia].
Defined.

(** * Further properties of the handlers *)

(** ** The pending URL *)

(** X10: a pending URL that was just set is what a get within five
    minutes returns, whatever the dictionary held before; setting again
    replaces the earlier entry, so the dictionary holds one pending URL at
    most and it is the latest; and after a clear a get returns nothing. *)
Theorem set_pending_url_overwrites clk0 url0 md0 clk url md clk' ud :
  datetime_now clk' ≤ datetime_now clk + timedelta_minutes 5 →
  let ud1 := set_pending_url clk url md (set_pending_url clk0 url0 md0 ud) in
  ud1 = set_pending_url clk url md ud ∧
  get_pending_url clk' ud1 = (Some (url, md), ud1) ∧
  get_pending_url clk' (clear_pending_url ud1) = (None, clear_pending_url ud1).
Proof.
  intros Hlive ud1. subst ud1. unfold set_pending_url, clear_pending_url.
  rewrite insert_insert_eq. split; [done|]. split.
  - rewrite (get_pending_url_live clk' _ (Pending url md (datetime_now clk)));
      [done|apply lookup_insert_eq|].
    unfold PENDING_URL_TIMEOUT. simpl. lia.
  - apply get_pending_url_absent, lookup_delete_eq.
Qed.

Lemma set_pending_url_overwrites_witness :
  let md := Metadata (Some "B") None None in
  let ud := set_pending_url (Clock 60000000 0) "https://b.example" md
              (set_pending_url (Clock 0 0) "https://a.example"
                 (Metadata None None None) ∅) in
  get_pending_url (Clock 360000000 0) ud = (Some ("https://b.example", md), ud).
Proof.
  intros md ud.
  apply (set_pending_url_overwrites (Clock 0 0) "https://a.example"
           (Metadata None None None) (Clock 60000000 0) "https://b.example"
           md (Clock 360000000 0) ∅).
  vm_compute. discriminate.
Defined.

(** X11: after [/cancel] the dictionary holds no pending URL and no quote
    has changed. The answer is "Pending URL cleared." when an entry at
    most five minutes old was pending, and "Nothing to cancel." when there
    was none or it had expired. *)
Theorem cancel_command_clears clk upd a ud s :
  let out := cancel_command clk upd (Context a ud) s in
  user_data' out !! "pending_url" = None ∧
  quotes (store out) = quotes s ∧
  quotes_seq (store out) = quotes_seq s ∧
  (sent out = [reply_text "Pending URL cleared."] ↔
   ∃ p, ud !! "pending_url" = Some p ∧
        datetime_now clk ≤ p_timestamp p + timedelta_minutes 5) ∧
  (sent out = [reply_text "Pending URL cleared."] ∨
   sent out = [reply_text "Nothing to cancel."]).
Proof.
  intros out. subst out.
  destruct (ensure_registered_quotes clk upd s) as (_ & Hq & Hsq).
  unfold cancel_command.
  destruct (ensure_registered clk upd s) as [user_id s0]. simpl in *.
  destruct (ud !! "pending_url") as [p|] eqn:Hp.
  - destruct (decide (datetime_now clk ≤ p_timestamp p + timedelta_minutes 5))
      as [Hlive|Hlate].
    + rewrite (get_pending_url_live clk ud p Hp)
        by (unfold PENDING_URL_TIMEOUT; lia).
      simpl. split; [apply lookup_delete_eq|].
      repeat split; try done; [by exists p|by left].
    + rewrite (get_pending_url_expired clk ud p Hp)
        by (unfold PENDING_URL_TIMEOUT; lia).
      simpl. split; [apply lookup_delete_eq|].
      repeat split; try done; [|by right].
      intros (p' & [= <-] & Hlive). lia.
  - rewrite (get_pending_url_absent clk ud Hp). simpl.
    repeat split; try done; [|by right].
    intros (p' & [=] & _).
Qed.

Lemma cancel_command_clears_witness :
  let ud : gmap string pending := {["pending_url" := example_pending]} in
  sent (cancel_command (Clock (1704153700 * 1000000) 0) (Update 1 None None)
          (Context [] ud) midnight_db) = [reply_text "Pending URL cleared."].
Proof.
  intros ud.
  apply (cancel_command_clears (Clock (1704153700 * 1000000) 0)
           (Update 1 None None) [] ud midnight_db).
  exists example_pending. split; [reflexivity|]. vm_compute. discriminate.
Defined.

(** ** Characters *)

Lemma len_append (a b : string) : Text.len (a +:+ b) = Text.len a + Text.len b.
Proof.
  unfold Text.len. induction a as [|c a IH].
  - change ("" +:+ b) with b. cbn [Text.chars]. lia.
  - change (String c a +:+ b) with (String c (a +:+ b)).
    cbn [Text.chars]. destruct (Text.continuation c); lia.
Qed.

Lemma chars_take_chars (n : nat) (s : string) :
  Text.chars (Text.take_chars n s) = Nat.min n (Text.chars s).
Proof.
  revert n. induction s as [|c s IH]; intros n; cbn [Text.take_chars Text.chars].
  - by destruct n.
  - destruct (Text.continuation c) eqn:E.
    + cbn [Text.chars]. rewrite E. apply IH.
    + destruct n as [|n]; [done|]. cbn [Text.chars]. rewrite E, IH. done.
Qed.

Lemma len_prefix (n : Z) (s : string) :
  0 ≤ n → Text.len (Text.prefix n s) = Z.min n (Text.len s).
Proof.
  intros Hn. unfold Text.len, Text.prefix.
  destruct (Z.ltb_spec n 0); [lia|]. rewrite chars_take_chars. lia.
Qed.

Lemma prefix_take_chars (n : nat) (s : string) :
  String.prefix (Text.take_chars n s) s = true.
Proof.
  revert n. induction s as [|c s IH]; intros n; cbn [Text.take_chars]; [done|].
  destruct (Text.continuation c).
  - cbn [String.prefix]. destruct (ascii_dec c c); [apply IH|done].
  - destruct n as [|n]; [done|].
    cbn [String.prefix]. destruct (ascii_dec c c); [apply IH|done].
Qed.

Lemma prefix_of_text (n : Z) (s : string) :
  String.prefix (Text.prefix n s) s = true.
Proof. unfold Text.prefix. destruct (n <? 0); apply prefix_take_chars. Qed.

Lemma take_chars_rest (n : nat) (s : string) :
  ∃ rest, s = Text.take_chars n s +:+ rest ∧
          match rest with
          | String c _ => Text.continuation c = false
          | "" => True
          end.
Proof.
  revert n. induction s as [|c s IH]; intros n; cbn [Text.take_chars].
  - by exists "".
  - destruct (Text.continuation c) eqn:E.
    + destruct (IH n) as (rest & Hs & Hrest). exists rest.
      split; [|done].
      change (String c (Text.take_chars n s) +:+ rest)
        with (String c (Text.take_chars n s +:+ rest)).
      by rewrite <- Hs.
    + destruct n as [|n].
      * exists (String c s). by split.
      * destruct (IH n) as (rest & Hs & Hrest). exists rest.
        split; [|done].
        change (String c (Text.take_chars n s) +:+ rest)
          with (String c (Text.take_chars n s +:+ rest)).
        by rewrite <- Hs.
Qed.

Lemma prefix_first_chars (n : Z) (s : string) :
  0 ≤ n → first_chars n s (Text.prefix n s).
Proof.
  intros Hn. unfold first_chars.
  destruct (take_chars_rest (Z.to_nat n) s) as (rest & Hs & Hrest).
  exists rest. rewrite len_prefix by done.
  unfold Text.prefix. destruct (Z.ltb_spec n 0); [lia|]. done.
Qed.

Lemma first_chars_all (n : Z) (text head : string) :
  first_chars n text head → Text.len text ≤ n → head = text.
Proof.
  intros (rest & -> & Hlen & Hrest) Hle.
  rewrite len_append in Hlen, Hle.
  assert (H0 : Text.len rest = 0) by (unfold Text.len in *; lia).
  destruct rest as [|c rest].
  - clear. induction head as [|c head IH]; [done|].
    change (String c head = String c (head +:+ "")). by rewrite <- IH.
  - unfold Text.len in H0. cbn [Text.chars] in H0. rewrite Hrest in H0. lia.
Qed.


Lemma string_append_assoc (a b c : string) : (a +:+ b) +:+ c = a +:+ b +:+ c.
Proof.
  induction a as [|x a IH]; [done|].
  change (String x ((a +:+ b) +:+ c) = String x (a +:+ b +:+ c)).
  by rewrite IH.
Qed.

Lemma truncate_cases (text : string) (n : Z) :
  3 ≤ n →
  (Text.len text ≤ n → truncate text n = text) ∧
  (n < Text.len text →
   ∃ head, truncate text n = head +:+ "..." ∧ first_chars (n - 3) text head ∧
           Text.len head = n - 3).
Proof.
  intros Hn. unfold truncate.
  destruct (Z.leb_spec (Text.len text) n) as [Hle|Hgt].
  - split; [done|lia].
  - split; [lia|]. intros _. exists (Text.prefix (n - 3) text).
    split; [done|]. split; [apply prefix_first_chars; lia|].
    rewrite len_prefix; lia.
Qed.

Lemma saved_reply_starts quote_id quote title author domain tags :
  ∃ more,
    saved_reply quote_id quote title author domain tags =
    "Saved (#" +:+ Text.of_Z quote_id +:+ "): " +:+ Text.dq +:+
    truncate quote 100 +:+ Text.dq +:+ more.
Proof.
  unfold saved_reply. cbv zeta.
  destruct (Text.truthy title || Text.truthy domain), tags as [|t ts];
    rewrite ?string_append_assoc.
  - eexists. reflexivity.
  - eexists. reflexivity.
  - exists "". reflexivity.
  - eexists. reflexivity.
Qed.

(** ** Free-text messages *)

Section Messages.
Variable parse_message : string → parsed_message.
Variable fetch_metadata : string → metadata.

Lemma handle_message_url_only clk upd ctx s text u :
  message_text upd = Some text → text ≠ "" →
  url (parse_message text) = Some u → u ≠ "" →
  Text.truthy (quote_text (parse_message text)) = false →
  handle_message parse_message fetch_metadata clk upd ctx s =
  Outcome [reply_text (got_link_reply (fetch_metadata u))]
    (set_pending_url clk u (fetch_metadata u) (user_data ctx))
    (ensure_registered clk upd s).2.
Proof.
  intros Hmsg Htext Hurl Hu Hquote. unfold handle_message.
  destruct (ensure_registered clk upd s) as [user_id s0]. simpl.
  rewrite Hmsg. destruct text as [|c text]; [done|].
  rewrite Hurl, Hquote. destruct u as [|d u]; [done|]. done.
Qed.

(** X12: a message that is only a URL saves no quote; it stores the URL,
    with the metadata fetched for it, as the pending URL. A message that is
    only a quote, not a duplicate, and handled at most five minutes later
    is then saved with that URL and that title, author and domain, and the
    pending URL is gone. *)
Theorem url_then_quote clk1 upd1 args1 ud s text1 u
    clk2 upd2 args2 text2 quote2 :
  message_text upd1 = Some text1 → text1 ≠ "" →
  url (parse_message text1) = Some u → u ≠ "" →
  Text.truthy (quote_text (parse_message text1)) = false →
  let out1 :=
    handle_message parse_message fetch_metadata clk1 upd1
      (Context args1 ud) s in
  datetime_now clk2 ≤ datetime_now clk1 + timedelta_minutes 5 →
  message_text upd2 = Some text2 → text2 ≠ "" →
  Text.truthy (url (parse_message text2)) = false →
  quote_text (parse_message text2) = Some quote2 → quote2 ≠ "" →
  is_duplicate clk2 (effective_chat_id upd2) quote2 1 s = false →
  let out2 :=
    handle_message parse_message fetch_metadata clk2 upd2
      (Context args2 (user_data' out1)) (store out1) in
  quotes (store out1) = quotes s ∧
  sent out1 = [reply_text (got_link_reply (fetch_metadata u))] ∧
  user_data' out1 !! "pending_url" =
    Some (Pending u (fetch_metadata u) (datetime_now clk1)) ∧
  user_data' out2 !! "pending_url" = None ∧
  ∃ q, quotes (store out2) = quotes s ++ [q] ∧
       q_user_id q = effective_chat_id upd2 ∧ q_text q = quote2 ∧
       q_url q = Some u ∧
       source_title q = title (fetch_metadata u) ∧
       source_author q = author (fetch_metadata u) ∧
       source_domain q = domain (fetch_metadata u).
Proof.
  intros Hmsg1 Htext1 Hurl1 Hu Hq1 out1 Hlive Hmsg2 Htext2 Hurl2 Hquote2
    Hne2 Hfresh out2. subst out2 out1.
  rewrite (handle_message_url_only clk1 upd1 (Context args1 ud) s text1 u)
    by done.
  cbn [store user_data' sent user_data].
  destruct (ensure_registered_quotes clk1 upd1 s) as (_ & Hs1 & _).
  split; [done|]. split; [done|].
  split; [apply lookup_insert_eq|].
  rewrite (handle_message_quote parse_message fetch_metadata clk2 upd2 _ _
             text2 quote2) by done.
  rewrite (is_duplicate_quotes clk2 _ _ 1 _ s Hs1), Hfresh, Hurl2.
  cbn [user_data].
  rewrite (get_pending_url_live clk2 _
             (Pending u (fetch_metadata u) (datetime_now clk1)));
    [|apply lookup_insert_eq|unfold PENDING_URL_TIMEOUT; simpl; lia].
  simpl. split; [apply lookup_delete_eq|].
  destruct (ensure_registered_quotes clk2 upd2 (ensure_registered clk1 upd1 s).2)
    as (_ & Hs2 & _).
  eexists. rewrite Hs2, Hs1. by repeat split.
Qed.

(** X13: a message that carries both a URL and a quote, and is not a
    duplicate, is saved with its own URL and the metadata fetched for that
    URL; whatever URL was pending is dropped without being used. The reply
    confirms the id and shows the quote: all of it when it has at most 100
    characters, otherwise its first 97 characters and three dots. *)
Theorem url_and_quote_together clk upd a ud s text u quote :
  message_text upd = Some text → text ≠ "" →
  url (parse_message text) = Some u → u ≠ "" →
  quote_text (parse_message text) = Some quote → quote ≠ "" →
  is_duplicate clk (effective_chat_id upd) quote 1 s = false →
  let out :=
    handle_message parse_message fetch_metadata clk upd (Context a ud) s in
  user_data' out = delete "pending_url" ud ∧
  ∃ q, quotes (store out) = quotes s ++ [q] ∧
       q_id q = next_quote_id s ∧
       q_user_id q = effective_chat_id upd ∧ q_text q = quote ∧
       q_url q = Some u ∧
       source_title q = title (fetch_metadata u) ∧
       source_author q = author (fetch_metadata u) ∧
       source_domain q = domain (fetch_metadata u) ∧
       sent out =
         [reply_text (saved_reply (q_id q) quote (title (fetch_metadata u))
                        (author (fetch_metadata u)) (domain (fetch_metadata u))
                        (tags (parse_message text)))] ∧
       ∃ shown more,
         sent out =
           [reply_text ("Saved (#" +:+ Text.of_Z (q_id q) +:+ "): " +:+
                        Text.dq +:+ shown +:+ Text.dq +:+ more)] ∧
         (Text.len quote ≤ 100 → shown = quote) ∧
         (100 < Text.len quote →
          ∃ head, shown = head +:+ "..." ∧ first_chars 97 quote head).
Proof.
  intros Hmsg Htext Hurl Hu Hquote Hne Hfresh out. subst out.
  rewrite (handle_message_quote parse_message fetch_metadata clk upd _ _
             text quote) by done.
  rewrite Hfresh, Hurl. destruct u as [|d u]; [done|]. simpl.
  split; [done|].
  destruct (ensure_registered_quotes clk upd s) as (_ & Hs & Hsq).
  eexists. rewrite Hs.
  split; [done|]. split; [simpl; unfold next_quote_id; by rewrite Hs, Hsq|].
  split; [done|]. split; [done|]. split; [done|]. split; [done|].
  split; [done|]. split; [done|]. split; [done|].
  cbn [q_id].
  destruct (saved_reply_starts (next_quote_id (ensure_registered clk upd s).2)
              quote (title (fetch_metadata (String d u)))
              (author (fetch_metadata (String d u)))
              (domain (fetch_metadata (String d u)))
              (tags (parse_message text))) as [more Hmore].
  exists (truncate quote 100), more. rewrite Hmore.
  split; [done|].
  destruct (truncate_cases quote 100 ltac:(lia)) as [Hshort Hlong].
  split; [done|]. intros Hgt.
  destruct (Hlong Hgt) as (head & Hhead & Hfirst & _).
  exists head. by split.
Qed.

(** X14: a quote-only message that is not a duplicate, arriving when no
    URL is pending or when the pending URL is more than five minutes old,
    is saved without source: no title, author or domain, and as URL what
    the parser gave (nothing, or the empty string). An expired entry is
    removed on the way. *)
Theorem quote_without_pending clk upd a ud s text quote :
  message_text upd = Some text → text ≠ "" →
  Text.truthy (url (parse_message text)) = false →
  quote_text (parse_message text) = Some quote → quote ≠ "" →
  is_duplicate clk (effective_chat_id upd) quote 1 s = false →
  (ud !! "pending_url" = None ∨
   ∃ p, ud !! "pending_url" = Some p ∧
        p_timestamp p + timedelta_minutes 5 < datetime_now clk) →
  let out :=
    handle_message parse_message fetch_metadata clk upd (Context a ud) s in
  user_data' out !! "pending_url" = None ∧
  ∃ q, quotes (store out) = quotes s ++ [q] ∧
       q_user_id q = effective_chat_id upd ∧ q_text q = quote ∧
       q_url q = url (parse_message text) ∧
       source_title q = None ∧ source_author q = None ∧
       source_domain q = None.
Proof.
  intros Hmsg Htext Hurl Hquote Hne Hfresh Hpending out. subst out.
  rewrite (handle_message_quote parse_message fetch_metadata clk upd _ _
             text quote) by done.
  rewrite Hfresh, Hurl. cbn [user_data].
  destruct (ensure_registered_quotes clk upd s) as (_ & Hs & _).
  destruct Hpending as [Hnone|(p & Hp & Hlate)].
  - rewrite (get_pending_url_absent clk ud Hnone). simpl.
    split; [done|]. eexists. rewrite Hs. by repeat split.
  - rewrite (get_pending_url_expired clk ud p Hp)
      by (unfold PENDING_URL_TIMEOUT; lia).
    simpl. split; [apply lookup_delete_eq|].
    eexists. rewrite Hs. by repeat split.
Qed.

(** X15: whatever the message, the parser and the fetched metadata,
    [handle_message] sends at most one reply and never deletes or changes
    a quote: the table is as before, or as before with one row appended,
    and that row belongs to the sender, has a text that is not empty, was
    never shown and is not a favourite. *)
Theorem handle_message_appends_at_most_one clk upd ctx s :
  let out := handle_message parse_message fetch_metadata clk upd ctx s in
  (length (sent out) ≤ 1)%nat ∧
  (quotes (store out) = quotes s ∨
   ∃ q, quotes (store out) = quotes s ++ [q] ∧
        q_id q = next_quote_id s ∧
        q_user_id q = effective_chat_id upd ∧ q_text q ≠ "" ∧
        is_favorite q = 0 ∧ times_shown q = 0 ∧ last_shown q = None ∧
        created_at q = current_timestamp clk).
Proof.
  intros out. subst out.
  destruct (ensure_registered_quotes clk upd s) as (Hu & Hq & Hsq).
  destruct (message_text upd) as [text|] eqn:Hmsg.
  2: { unfold handle_message.
       destruct (ensure_registered clk upd s) as [user_id s0].
       rewrite Hmsg. simpl in *. split; [lia|by left]. }
  destruct text as [|c text].
  { unfold handle_message.
    destruct (ensure_registered clk upd s) as [user_id s0].
    rewrite Hmsg. simpl in *. split; [lia|by left]. }
  destruct (quote_text (parse_message (String c text)))
    as [[|d quote]|] eqn:Hquote.
  - unfold handle_message.
    destruct (ensure_registered clk upd s) as [user_id s0].
    rewrite Hmsg, Hquote. simpl in *.
    rewrite andb_true_r. destruct (Text.truthy _); simpl;
      (split; [lia|by left]).
  - rewrite (handle_message_quote parse_message fetch_metadata clk upd ctx s
               (String c text) (String d quote)) by done.
    destruct (is_duplicate _ _ _ _ _); simpl; [split; [lia|by left]|].
    destruct (if Text.truthy _ then _ else _) as [[u md] ud]. simpl.
    split; [lia|]. right. eexists. rewrite Hq. repeat split; try done.
    unfold next_quote_id. by rewrite Hq, Hsq.
  - unfold handle_message.
    destruct (ensure_registered clk upd s) as [user_id s0].
    rewrite Hmsg, Hquote. simpl in *.
    rewrite andb_true_r. destruct (Text.truthy _); simpl;
      (split; [lia|by left]).
Qed.
End Messages.

Lemma url_then_quote_witness :
  let out1 :=
    handle_message url_or_quote_parser example_metadata (Clock 0 0)
      (Update 1 None (Some "https://example.com")) (Context [] ∅) empty_db in
  let out2 :=
    handle_message url_or_quote_parser example_metadata (Clock 60000000 0)
      (Update 1 None (Some "Great insight"))
      (Context [] (user_data' out1)) (store out1) in
  quotes (store out1) = [] ∧
  ∃ q, quotes (store out2) = [] ++ [q] ∧
       q_text q = "Great insight" ∧ q_url q = Some "https://example.com" ∧
       source_domain q = Some "example.com".
Proof.
  intros out1 out2.
  destruct (url_then_quote url_or_quote_parser example_metadata
              (Clock 0 0) (Update 1 None (Some "https://example.com")) [] ∅
              empty_db "https://example.com" "https://example.com"
              (Clock 60000000 0) (Update 1 None (Some "Great insight")) []
              "Great insight" "Great insight")
    as (H1 & _ & _ & _ & q & Hq & _ & Ht & Hu & _ & _ & Hd);
    [reflexivity|discriminate|reflexivity|discriminate|reflexivity
    |vm_compute; discriminate|reflexivity|discriminate|reflexivity
    |reflexivity|discriminate|reflexivity|].
  split; [exact H1|]. exists q. repeat split; assumption.
Defined.

Lemma url_and_quote_together_witness :
  let ud : gmap string pending := {["pending_url" := example_pending]} in
  let out :=
    handle_message url_and_quote_parser example_metadata
      (Clock (1704153700 * 1000000) 0) (Update 1 None (Some sixty_letters))
      (Context [] ud) empty_db in
  user_data' out = ∅ ∧
  (∃ q, quotes (store out) = [] ++ [q] ∧ q_id q = 1 ∧
        q_url q = Some "https://example.com") ∧
  sent out =
    [reply_text ("Saved (#1): " +:+ Text.dq +:+ sixty_letters +:+ Text.dq +:+
                 Text.nl +:+ "From: Example (example.com)" +:+ Text.nl +:+
                 "Tags: #wisdom")].
Proof.
  intros ud out.
  destruct (url_and_quote_together url_and_quote_parser example_metadata
              (Clock (1704153700 * 1000000) 0)
              (Update 1 None (Some sixty_letters)) [] ud empty_db
              sixty_letters "https://example.com" sixty_letters)
    as (H1 & q & Hq & Hi & _ & _ & Hu & _ & _ & _ & Hsent & _);
    [reflexivity|discriminate|reflexivity|discriminate|reflexivity
    |discriminate|reflexivity|].
  split; [transitivity (delete "pending_url" ud); [exact H1|reflexivity]|].
  split; [exists q; repeat split; assumption|].
  fold out in Hsent. rewrite Hsent, Hi. reflexivity.
Defined.

Lemma quote_without_pending_witness :
  let ud : gmap string pending := {["pending_url" := example_pending]} in
  let out :=
    handle_message url_or_quote_parser example_metadata
      (Clock (1704154000 * 1000000) 0) (Update 1 None (Some "Too late"))
      (Context [] ud) empty_db in
  user_data' out !! "pending_url" = None ∧
  ∃ q, quotes (store out) = [] ++ [q] ∧ q_url q = None ∧
       source_title q = None.
Proof.
  intros ud out.
  destruct (quote_without_pending url_or_quote_parser example_metadata
              (Clock (1704154000 * 1000000) 0)
              (Update 1 None (Some "Too late")) [] ud empty_db
              "Too late" "Too late")
    as (H1 & q & Hq & _ & _ & Hu & Ht & _);
    [reflexivity|discriminate|reflexivity|reflexivity|discriminate
    |reflexivity| |].
  - right. exists example_pending. split; [reflexivity|]. vm_compute.
    reflexivity.
  - split; [exact H1|]. exists q. repeat split; assumption.
Defined.

(** ** Lengths of replies *)

(** X16: for a bound of at least 3, [truncate] never returns more than
    [length] characters (characters, not bytes: a character of several
    bytes counts once and is never cut in two); a text within the bound
    comes back unchanged, and a longer one comes back as exactly [length]
    characters: the first [length - 3] characters of the text followed by
    three dots. *)
Theorem truncate_bounded (text : string) (n : Z) :
  3 ≤ n →
  Text.len (truncate text n) ≤ n ∧
  (Text.len text ≤ n → truncate text n = text) ∧
  (n < Text.len text →
   Text.len (truncate text n) = n ∧
   ∃ head, truncate text n = head +:+ "..." ∧
           first_chars (n - 3) text head ∧ Text.len head = n - 3).
Proof.
  intros Hn. unfold truncate.
  destruct (Z.leb_spec (Text.len text) n) as [Hle|Hgt].
  - split; [done|]. split; [done|]. lia.
  - assert (Hlen : Text.len (Text.prefix (n - 3) text) = n - 3)
      by (rewrite len_prefix; lia).
    split; [|split; [lia|intros _; split]].
    + rewrite len_append, Hlen. change (Text.len "...") with 3. lia.
    + rewrite len_append, Hlen. change (Text.len "...") with 3. lia.
    + exists (Text.prefix (n - 3) text).
      split; [done|]. split; [apply prefix_first_chars; lia|done].
Qed.

Lemma truncate_bounded_witness :
  truncate "0123456789" 8 = "01234..."%string ∧
  truncate "ééééé" 6 = "ééééé"%string ∧
  truncate "Привет, мир" 8 = "Приве..."%string ∧
  Text.len (truncate "Привет, мир" 8) = 8.
Proof.
  split; [reflexivity|]. split; [reflexivity|]. split; [reflexivity|].
  apply (truncate_bounded "Привет, мир" 8); [lia|reflexivity].
Defined.






(** X18: a command that needs an argument and gets none answers with its
    usage line and changes nothing: no quote, no counter, and not the
    pending URL. *)
Theorem missing_argument_usage clk upd ud s :
  let ctx := Context [] ud in
  let unchanged (out : outcome) :=
    quotes (store out) = quotes s ∧ quotes_seq (store out) = quotes_seq s ∧
    user_data' out = ud in
  (sent (search_command clk upd ctx s) = [reply_text "Usage: /search <keyword>"]
   ∧ unchanged (search_command clk upd ctx s)) ∧
  (sent (tag_command clk upd ctx s) = [reply_text "Usage: /tag <tagname>"]
   ∧ unchanged (tag_command clk upd ctx s)) ∧
  (sent (source_command clk upd ctx s) = [reply_text "Usage: /source <domain>"]
   ∧ unchanged (source_command clk upd ctx s)) ∧
  (sent (fav_command clk upd ctx s) = [reply_text "Usage: /fav <quote_id>"]
   ∧ unchanged (fav_command clk upd ctx s)) ∧
  (sent (delete_command clk upd ctx s) = [reply_text "Usage: /delete <quote_id>"]
   ∧ unchanged (delete_command clk upd ctx s)).
Proof.
  intros ctx unchanged. subst ctx unchanged.
  destruct (ensure_registered_quotes clk upd s) as (_ & Hq & Hsq).
  unfold search_command, tag_command, source_command, fav_command,
    delete_command.
  destruct (ensure_registered clk upd s) as [user_id s0]. simpl in *.
  by repeat split.
Qed.

(** ** One quote at a time: [/random] and the quote of the day *)

Lemma mark_shown_nil clk (l : list quote) : mark_shown clk [] <$> l = l.
Proof.
  induction l as [|q l IH]; [done|]. by rewrite fmap_cons, IH.
Qed.

Lemma unshown_mark_shown clk ids q : unshown (mark_shown clk ids q) = unshown q.
Proof. unfold mark_shown. by destruct (decide _). Qed.

Lemma get_random_quotes_same clk rnd user_id n srs s :
  same_content s (get_random_quotes clk rnd user_id n srs s).2.
Proof.
  rewrite get_random_quotes_store. split; [done|split; [done|]].
  cbn [quotes]. rewrite <- list_fmap_compose. apply list_fmap_ext.
  intros i q _. apply unshown_mark_shown.
Qed.

(** The row a weighted query for one quote returns comes first in the
    order of the query among all rows of the user. *)
Lemma first_due clk rnd user_id s :
  match (get_random_quotes clk rnd user_id 1 true s).1 with
  | [] => owned user_id s = []
  | q :: rest =>
      rest = [] ∧ q ∈ owned user_id s ∧
      ∀ q', q' ∈ owned user_id s → srs_le clk q q'
  end.
Proof.
  rewrite get_random_quotes_rows.
  set (leb := λ a b, Sql.key3_leb (srs_key clk rnd a) (srs_key clk rnd b)).
  pose proof (order_by_Permutation leb (owned user_id s)) as Hp.
  assert (Hs : StronglySorted (λ a b, leb a b = true)
                 (Sql.order_by leb (owned user_id s))).
  { apply order_by_sorted; unfold leb.
    - intros x y. apply key3_leb_total.
    - intros x y z. apply key3_leb_trans. }
  unfold Sql.limit. change (1 <? 0) with false. change (Z.to_nat 1) with 1%nat.
  destruct (Sql.order_by leb (owned user_id s)) as [|q l]; simpl.
  - symmetry. by apply Permutation_nil_l.
  - rewrite take_0. split; [done|]. split; [rewrite <- Hp; by left|].
    intros q' Hq'. rewrite <- Hp in Hq'.
    apply elem_of_cons in Hq' as [->|Hq'].
    + unfold srs_le. lia.
    + apply StronglySorted_inv in Hs as [_ Hall].
      apply srs_key_le with rnd. rewrite Forall_forall in Hall.
      by apply Hall.
Qed.

(** X19: [/random] answers a user without quotes with "No quotes saved
    yet. Send me some!" and leaves the quotes as they are; for a user with
    quotes it shows, with its id, a quote that no other quote of the user
    precedes in the order of the weighted query (bucket, then
    [times_shown]), and marks the rows of that id as shown. The pending
    URL and the id sequence are not touched. *)
Theorem random_command_shows_first_due clk rnd upd ctx s :
  let user_id := effective_chat_id upd in
  let out := random_command clk rnd upd ctx s in
  user_data' out = user_data ctx ∧ quotes_seq (store out) = quotes_seq s ∧
  ((owned user_id s = [] ∧
    sent out = [reply_text "No quotes saved yet. Send me some!"] ∧
    quotes (store out) = quotes s) ∨
   (∃ q, q ∈ owned user_id s ∧
         (∀ q', q' ∈ owned user_id s → srs_le clk q q') ∧
         sent out = [reply_text (format_quote q true)] ∧
         quotes (store out) = mark_shown clk [q_id q] <$> quotes s)).
Proof.
  intros user_id out. subst user_id out.
  destruct (ensure_registered_quotes clk upd s) as (Hu & Hq & Hsq).
  unfold random_command.
  destruct (ensure_registered clk upd s) as [user_id s0].
  cbn [fst snd] in Hu, Hq, Hsq. subst user_id.
  assert (Ho : owned (effective_chat_id upd) s0 =
               owned (effective_chat_id upd) s)
    by (unfold owned; by rewrite Hq).
  pose proof (first_due clk rnd (effective_chat_id upd) s0) as Hd.
  pose proof (get_random_quotes_store clk rnd (effective_chat_id upd) 1 true
                s0) as Hst.
  cbv zeta in Hst.
  destruct (get_random_quotes clk rnd (effective_chat_id upd) 1 true s0)
    as [[|q rest] s1]; cbn [fst snd] in Hd, Hst; subst s1;
    cbn [sent user_data' store quotes quotes_seq].
  - split; [done|]. split; [done|]. left.
    rewrite <- Ho, <- Hq. split; [done|]. split; [done|].
    apply mark_shown_nil.
  - destruct Hd as (-> & Hin & Hmin).
    split; [done|]. split; [done|]. right. exists q.
    rewrite <- Ho, <- Hq. by repeat split.
Qed.

(** ** The scheduled jobs *)

Section Jobs.
Variable DIGEST_COUNT : Z.
Variable delivers : Z → string → bool.

(** X20: the quote of the day. A user without quotes gets no message and
    nothing changes. For a user with quotes there is exactly one attempt to
    send "Quote of the Day" with a quote that no other quote of the user
    precedes in the order of the weighted query, shown without its id; the
    rows of that id are marked as shown whether or not the message went
    through. *)
Theorem daily_quote_silent_or_first_due clk rnd user_id s :
  let j := send_daily_quote_to_user delivers clk rnd user_id s in
  (owned user_id s = [] ∧ delivered j = [] ∧ failures j = [] ∧ after j = s) ∨
  (∃ q, q ∈ owned user_id s ∧
        (∀ q', q' ∈ owned user_id s → srs_le clk q q') ∧
        (let text := "Quote of the Day" +:+ Text.nl +:+ Text.nl +:+
                     format_quote q false in
         if delivers user_id text
         then delivered j = [(user_id, text)] ∧ failures j = []
         else delivered j = [] ∧ failures j = [user_id]) ∧
        quotes (after j) = mark_shown clk [q_id q] <$> quotes s).
Proof.
  intros j. subst j. unfold send_daily_quote_to_user.
  pose proof (first_due clk rnd user_id s) as Hd.
  pose proof (get_random_quotes_store clk rnd user_id 1 true s) as Hst.
  cbv zeta in Hst.
  destruct (get_random_quotes clk rnd user_id 1 true s) as [[|q rest] s1];
    cbn [fst snd] in Hd, Hst.
  - left. split; [done|]. split; [done|]. split; [done|]. cbn [after].
    rewrite Hst. cbn [fmap list_fmap]. rewrite mark_shown_nil.
    by destruct s.
  - right. destruct Hd as (-> & Hin & Hmin). exists q.
    split; [done|]. split; [done|]. cbv zeta. unfold send_message.
    destruct (delivers user_id _); cbn [delivered failures after]; subst s1;
      by repeat split.
Qed.

Lemma send_digest_to_user_attempt clk rnd user_id s :
  let j := send_digest_to_user DIGEST_COUNT delivers clk rnd user_id s in
  (delivered j).*1 ++ failures j = [user_id] ∧ same_content s (after j).
Proof.
  intros j. subst j. unfold send_digest_to_user.
  pose proof (get_random_quotes_same clk rnd user_id DIGEST_COUNT true s) as Hs.
  destruct (get_random_quotes clk rnd user_id DIGEST_COUNT true s)
    as [[|q rows] s1]; unfold send_message;
    destruct (delivers user_id _); by split.
Qed.

Lemma get_quote_count_same user_id s s' :
  same_content s s' → get_quote_count user_id s' = get_quote_count user_id s.
Proof.
  intros (_ & _ & Hq). unfold get_quote_count, owned. f_equal.
  transitivity (length (filter (λ q, q_user_id q = user_id)
                          (unshown <$> quotes s'))).
  - by rewrite filter_fmap_stable, length_fmap.
  - by rewrite Hq, filter_fmap_stable, length_fmap.
Qed.

(** X21: every digest that goes out, by the weekly job or by [/digest],
    goes to the user it was made for and has at most 4000 characters. For
    a user without quotes it is the fixed "No quotes saved yet" text.
    Otherwise it is the heading, the numbered quotes and the line "Total
    saved: <n> quotes", n being the number of the user's quotes, when
    these make at most 4000 characters; a longer text is cut to its first
    3997 characters, followed by three dots. *)
Theorem digest_fits_one_message clk rnd user_id s chat text :
  (chat, text) ∈ delivered
    (send_digest_to_user DIGEST_COUNT delivers clk rnd user_id s) →
  let quotes := (get_random_quotes clk rnd user_id DIGEST_COUNT true s).1 in
  let full :=
    digest_body 1 quotes ("Your Weekly Quote Digest" +:+ Text.nl +:+ Text.nl)
    +:+ "Total saved: " +:+ Text.of_Z (get_quote_count user_id s) +:+
    " quotes" in
  chat = user_id ∧ Text.len text ≤ 4000 ∧
  (quotes = [] →
   text = "Your Weekly Quote Digest" +:+ Text.nl +:+ Text.nl +:+
          "No quotes saved yet. Start sending me quotes to build your " +:+
          "collection!") ∧
  (quotes ≠ [] → Text.len full ≤ 4000 → text = full) ∧
  (quotes ≠ [] → 4000 < Text.len full →
   Text.len text = 4000 ∧
   ∃ head, text = head +:+ "..." ∧ first_chars 3997 full head ∧
           Text.len head = 3997).
Proof.
  intros Hin quotes full. subst quotes full. revert Hin.
  unfold send_digest_to_user.
  pose proof (get_quote_count_same user_id _ _
                (get_random_quotes_same clk rnd user_id DIGEST_COUNT true s))
    as Hcount.
  destruct (get_random_quotes clk rnd user_id DIGEST_COUNT true s)
    as [rows s1]. cbn [fst snd] in Hcount |- *. rewrite Hcount. clear Hcount.
  destruct rows as [|q rows]; unfold send_message;
    destruct (delivers user_id _); cbn [delivered];
    try (by intros ?%elem_of_nil);
    intros [= -> ->]%list_elem_of_singleton; (split; [done|]).
  - split; [by vm_compute|]. split; [done|]. split; by intros [].
  - unfold digest_text. cbv zeta.
    set (full := digest_body 1 (q :: rows) _ +:+ _).
    assert (Hcut : Text.len (Text.prefix 3997 full +:+ "...") =
                   Z.min 3997 (Text.len full) + 3).
    { rewrite len_append, len_prefix by lia. reflexivity. }
    destruct (Z.ltb_spec 4000 (Text.len full)) as [Hlong|Hshort].
    + split; [lia|]. split; [done|]. split; [intros _ ?; lia|].
      intros _ _. split; [lia|]. exists (Text.prefix 3997 full).
      split; [done|]. split; [apply prefix_first_chars; lia|].
      rewrite len_prefix by lia. lia.
    + split; [done|]. split; [done|]. split; [done|]. intros _ ?. lia.
Qed.

Lemma send_daily_quote_to_user_attempt clk rnd user_id s :
  let j := send_daily_quote_to_user delivers clk rnd user_id s in
  (delivered j).*1 ++ failures j =
    (if 0 <? get_quote_count user_id s then [user_id] else []) ∧
  same_content s (after j).
Proof.
  intros j. subst j. unfold send_daily_quote_to_user.
  pose proof (get_random_quotes_same clk rnd user_id 1 true s) as Hs.
  pose proof (first_due clk rnd user_id s) as Hd.
  unfold get_quote_count.
  destruct (get_random_quotes clk rnd user_id 1 true s) as [[|q rows] s1];
    cbn [fst snd] in Hd, Hs.
  - rewrite Hd. by split.
  - destruct Hd as (_ & Hin & _).
    destruct (Z.ltb_spec 0 (Z.of_nat (length (owned user_id s)))) as [_|H0].
    + unfold send_message. destruct (delivers user_id _); by split.
    + destruct (owned user_id s); [by apply elem_of_nil in Hin|].
      simpl in H0. lia.
Qed.

Lemma same_content_trans s1 s2 s3 :
  same_content s1 s2 → same_content s2 s3 → same_content s1 s3.
Proof.
  intros (H1 & H2 & H3) (H4 & H5 & H6). repeat split; congruence.
Qed.

Section Loop.
Variable send : clock → Z → db → job.
Variable due : db → Z → bool.
Hypothesis send_attempt : ∀ clk c s,
  (delivered (send clk c s)).*1 ++ failures (send clk c s) =
    (if due s c then [c] else []) ∧
  same_content s (after (send clk c s)).
Hypothesis due_same : ∀ s s' c, same_content s s' → due s' c = due s c.

Lemma for_each_user_attempts at_time us s :
  let j := for_each_user send at_time us s in
  (delivered j).*1 ++ failures j ≡ₚ
    filter (λ c, due s c = true) (chat_id <$> us) ∧
  same_content s (after j).
Proof.
  cbv zeta. revert s. induction us as [|u us IH]; intros s.
  - by split.
  - cbn [for_each_user]. cbv zeta.
    set (j0 := send (at_time (chat_id u)) (chat_id u) s).
    set (j1 := for_each_user send at_time us (after j0)).
    cbn [delivered failures after].
    destruct (send_attempt (at_time (chat_id u)) (chat_id u) s) as [Ha Hs].
    destruct (IH (after j0)) as [Hp Hs'].
    fold j0 in Ha, Hs. fold j1 in Hp, Hs'.
    split; [|by eapply same_content_trans].
    rewrite fmap_cons, filter_cons.
    transitivity (((delivered j0).*1 ++ failures j0) ++
                  ((delivered j1).*1 ++ failures j1)).
    { rewrite fmap_app, <- !(assoc_L (++)). f_equiv.
      apply Permutation_app_swap_app. }
    rewrite Ha, Hp.
    rewrite (list_filter_iff (λ c, due (after j0) c = true)
               (λ c, due s c = true)) by (intros c; by rewrite (due_same s)).
    destruct (decide (due s (chat_id u) = true)) as [->|Hn]; [done|].
    by apply not_true_is_false in Hn as ->.
Qed.
End Loop.

(** X22: the weekly job makes exactly one attempt for every user who has
    the digest enabled, and for no one else: a send that raises is recorded
    and the loop goes on with the next user. The job leaves the users, the
    id sequence and, up to the display bookkeeping, the quotes as they
    were. *)
Theorem weekly_job_reaches_every_subscriber at_time rnd s :
  let j := send_digest_to_all DIGEST_COUNT delivers at_time rnd s in
  (delivered j).*1 ++ failures j ≡ₚ chat_id <$> get_users_for_digest s ∧
  same_content s (after j).
Proof.
  cbv zeta. unfold send_digest_to_all.
  destruct (for_each_user_attempts
              (λ clk, send_digest_to_user DIGEST_COUNT delivers clk rnd)
              (λ _ _, true)
              (λ clk c s, send_digest_to_user_attempt clk rnd c s)
              (λ _ _ _ _, eq_refl) at_time (get_users_for_digest s) s)
    as [Hp Hs].
  split; [|done]. rewrite Hp. clear.
  induction (chat_id <$> get_users_for_digest s) as [|c l IH]; [done|].
  rewrite filter_cons. destruct (decide _); [|done]. by rewrite IH.
Qed.

(** X23: the daily job makes exactly one attempt for every user who has
    the daily quote enabled and has saved a quote, and none for the others,
    whether or not earlier sends went through; it leaves the users, the id
    sequence and, up to the display bookkeeping, the quotes as they were. *)
Theorem daily_job_reaches_every_reader at_time rnd s :
  let j := send_daily_quote_to_all delivers at_time rnd s in
  (delivered j).*1 ++ failures j ≡ₚ
    filter (λ c, 0 < get_quote_count c s)
      (chat_id <$> get_users_for_daily_quote s) ∧
  same_content s (after j).
Proof.
  cbv zeta. unfold send_daily_quote_to_all.
  destruct (for_each_user_attempts
              (λ clk, send_daily_quote_to_user delivers clk rnd)
              (λ s c, 0 <? get_quote_count c s)
              (λ clk c s, send_daily_quote_to_user_attempt clk rnd c s)
              (λ s s' c H, f_equal (Z.ltb 0) (get_quote_count_same c s s' H))
              at_time (get_users_for_daily_quote s) s)
    as [Hp Hs].
  split; [|done]. rewrite Hp. apply reflexive_eq, list_filter_iff.
  intros c. apply Z.ltb_lt.
Qed.
End Jobs.

Lemma digest_fits_one_message_witness :
  let clk := Clock (1704200000 * 1000000) 0 in
  let j := send_digest_to_user 5 all_delivered clk (λ _, 0) 1 long_quote_db in
  ∃ text head,
    delivered j = [(1, text)] ∧ Text.len text = 4000 ∧
    text = head +:+ "..." ∧ Text.len head = 3997.
Proof.
  intros clk j.
  assert (Hsent : ∃ text, delivered j = [(1, text)])
    by (eexists; vm_compute; reflexivity).
  destruct Hsent as [text Hsent]. exists text.
  destruct (digest_fits_one_message 5 all_delivered clk (λ _, 0) 1
              long_quote_db 1 text) as (_ & _ & _ & _ & Hcut).
  { fold j. rewrite Hsent. by left. }
  destruct Hcut as (Hlen & head & Htext & _ & Hhead).
  - by vm_compute.
  - by vm_compute.
  - exists head. by repeat split.
Defined.

Lemma weekly_job_reaches_every_subscriber_witness :
  let j := send_digest_to_all 5 blocked_by_1 (λ _, Clock (1704200000 * 1000000) 0)
             (λ _, 0) three_chats in
  failures j = [1] ∧ (delivered j).*1 = [2] ∧
  (delivered j).*1 ++ failures j ≡ₚ [1; 2].
Proof.
  intros j. split; [reflexivity|]. split; [reflexivity|].
  apply (weekly_job_reaches_every_subscriber 5 blocked_by_1
           (λ _, Clock (1704200000 * 1000000) 0) (λ _, 0) three_chats).
Defined.

Lemma daily_job_reaches_every_reader_witness :
  let j := send_daily_quote_to_all blocked_by_1
             (λ _, Clock (1704200000 * 1000000) 0) (λ _, 0) three_chats in
  failures j = [1] ∧ (delivered j).*1 = [3] ∧
  (delivered j).*1 ++ failures j ≡ₚ [1; 3].
Proof.
  intros j. split; [reflexivity|]. split; [reflexivity|].
  apply (daily_job_reaches_every_reader blocked_by_1
           (λ _, Clock (1704200000 * 1000000) 0) (λ _, 0) three_chats).
Defined.

(** ** [/delete], end to end *)

Lemma head_filter_Some {A} (P : A → Prop) `{∀ x, Decision (P x)} l x :
  head (filter P l) = Some x → ∃ l', filter P l = x :: l'.
Proof. destruct (filter P l) as [|y l']; [done|]. intros [= ->]. by exists l'. Qed.

(** X24: [/delete <id>] for a quote the sender owns answers "Deleted quote
    #<id>:" with the text of the quote cut to 50 characters (all of it when
    it has at most 50 characters, otherwise its first 47 characters and
    three dots), and removes the sender's rows of that id and no other row;
    afterwards the id is not found for the sender. The pending URL is not
    touched. *)
Theorem delete_command_deletes clk upd ud s a rest quote_id q :
  py_int a = Some quote_id →
  get_quote_by_id (effective_chat_id upd) quote_id s = Some q →
  let user_id := effective_chat_id upd in
  let out := delete_command clk upd (Context (a :: rest) ud) s in
  sent out =
    [reply_text ("Deleted quote #" +:+ Text.of_Z quote_id +:+ ":" +:+
                 Text.nl +:+ Text.dq +:+ truncate (q_text q) 50 +:+ Text.dq)] ∧
  quotes (store out) =
    filter (λ r, ¬ (q_id r = quote_id ∧ q_user_id r = user_id)) (quotes s) ∧
  get_quote_by_id user_id quote_id (store out) = None ∧
  user_data' out = ud ∧
  (Text.len (q_text q) ≤ 50 → truncate (q_text q) 50 = q_text q) ∧
  (50 < Text.len (q_text q) →
   ∃ head, truncate (q_text q) 50 = head +:+ "..." ∧
           first_chars 47 (q_text q) head).
Proof.
  intros Ha Hget user_id out. subst user_id out.
  destruct (ensure_registered_quotes clk upd s) as (Hu & Hq & _).
  assert (Hcut : (Text.len (q_text q) ≤ 50 →
                  truncate (q_text q) 50 = q_text q) ∧
                 (50 < Text.len (q_text q) →
                  ∃ head, truncate (q_text q) 50 = head +:+ "..." ∧
                          first_chars 47 (q_text q) head)).
  { destruct (truncate_cases (q_text q) 50 ltac:(lia)) as [Hshort Hlong].
    split; [done|]. intros Hgt.
    destruct (Hlong Hgt) as (head & Hhead & Hfirst & _). by exists head. }
  unfold delete_command.
  destruct (ensure_registered clk upd s) as [user_id s0].
  cbn [fst snd] in Hu, Hq. subst user_id. cbn [args user_data].
  rewrite Ha. unfold get_quote_by_id in *. rewrite Hq, Hget.
  apply head_filter_Some in Hget as [l' Hl'].
  unfold delete_quote. rewrite Hq, Hl'.
  cbn [length]. rewrite bool_decide_eq_true_2 by lia.
  cbn [sent store user_data' quotes].
  split; [done|]. split; [done|]. split; [|done].
  rewrite filter_none; [done|].
  intros r [Hr _]%list_elem_of_filter. done.
Qed.

Lemma delete_command_deletes_witness :
  let clk := Clock (1704200000 * 1000000) 0 in
  let out := delete_command clk (Update 1 None None) (Context ["1"] ∅)
               shared_db in
  let s := (save_quote clk 1 sixty_letters None None None None None
              empty_db).2 in
  let out' := delete_command clk (Update 1 None None) (Context ["١"] ∅) s in
  sent out =
    [reply_text ("Deleted quote #1:" +:+ Text.nl +:+ Text.dq +:+ "mine" +:+
                 Text.dq)] ∧
  q_text <$> quotes (store out) = ["theirs"] ∧
  sent out' =
    [reply_text ("Deleted quote #1:" +:+ Text.nl +:+ Text.dq +:+
                 Text.prefix 47 sixty_letters +:+ "..." +:+ Text.dq)] ∧
  Text.len (Text.prefix 47 sixty_letters) = 47.
Proof.
  intros clk out s out'.
  destruct (delete_command_deletes clk
              (Update 1 None None) ∅ shared_db "1" [] 1
              (Quote 1 1 "mine" None None None None None 0 1 (Some 1704000000)
                 1703000000) eq_refl eq_refl) as (H1 & H2 & _).
  destruct (delete_command_deletes clk
              (Update 1 None None) ∅ s "١" [] 1
              (Quote 1 1 sixty_letters None None None None None 0 0 None
                 (current_timestamp clk)) eq_refl eq_refl) as (H3 & _).
  split; [|split; [|split]].
  - transitivity
      [reply_text ("Deleted quote #" +:+ Text.of_Z 1 +:+ ":" +:+ Text.nl +:+
                   Text.dq +:+ truncate "mine" 50 +:+ Text.dq)];
      [exact H1|reflexivity].
  - exact (f_equal (fmap q_text) H2).
  - exact H3.
  - reflexivity.
Defined.

(** X25: [/delete] never answers "Failed to delete quote.": the branch is
    taken when the DELETE removes no row, and the DELETE runs only after
    the SELECT with the same condition has found one. *)
Theorem delete_command_never_fails clk upd ctx s :
  reply_text "Failed to delete quote." ∉ sent (delete_command clk upd ctx s).
Proof.
  unfold delete_command.
  destruct (ensure_registered clk upd s) as [user_id s0].
  destruct (args ctx) as [|a rest];
    [by intros [=]%list_elem_of_singleton|].
  destruct (py_int a) as [quote_id|];
    [|by intros [=]%list_elem_of_singleton].
  destruct (get_quote_by_id user_id quote_id s0) as [q|] eqn:Hget;
    [|cbn [sent]; intros H%list_elem_of_singleton; vm_compute in H;
      discriminate].
  apply head_filter_Some in Hget as [l' Hl'].
  unfold delete_quote. rewrite Hl'. cbn [length].
  rewrite bool_decide_eq_true_2 by lia. cbn [sent].
  intros H%list_elem_of_singleton. vm_compute in H. discriminate.
Qed.

(** ** What a formatted quote looks like *)

(** X26: showing the id only puts "[#<id>] " in front: the text
    [format_quote] gives with [show_id] is that prefix followed by the text
    it gives without, whatever sources, URL and tags the quote has. *)
Theorem format_quote_id_is_a_prefix (q : quote) :
  format_quote q true =
  "[#" +:+ Text.of_Z (q_id q) +:+ "] " +:+ format_quote q false.
Proof.
  unfold format_quote. cbv zeta.
  destruct (Text.truthy (source_title q)), (Text.truthy (source_author q)),
    (Text.truthy (source_domain q)), (Text.truthy (q_url q)),
    (Text.truthy (q_tags q)); cbn [app];
    repeat match goal with
           | |- context ["" +:+ ?x] => change ("" +:+ x) with x
           end;
    rewrite ?string_append_assoc; reflexivity.
Qed.

(** ** [/stats] and [/export] *)

Lemma count_filter_owned (P : quote → Prop) `{∀ q, Decision (P q)} user_id s :
  (length (filter (λ q, q_user_id q = user_id ∧ P q) (quotes s)) ≤
   length (owned user_id s))%nat.
Proof.
  rewrite (filter_owned P (λ q, q_user_id q = user_id ∧ P q) user_id s)
    by done.
  apply length_filter.
Qed.

(** X27: the numbers of [/stats]. The reply gives the number of the
    sender's quotes, the count of [get_quotes_this_week] and the number of
    favourites, in that order; the last two never exceed the first, and a
    user without quotes gets no "Top tags" part. The command changes no
    quote and not the pending URL. *)
Theorem stats_command_counts clk upd ctx s :
  let user_id := effective_chat_id upd in
  let out := stats_command clk upd ctx s in
  let total := get_quote_count user_id s in
  let this_week := get_quotes_this_week clk user_id s in
  let favorites := Z.of_nat (length (get_favorite_quotes user_id s)) in
  0 ≤ this_week ≤ total ∧ 0 ≤ favorites ≤ total ∧
  (∃ tags_text,
     sent out =
       [reply_text
          ("Your ReadWiser Stats" +:+ Text.nl +:+ Text.nl +:+
           "Total quotes: " +:+ Text.of_Z total +:+ Text.nl +:+
           "Added this week: " +:+ Text.of_Z this_week +:+ Text.nl +:+
           "Favorites: " +:+ Text.of_Z favorites +:+ tags_text)] ∧
     (total = 0 → tags_text = "")) ∧
  quotes (store out) = quotes s ∧ user_data' out = user_data ctx.
Proof.
  intros user_id out total this_week favorites.
  subst out total this_week favorites.
  destruct (ensure_registered_quotes clk upd s) as (Hu & Hq & _).
  unfold stats_command.
  destruct (ensure_registered clk upd s) as [uid s0].
  cbn [fst snd] in Hu, Hq. subst uid. fold user_id. cbv zeta.
  cbn [sent store user_data'].
  split; [|split; [|split; [|done]]].
  - unfold get_quotes_this_week, get_quote_count.
    pose proof (count_filter_owned
      (λ q, Sql.text_ge (sqlite_text (created_at q))
              (isoformat (datetime_now clk - timedelta_days 7))) user_id s)
      as H.
    cbv beta in H. lia.
  - unfold get_favorite_quotes, get_quote_count, newest_first.
    rewrite (Permutation_length (order_by_Permutation _ _)).
    pose proof (count_filter_owned (λ q, is_favorite q = 1) user_id s) as H.
    cbv beta in H. lia.
  - eexists. split.
    + unfold get_quote_count, owned, get_quotes_this_week,
        get_favorite_quotes, get_top_tags. rewrite Hq. reflexivity.
    + unfold get_quote_count. intros H0.
      assert (Hnone : owned user_id s = [])
        by (destruct (owned user_id s); [done|simpl in H0; lia]).
      unfold get_top_tags.
      rewrite (filter_owned (λ q, q_tags q ≠ None)
                 (λ q, q_user_id q = user_id ∧ q_tags q ≠ None) user_id s)
        by done.
      by rewrite Hnone.
Qed.

Section Exporting.
Variable json_dumps : list quote → string.

(** X28: [/export] answers a user without quotes with "No quotes to
    export." and sends every other user one document: the serialization of
    all quotes of the user and of no other quote, each once, newest first;
    the caption gives the number of quotes in the document. Nothing is
    changed. *)
Theorem export_command_complete clk upd ctx s :
  let user_id := effective_chat_id upd in
  let out := export_command json_dumps clk upd ctx s in
  quotes (store out) = quotes s ∧ user_data' out = user_data ctx ∧
  ((owned user_id s = [] ∧ sent out = [reply_text "No quotes to export."]) ∨
   (∃ rows, rows ≠ [] ∧ rows ≡ₚ owned user_id s ∧
            StronglySorted (λ a b, created_at b ≤ created_at a) rows ∧
            sent out =
              [reply_document (json_dumps rows)
                 ("Exported " +:+ Text.of_Z (Z.of_nat (length rows)) +:+
                  " quotes")])).
Proof.
  intros user_id out. subst out.
  destruct (ensure_registered_quotes clk upd s) as (Hu & Hq & _).
  unfold export_command.
  destruct (ensure_registered clk upd s) as [uid s0].
  cbn [fst snd] in Hu, Hq. subst uid. fold user_id. cbv zeta.
  assert (Ho : owned user_id s0 = owned user_id s)
    by (unfold owned; by rewrite Hq).
  unfold export_all_quotes, get_quote_count. rewrite Ho.
  destruct (Z.eqb_spec (Z.of_nat (length (owned user_id s))) 0) as [H0|H0];
    cbn [sent store user_data']; (split; [done|]); (split; [done|]).
  - left. split; [|done]. destruct (owned user_id s); [done|simpl in H0; lia].
  - right. exists (newest_first (owned user_id s)).
    pose proof (order_by_Permutation
                  (λ a b : quote, created_at b <=? created_at a)
                  (owned user_id s)) as Hp.
    fold (newest_first (owned user_id s)) in Hp.
    split; [|split; [done|split; [apply newest_first_sorted|]]].
    + intros Hnil. rewrite Hnil in Hp. apply Permutation_nil_l in Hp.
      rewrite <- Hp in H0. simpl in H0. lia.
    + by rewrite (Permutation_length Hp).
Qed.
End Exporting.

(** ** Subscriptions *)

Lemma filter_all {A} (P : A → Prop) `{∀ x, Decision (P x)} (l : list A) :
  (∀ x, x ∈ l → P x) → filter P l = l.
Proof.
  induction l as [|x l IH]; intros Hl; [done|].
  rewrite filter_cons_True by (apply Hl; by left).
  f_equal. apply IH. intros y Hy. apply Hl. by right.
Qed.

Lemma register_user_subscribed clk cid uname fname s :
  (∀ u, u ∈ users s → digest_enabled u = 1 ∧ daily_quote_enabled u = 1) →
  NoDup (chat_id <$> users s) →
  (∀ u, u ∈ users (register_user clk cid uname fname s).2 →
        digest_enabled u = 1 ∧ daily_quote_enabled u = 1) ∧
  NoDup (chat_id <$> users (register_user clk cid uname fname s).2).
Proof.
  intros Hsub Hnd. unfold register_user.
  destruct (filter _ (users s)) as [|u0 l] eqn:E; cbn [snd users].
  - split.
    + intros u [Hu|Hu]%elem_of_app; [by apply Hsub|].
      by apply list_elem_of_singleton in Hu as ->.
    + rewrite fmap_app. apply NoDup_app. split; [done|]. split.
      * intros c (u & -> & Hu)%list_elem_of_fmap
          [Hc|[]%elem_of_nil]%elem_of_cons.
        assert (Hin : u ∈ filter (λ u, chat_id u = cid) (users s))
          by by apply list_elem_of_filter.
        rewrite E in Hin. by apply elem_of_nil in Hin.
      * apply NoDup_singleton.
  - split.
    + intros u (u' & -> & Hu')%list_elem_of_fmap.
      destruct (decide _); simpl; by apply Hsub.
    + erewrite <- list_fmap_compose, list_fmap_ext; [exact Hnd|].
      intros i u _. simpl. by destruct (decide _).
Qed.

Lemma exec_users json_dumps clk user_id o s :
  users (exec json_dumps clk user_id o s).2 = users s.
Proof.
  destruct o; simpl; try done.
  - by rewrite get_random_quotes_store.
  - unfold toggle_favorite. by destruct (head _).
Qed.

(** X29: no call of the database module turns a subscription off.
    Whatever registrations and requests have run since the database was
    created, every registered user has the weekly digest and the daily
    quote enabled, so both jobs go through all users, and no chat id is
    registered twice. *)
Theorem every_user_stays_subscribed json_dumps (calls : list call) :
  let s := replay json_dumps calls empty_db in
  get_users_for_digest s = get_all_users s ∧
  get_users_for_daily_quote s = get_all_users s ∧
  NoDup (chat_id <$> users s).
Proof.
  intros s.
  assert (Hinv : (∀ u, u ∈ users s →
                       digest_enabled u = 1 ∧ daily_quote_enabled u = 1) ∧
                 NoDup (chat_id <$> users s)).
  { subst s. unfold replay.
    assert (H0 : (∀ u, u ∈ users empty_db →
                       digest_enabled u = 1 ∧ daily_quote_enabled u = 1) ∧
                 NoDup (chat_id <$> users empty_db)).
    { split; [by intros u ?%elem_of_nil|constructor]. }
    revert H0. generalize empty_db.
    induction calls as [|c calls IH]; intros s0 Hs0; [done|].
    cbn [foldl]. apply IH. destruct Hs0 as [Hsub Hnd].
    destruct c as [clk cid uname fname|clk user_id o].
    - by apply register_user_subscribed.
    - by rewrite exec_users. }
  destruct Hinv as [Hsub Hnd].
  unfold get_users_for_digest, get_users_for_daily_quote, get_all_users.
  split; [|split; [|done]]; apply filter_all; intros u Hu; by apply Hsub.
Qed.

(** ** [/fav], end to end *)

Lemma elem_of_newest_first (r : quote) (l : list quote) :
  r ∈ newest_first l ↔ r ∈ l.
Proof. unfold newest_first. by rewrite order_by_Permutation. Qed.

(** X30: [/fav <id>] for a quote the sender owns. A quote that was not a
    favourite is answered with "added to favorites." and is listed by
    [get_favorite_quotes] afterwards; a quote that was one is answered with
    "removed from favorites." and no quote of that id is listed
    afterwards. Quotes of other ids are listed exactly as before, and the
    pending URL is not touched. *)
Theorem fav_command_then_favorites clk upd ud s a rest quote_id q :
  py_int a = Some quote_id →
  get_quote_by_id (effective_chat_id upd) quote_id s = Some q →
  let user_id := effective_chat_id upd in
  let out := fav_command clk upd (Context (a :: rest) ud) s in
  (is_favorite q = 0 →
   sent out = [reply_text ("Quote #" +:+ Text.of_Z quote_id +:+
                           " added to favorites.")] ∧
   with_favorite 1 q ∈ get_favorite_quotes user_id (store out)) ∧
  (is_favorite q ≠ 0 →
   sent out = [reply_text ("Quote #" +:+ Text.of_Z quote_id +:+
                           " removed from favorites.")] ∧
   ∀ r, r ∈ get_favorite_quotes user_id (store out) → q_id r ≠ quote_id) ∧
  (∀ r, q_id r ≠ quote_id →
        r ∈ get_favorite_quotes user_id (store out) ↔
        r ∈ get_favorite_quotes user_id s) ∧
  user_data' out = ud.
Proof.
  intros Ha Hget user_id out. subst out.
  destruct (ensure_registered_quotes clk upd s) as (Hu & Hq & _).
  unfold fav_command.
  destruct (ensure_registered clk upd s) as [uid s0].
  cbn [fst snd] in Hu, Hq. subst uid. fold user_id. cbn [args user_data].
  rewrite Ha. unfold get_quote_by_id in Hget. fold user_id in Hget.
  assert (Hin : q ∈ filter (λ r, q_id r = quote_id ∧ q_user_id r = user_id)
                      (quotes s)).
  { destruct (filter _ (quotes s)) as [|x l]; [done|].
    injection Hget as ->. by left. }
  apply list_elem_of_filter in Hin as [[Hid Huser] Hin].
  apply head_filter_Some in Hget as [l' Hl']. rewrite <- Hq in Hl'.
  rewrite (toggle_favorite_some user_id quote_id s0 q l' Hl').
  set (flag := if decide (is_favorite q = 0) then 1 else 0).
  set (f := λ r : quote,
         if decide (q_id r = quote_id ∧ q_user_id r = user_id)
         then with_favorite flag r else r).
  assert (Hmem : ∀ r, r ∈ get_favorite_quotes user_id
                         (Db (users s0) (f <$> quotes s0) (quotes_seq s0)) ↔
                      ∃ r0, r = f r0 ∧ r0 ∈ quotes s ∧
                            q_user_id r = user_id ∧ is_favorite r = 1).
  { intros r. unfold get_favorite_quotes. cbn [quotes].
    rewrite elem_of_newest_first, list_elem_of_filter, list_elem_of_fmap, Hq.
    split.
    - intros [[? ?] (y & ? & ?)]. by exists y.
    - intros (y & ? & ? & ? & ?). split; [done|]. by exists y. }
  assert (Hold : ∀ r, r ∈ get_favorite_quotes user_id s ↔
                      r ∈ quotes s ∧ q_user_id r = user_id ∧
                      is_favorite r = 1).
  { intros r. unfold get_favorite_quotes.
    rewrite elem_of_newest_first, list_elem_of_filter. tauto. }
  assert (Hf_id : ∀ r, q_id (f r) = q_id r ∧ q_user_id (f r) = q_user_id r).
  { intros r. unfold f.
    by destruct (decide (q_id r = quote_id ∧ q_user_id r = user_id)). }
  split; [|split; [|split; [|by destruct (bool_decide _)]]].
  - intros H0. assert (flag = 1) as Hflag
      by (unfold flag; by destruct (decide _)).
    rewrite bool_decide_eq_true_2 by done. cbn [sent store].
    split; [reflexivity|]. apply Hmem. exists q.
    assert (Hfq : f q = with_favorite 1 q).
    { unfold f. rewrite Hflag. by rewrite decide_True. }
    rewrite <- Hfq. split; [done|]. split; [done|].
    rewrite Hfq. by split.
  - intros H0. assert (flag = 0) as Hflag
      by (unfold flag; by destruct (decide _)).
    rewrite bool_decide_eq_false_2 by done. cbn [sent store].
    split; [reflexivity|].
    intros r (r0 & -> & Hr0 & Hru & Hrf)%Hmem Hrid.
    destruct (Hf_id r0) as [Hi Huid]. revert Hrf. unfold f.
    rewrite decide_True; [rewrite Hflag; done|]. split; congruence.
  - intros r Hrid.
    assert (Hst : store (if bool_decide (is_favorite q = 0)
                    then Outcome [reply_text ("Quote #" +:+ Text.of_Z quote_id
                                   +:+ " " +:+ "added to" +:+ " favorites.")]
                           ud (Db (users s0) (f <$> quotes s0) (quotes_seq s0))
                    else Outcome [reply_text ("Quote #" +:+ Text.of_Z quote_id
                                   +:+ " " +:+ "removed from" +:+ " favorites.")]
                           ud (Db (users s0) (f <$> quotes s0) (quotes_seq s0)))
                  = Db (users s0) (f <$> quotes s0) (quotes_seq s0))
      by by destruct (bool_decide _).
    rewrite Hold. split.
    + intros Hr.
      assert (Hr' : r ∈ get_favorite_quotes user_id
                      (Db (users s0) (f <$> quotes s0) (quotes_seq s0))).
      { by destruct (bool_decide (is_favorite q = 0)). }
      apply Hmem in Hr' as (r0 & -> & Hr0 & Hru & Hrf).
      destruct (Hf_id r0) as [Hi _].
      assert (f r0 = r0) as Hfr
        by (unfold f; rewrite decide_False; [done|]; intros [? _]; congruence).
      rewrite Hfr in *. done.
    + intros (Hr & Hru & Hrf).
      assert (Hr' : r ∈ get_favorite_quotes user_id
                      (Db (users s0) (f <$> quotes s0) (quotes_seq s0))).
      { apply Hmem. exists r. split; [|done].
        unfold f. rewrite decide_False; [done|]. by intros [? _]. }
      by destruct (bool_decide (is_favorite q = 0)).
Qed.

Lemma fav_command_then_favorites_witness :
  let out := fav_command (Clock (1704200000 * 1000000) 0) (Update 1 None None)
               (Context ["1"] ∅) shared_db in
  sent out = [reply_text "Quote #1 added to favorites."] ∧
  q_id <$> get_favorite_quotes 1 (store out) = [1].
Proof.
  intros out.
  destruct (fav_command_then_favorites (Clock (1704200000 * 1000000) 0)
              (Update 1 None None) ∅ shared_db "1" [] 1
              (Quote 1 1 "mine" None None None None None 0 1 (Some 1704000000)
                 1703000000) eq_refl eq_refl) as (H1 & _).
  destruct (H1 eq_refl) as [Hsent _].
  split; [exact Hsent|reflexivity].
Defined.
